(** * UHH2-utils: the XML / ntuple-directory indexer ([create_sql_db_xml.py])

    A shallow embedding of the path-convention, descriptor-scanning and
    row-generation code of [create_sql_db_xml.py], and the properties of it
    that the specification states.

    Conventions of the embedding:
    - a Python [str] is a [string]: its characters are the code points
      below 256, so that the descriptors and the storage paths are texts of
      the Latin-1 range; a Python [bytes] is a [string] of bytes;
    - a Python list is a [list]; the [set] of directories is a [gset string];
    - code that can raise returns a [result]: [Ok v] or [Raise e];
    - the operating system (directory tree, working directory, local-time
      formatting, version-control answers) is an explicit [os_env] value. *)

From Stdlib Require Import ZArith QArith Qabs List Ascii String Bool Lia.
From stdpp Require Import gmap strings.
Import ListNotations.

Local Open Scope string_scope.
Local Open Scope list_scope.

(** ** Python values and exceptions *)

Inductive exn : Type :=
| ValueError (msg : string)
| IndexError (msg : string)
| IOError (msg : string)
| OSError (msg : string)
| UnicodeDecodeError (msg : string).

Inductive result (A : Type) : Type :=
| Ok (a : A)
| Raise (e : exn).
Arguments Ok {A} a.
Arguments Raise {A} e.

Definition bind {A B : Type} (m : result A) (k : A -> result B) : result B :=
  match m with
  | Ok a => k a
  | Raise e => Raise e
  end.

Notation "'do' x <- m ; k" := (bind m (fun x => k))
  (at level 10, x name, m at level 100, k at level 200).

(** The values that end up in a row dictionary. A float is kept as the
    rational number that the double is: the only float the code makes is a
    byte count divided by 1024. *)
Inductive pyval : Type :=
| VNone
| VStr (s : string)
| VInt (z : Z)
| VFloat (q : Q).

(** A row is a [dict] built by keyword arguments and item assignment: keys in
    insertion order. *)
Definition row : Type := list (string * pyval).

Fixpoint row_get (k : string) (r : row) : option pyval :=
  match r with
  | [] => None
  | (k', v) :: r' => if String.eqb k' k then Some v else row_get k r'
  end.

(** [d[k] = v]: replaces the value of an existing key in place, appends a new
    key at the end. *)
Fixpoint row_set (k : string) (v : pyval) (r : row) : row :=
  match r with
  | [] => [(k, v)]
  | (k', v') :: r' =>
      if String.eqb k' k then (k', v) :: r' else (k', v') :: row_set k v r'
  end.

(** ** String primitives of Python *)

Definition slash : ascii := "/"%char.
Definition newline : ascii := "010"%char.
Definition dquote : ascii := "034"%char.

(** [str.isspace] on one character, which is what [str.strip()] removes
    (Python 3): tab to carriage return, the four separators 28 to 31, the
    space, and, above the ASCII range, the next-line control U+0085 and the
    no-break space U+00A0. *)
Definition is_space (c : ascii) : bool :=
  let n := nat_of_ascii c in
  ((9 <=? n)%nat && (n <=? 13)%nat) || ((28 <=? n)%nat && (n <=? 32)%nat)
  || (n =? 133)%nat || (n =? 160)%nat.

(** [p] is an initial part of [s] *)
Fixpoint is_prefix (p s : string) : bool :=
  match p, s with
  | "", _ => true
  | String a p', String b s' => Ascii.eqb a b && is_prefix p' s'
  | String _ _, "" => false
  end.

(** [sub in s] *)
Fixpoint contains (sub s : string) : bool :=
  is_prefix sub s
  || match s with
     | "" => false
     | String _ s' => contains sub s'
     end.

(** [s.startswith(p)] and [s.endswith(p)] *)
Definition startswith (s p : string) : bool := is_prefix p s.

Fixpoint endswith (s p : string) : bool :=
  String.eqb s p
  || match s with
     | "" => false
     | String _ s' => endswith s' p
     end.

(** [s.lstrip(chars)], [s.rstrip(chars)], with the character set as a
    predicate. *)
Fixpoint lstrip_by (f : ascii -> bool) (s : string) : string :=
  match s with
  | "" => ""
  | String c s' => if f c then lstrip_by f s' else s
  end.

Fixpoint rstrip_by (f : ascii -> bool) (s : string) : string :=
  match s with
  | "" => ""
  | String c s' =>
      match rstrip_by f s' with
      | "" => if f c then "" else String c ""
      | r => String c r
      end
  end.

(** [s.strip()] *)
Definition strip (s : string) : string := rstrip_by is_space (lstrip_by is_space s).

(** [s.split(sep)] for a one-character separator: never the empty list. *)
Fixpoint split (sep : ascii) (s : string) : list string :=
  match s with
  | "" => [""]
  | String c s' =>
      if Ascii.eqb c sep then "" :: split sep s'
      else match split sep s' with
           | [] => [String c ""]
           | w :: ws => String c w :: ws
           end
  end.

(** [sep.join(parts)] *)
Definition join (sep : string) (parts : list string) : string :=
  String.concat sep parts.

(** [s.rfind(c)]: the highest index of [c], or -1. *)
Fixpoint rfind (c : ascii) (s : string) : Z :=
  match s with
  | "" => (-1)%Z
  | String a s' =>
      let r := rfind c s' in
      if (0 <=? r)%Z then (r + 1)%Z
      else if Ascii.eqb a c then 0%Z else (-1)%Z
  end.

(** [s[:i]] for [0 <= i]. *)
Definition slice_to (i : Z) (s : string) : string :=
  String.substring 0 (Z.to_nat i) s.

(** [c * n] for a one-character string [c] *)
Fixpoint str_repeat (c : ascii) (n : nat) : string :=
  match n with
  | O => ""
  | S n' => String c (str_repeat c n')
  end.

(** [l.index(x)]: position of the first element equal to [x]; raises
    [ValueError] when there is none. *)
Fixpoint list_index (x : string) (l : list string) : result nat :=
  match l with
  | [] => Raise (ValueError "x not in list")
  | y :: l' =>
      if String.eqb y x then Ok O
      else do i <- list_index x l' ; Ok (S i)
  end.

(** [l[i]] for [0 <= i]; raises [IndexError] out of range. *)
Definition list_get (l : list string) (i : nat) : result string :=
  match nth_error l i with
  | Some x => Ok x
  | None => Raise (IndexError "list index out of range")
  end.

(** ** [posixpath] *)

(** [os.path.dirname] *)
Definition dirname (p : string) : string :=
  let i := (rfind slash p + 1)%Z in
  let head := slice_to i p in
  if negb (String.eqb head "")
     && negb (String.eqb head (str_repeat slash (String.length head)))
  then rstrip_by (Ascii.eqb slash) head
  else head.

Definition is_nil {A : Type} (l : list A) : bool :=
  match l with [] => true | _ => false end.

(** One turn of the component loop of [os.path.normpath]. *)
Definition normpath_step (initial_slashes : nat) (new_comps : list string)
    (comp : string) : list string :=
  if String.eqb comp "" || String.eqb comp "." then new_comps
  else if negb (String.eqb comp "..")
          || ((initial_slashes =? 0)%nat && is_nil new_comps)
          || (negb (is_nil new_comps) && String.eqb (List.last new_comps "") "..")
  then new_comps ++ [comp]
  else if negb (is_nil new_comps) then List.removelast new_comps
  else new_comps.

Definition initial_slashes_of (path : string) : nat :=
  if startswith path "/" then
    if startswith path "//" && negb (startswith path "///") then 2%nat else 1%nat
  else 0%nat.

(** [os.path.normpath] *)
Definition normpath (path : string) : string :=
  if String.eqb path "" then "."
  else
    let initial_slashes := initial_slashes_of path in
    let comps := split slash path in
    let new_comps := fold_left (normpath_step initial_slashes) comps [] in
    let path := join "/" new_comps in
    let path :=
      if (initial_slashes =? 0)%nat then path
      else str_repeat slash initial_slashes +:+ path in
    if String.eqb path "" then "." else path.

(** [os.path.join(a, b)] *)
Definition path_join (a b : string) : string :=
  if startswith b "/" then b
  else if String.eqb a "" || endswith a "/" then a +:+ b
  else a +:+ "/" +:+ b.

(** [os.path.splitext(p)[1]] *)
Definition str_all (f : ascii -> bool) (s : string) : bool :=
  forallb f (list_ascii_of_string s).

Definition splitext_ext (p : string) : string :=
  let sepIndex := rfind slash p in
  let dotIndex := rfind "."%char p in
  if (sepIndex <? dotIndex)%Z then
    let filenameIndex := Z.to_nat (sepIndex + 1) in
    let stem := String.substring filenameIndex (Z.to_nat dotIndex - filenameIndex) p in
    if str_all (Ascii.eqb "."%char) stem then ""
    else String.substring (Z.to_nat dotIndex) (String.length p) p
  else "".

(** ** Regular expressions ([re]), as far as the patterns of the code go

    A backtracking matcher in continuation-passing style: greedy operators
    try the longer alternative first, as [re] does. The state is the offset
    in the subject, the text that is left, and the groups closed so far. *)

Inductive regex : Type :=
| RLit (s : string)               (* literal text *)
| ROptChar (c : ascii)            (* [c?] *)
| RSet (f : ascii -> bool)        (* one character of a class *)
| RPlusSet (f : ascii -> bool)    (* [class+] *)
| RBol                            (* [^] *)
| REol                            (* [$]: at the end, or before a final newline *)
| RGroup (r : regex)              (* [( r )] *)
| RSeq (r1 r2 : regex).

Definition is_digit (c : ascii) : bool :=
  let n := nat_of_ascii c in (48 <=? n)%nat && (n <=? 57)%nat.

(** [.] without DOTALL *)
Definition not_newline (c : ascii) : bool := negb (Ascii.eqb c newline).

Fixpoint drop_str (n : nat) (s : string) : string :=
  match n, s with
  | O, _ => s
  | S n', String _ s' => drop_str n' s'
  | S _, "" => ""
  end.

Definition or_else {A : Type} (a b : option A) : option A :=
  match a with
  | Some x => Some x
  | None => b
  end.

Fixpoint star_set {A : Type} (f : ascii -> bool) (pos : nat) (s : string)
    (k : nat -> string -> option A) : option A :=
  match s with
  | String c s' =>
      if f c then or_else (star_set f (S pos) s' k) (k pos s) else k pos s
  | "" => k pos s
  end.

Fixpoint rx (r : regex) (pos : nat) (s : string) (gs : list string)
    (k : nat -> string -> list string -> option (list string))
    : option (list string) :=
  match r with
  | RLit l =>
      if is_prefix l s
      then k (pos + String.length l)%nat (drop_str (String.length l) s) gs
      else None
  | ROptChar c =>
      match s with
      | String a s' =>
          if Ascii.eqb a c then or_else (k (S pos) s' gs) (k pos s gs)
          else k pos s gs
      | "" => k pos s gs
      end
  | RSet f =>
      match s with
      | String a s' => if f a then k (S pos) s' gs else None
      | "" => None
      end
  | RPlusSet f =>
      match s with
      | String a s' =>
          if f a then star_set f (S pos) s' (fun p t => k p t gs) else None
      | "" => None
      end
  | RBol => if (pos =? 0)%nat then k pos s gs else None
  | REol =>
      if String.eqb s "" || String.eqb s (String newline "")
      then k pos s gs else None
  | RGroup r' =>
      rx r' pos s gs
         (fun p t gs' => k p t (gs' ++ [String.substring 0 (p - pos) s]))
  | RSeq r1 r2 =>
      rx r1 pos s gs (fun p t gs' => rx r2 p t gs' k)
  end.

Fixpoint rseq (rs : list regex) : regex :=
  match rs with
  | [] => RLit ""
  | [r] => r
  | r :: rs' => RSeq r (rseq rs')
  end.

(** [r{n}] *)
Fixpoint rtimes (n : nat) (r : regex) : regex :=
  match n with
  | O => RLit ""
  | S O => r
  | S n' => RSeq r (rtimes n' r)
  end.

(** [re.match(r, s)]: the groups of the match at offset 0, if any. *)
Definition re_match (r : regex) (s : string) : option (list string) :=
  rx r 0 s [] (fun _ _ gs => Some gs).

(** [re.search(r, s)]: the groups of the leftmost match. *)
Fixpoint re_search_from (r : regex) (pos : nat) (s : string)
    : option (list string) :=
  or_else (rx r pos s [] (fun _ _ gs => Some gs))
          match s with
          | "" => None
          | String _ s' => re_search_from r (S pos) s'
          end.

Definition re_search (r : regex) (s : string) : option (list string) :=
  re_search_from r 0 s.

Definition is_some {A : Type} (o : option A) : bool :=
  match o with Some _ => true | None => false end.

(** ** XMLFileDataGenerator: year and branch of a descriptor path *)

Definition branch_pattern : string := "RunII_".

(** [r"[0-9]+X_"] *)
Definition branch_pattern2 : regex := RSeq (RPlusSet is_digit) (RLit "X_").

Definition _is_year (s : string) : bool :=
  (contains "16" s || contains "17" s || contains "18" s)
  && negb (contains ".xml" s).

Definition get_year_from_path (path : string) : result (option string) :=
  let parts := split slash path in
  match List.find (contains branch_pattern) parts with
  | Some p =>
      do ind <- list_index p parts ;
      if (ind =? List.length parts - 1)%nat then Ok None
      else
        do year <- list_get parts (ind + 1) ;
        Ok (if _is_year year then Some year else None)
  | None => Ok (List.find _is_year parts)
  end.

Definition get_branch_from_path (path : string) : option string :=
  let parts := split slash path in
  List.find
    (fun p => (contains branch_pattern p || is_some (re_search branch_pattern2 p))
              && negb (contains ".xml" p))
    parts.

(** ** XMLNtupleDirDataGenerator: owner of a directory, shard stripping *)

Definition get_dir_user (ntuple_dir : string) : result (option string) :=
  if negb (contains "/user/" ntuple_dir) && negb (contains "/group/" ntuple_dir)
  then Ok None
  else
    let ntuple_dir := normpath ntuple_dir in
    let parts := split slash ntuple_dir in
    if contains "/user/" ntuple_dir then
      do ind <- list_index "user" parts ;
      if (ind =? List.length parts - 1)%nat then Ok None
      else do u <- list_get parts (ind + 1) ; Ok (Some u)
    else if contains "/group/" ntuple_dir then
      do ind <- list_index "group" parts ;
      if (ind =? List.length parts - 1)%nat then Ok None
      else do u <- list_get parts (ind + 1) ; Ok (Some u)
    else Ok None.

(** [r"^[0-9]{4}$"] *)
Definition shard_pattern : regex := rseq [RBol; rtimes 4 (RSet is_digit); REol].

(** What the loop of [get_ntuple_dirs_from_xml] does to a directory name
    once [os.path.dirname] has been taken: separators are normalised and a
    last segment of four digits is dropped. *)
Definition strip_shard_dir (dir_name : string) : string :=
  let dir_name := normpath dir_name in
  let parts := split slash dir_name in
  if is_some (re_match shard_pattern (List.last parts ""))
  then join "/" (List.removelast parts)
  else dir_name.

(** The body of the loop, for one referenced file name. *)
Definition ntuple_dir_of (ntuple_fname : string) : string :=
  strip_shard_dir (dirname ntuple_fname).

(** [< ?In FileName="(.+)" Lumi="0\.0" ?\/>] *)
Definition fname_pattern : regex :=
  rseq [ RLit "<"; ROptChar " "%char;
         RLit ("In FileName=" +:+ String dquote "");
         RGroup (RPlusSet not_newline);
         RLit (String dquote " Lumi=" +:+ String dquote "0.0" +:+ String dquote "");
         ROptChar " "%char;
         RLit "/>" ].

(** ** The operating system

    A directory tree without symbolic links. A file has its text (as the
    text layer hands it to Python, line ends being newline characters) and
    what [lstat] says of it, [None] when [lstat] fails with [OSError].
    Entries are kept in the order in which the directory is listed. *)

Record stat : Type := { st_size : Z; st_ctime : Q }.

Inductive node : Type :=
| File (content : string) (st : option stat)
| Dir (st : stat) (entries : list (string * node)).

Record os_env : Type := {
  fs_root : node;
  (** [os.getcwd()], an absolute path *)
  cwd : string;
  (** [datetime.datetime.fromtimestamp(t).isoformat(' ')], which depends on
      the local time zone *)
  isoformat_local : Q -> string;
  (** what [get_git_remote_info()] and [get_git_current_branch()] obtain
      from the [git] subprocess in the scanned directory *)
  git_remote_info : string -> result (string * string);
  git_current_branch : string -> result string
}.

Fixpoint lookup_entry (name : string) (es : list (string * node)) : option node :=
  match es with
  | [] => None
  | (n, x) :: es' => if String.eqb n name then Some x else lookup_entry name es'
  end.

(** Path resolution, one component at a time, on the stack of the
    directories entered so far (innermost first). Every component, also an
    empty one or a dot, needs the current node to be a directory. *)
Fixpoint descend (stack : list node) (comps : list string) : option (list node) :=
  match comps with
  | [] => Some stack
  | c :: cs =>
      match stack with
      | Dir st es :: up =>
          if String.eqb c "" || String.eqb c "." then descend stack cs
          else if String.eqb c ".." then
            descend (if is_nil up then stack else up) cs
          else
            match lookup_entry c es with
            | Some x => descend (x :: stack) cs
            | None => None
            end
      | _ => None
      end
  end.

Definition resolve (env : os_env) (path : string) : option node :=
  if String.eqb path "" then None
  else
    let start :=
      if startswith path "/" then Some [fs_root env]
      else descend [fs_root env] (split slash (cwd env)) in
    match start with
    | Some st =>
        match descend st (split slash path) with
        | Some (x :: _) => Some x
        | _ => None
        end
    | None => None
    end.

(** [os.path.isdir] *)
Definition isdir (env : os_env) (path : string) : bool :=
  match resolve env path with
  | Some (Dir _ _) => true
  | _ => false
  end.

(** [os.lstat] *)
Definition lstat (env : os_env) (path : string) : result stat :=
  match resolve env path with
  | Some (Dir st _) => Ok st
  | Some (File _ (Some st)) => Ok st
  | _ => Raise (OSError path)
  end.

(** The lines of a text, each with its newline, as iterating over a file
    object gives them. *)
Fixpoint file_lines (s : string) : list string :=
  match s with
  | "" => []
  | String c s' =>
      if Ascii.eqb c newline then String c "" :: file_lines s'
      else match file_lines s' with
           | [] => [String c ""]
           | l :: ls => String c l :: ls
           end
  end.

(** [open(path)] followed by iteration over the lines *)
Definition open_lines (env : os_env) (path : string) : result (list string) :=
  match resolve env path with
  | Some (File content _) => Ok (file_lines content)
  | _ => Raise (IOError path)
  end.

Definition is_dir_node (x : node) : bool :=
  match x with Dir _ _ => true | File _ _ => false end.

(** [os.walk], top-down, from a node reached as [top]. *)
Fixpoint walk_node (top : string) (x : node)
    : list (string * list string * list string) :=
  match x with
  | File _ _ => []
  | Dir _ es =>
      let dirs := map fst (List.filter (fun e => is_dir_node (snd e)) es) in
      let nondirs := map fst (List.filter (fun e => negb (is_dir_node (snd e))) es) in
      (top, dirs, nondirs)
        :: flat_map (fun e =>
                       match snd e with
                       | Dir _ _ => walk_node (path_join top (fst e)) (snd e)
                       | File _ _ => []
                       end) es
  end.

Definition os_walk (env : os_env) (top : string)
    : list (string * list string * list string) :=
  match resolve env top with
  | Some x => walk_node top x
  | None => []
  end.

(** [os.path.abspath] *)
Definition abspath (env : os_env) (path : string) : string :=
  normpath (path_join (cwd env) path).

Fixpoint commonprefix (a b : list string) : list string :=
  match a, b with
  | x :: a', y :: b' => if String.eqb x y then x :: commonprefix a' b' else []
  | _, _ => []
  end.

Definition nonempty (s : string) : bool := negb (String.eqb s "").

(** [os.path.relpath(path, start)] *)
Definition relpath (env : os_env) (path start : string) : result string :=
  if String.eqb path "" then Raise (ValueError "no path specified")
  else
    let start_list := List.filter nonempty (split slash (abspath env start)) in
    let path_list := List.filter nonempty (split slash (abspath env path)) in
    let i := List.length (commonprefix start_list path_list) in
    let rel_list :=
      List.repeat ".." (List.length start_list - i) ++ skipn i path_list in
    match rel_list with
    | [] => Ok "."
    | x :: xs => Ok (fold_left path_join xs x)
    end.

(** ** The generators *)

(** [get_xml_filenames], the same in both generator classes. *)
Fixpoint xml_files_of (env : os_env) (top_dir root : string)
    (files : list string) : result (list string) :=
  match files with
  | [] => Ok []
  | filename :: files' =>
      if negb (String.eqb (splitext_ext filename) ".xml")
      then xml_files_of env top_dir root files'
      else
        let full_filename := path_join root filename in
        do full_filename <- relpath env full_filename top_dir ;
        do rest <- xml_files_of env top_dir root files' ;
        Ok (full_filename :: rest)
  end.

Fixpoint xml_files_walk (env : os_env) (top_dir : string)
    (w : list (string * list string * list string)) : result (list string) :=
  match w with
  | [] => Ok []
  | (root, dirs, files) :: w' =>
      do here <- xml_files_of env top_dir root files ;
      do rest <- xml_files_walk env top_dir w' ;
      Ok (here ++ rest)
  end.

Definition get_xml_filenames (env : os_env) (top_dir : string)
    : result (list string) :=
  xml_files_walk env top_dir (os_walk env top_dir).

Definition opt_str_or (o : option string) (d : string) : string :=
  match o with Some s => s | None => d end.

(** [XMLFileDataGenerator.get_xml_data] *)
Definition get_xml_data (git_source xml_path : string) : result row :=
  let path := normpath xml_path in
  do year <- get_year_from_path path ;
  let year := opt_str_or year "" in
  let branch := opt_str_or (get_branch_from_path path) "" in
  Ok [ ("filepath", VStr xml_path); ("year", VStr year);
       ("branch", VStr branch); ("git_src", VStr git_source) ].

Fixpoint mapM {A B : Type} (f : A -> result B) (l : list A) : result (list B) :=
  match l with
  | [] => Ok []
  | a :: l' => do b <- f a ; do bs <- mapM f l' ; Ok (b :: bs)
  end.

(** [XMLFileDataGenerator.__iter__], run to its end *)
Definition xml_file_rows (env : os_env) (top_dir git_source : string)
    : result (list row) :=
  do names <- get_xml_filenames env top_dir ;
  mapM (get_xml_data git_source) names.

(** The loop of [get_ntuple_filenames_from_xml] over the lines of the file,
    with the [is_comment] flag as its state. *)
Fixpoint ntuple_filenames_loop (is_comment : bool) (lines : list string)
    : list string :=
  match lines with
  | [] => []
  | line :: rest =>
      let line := strip line in
      let is_comment := if startswith line "<!--" then true else is_comment in
      if endswith line "-->" then ntuple_filenames_loop false rest
      else if is_comment then ntuple_filenames_loop is_comment rest
      else
        match re_search fname_pattern (strip line) with
        | None => ntuple_filenames_loop is_comment rest
        | Some groups =>
            let fname := nth 0 groups "" in
            fname :: ntuple_filenames_loop is_comment rest
        end
  end.

Definition get_ntuple_filenames_from_xml (env : os_env) (xml_filename : string)
    : result (list string) :=
  do lines <- open_lines env xml_filename ;
  Ok (ntuple_filenames_loop false lines).

(** The set built by [get_ntuple_dirs_from_xml] from the referenced names. *)
Definition ntuple_dirs_set (fnames : list string) : gset string :=
  fold_left (fun dirs ntuple_fname => {[ ntuple_dir_of ntuple_fname ]} ∪ dirs)
            fnames ∅.

Definition get_ntuple_dirs_from_xml (env : os_env) (xml_filename : string)
    : result (list string) :=
  do fnames <- get_ntuple_filenames_from_xml env xml_filename ;
  Ok (elements (ntuple_dirs_set fnames)).

(** The integer nearest to [n / d], for [d > 0]; of two integers equally
    near, the even one. *)
Definition round_half_even (n d : Z) : Z :=
  let q := (n / d)%Z in
  let r := (n mod d)%Z in
  if (2 * r <? d)%Z then q
  else if (d <? 2 * r)%Z then (q + 1)%Z
  else if Z.even q then q else (q + 1)%Z.

(** The double nearest to the integer [n]. A double has 53 significant
    bits: an integer of more bits is rounded at its 53rd bit, to the even
    significand when it lies half-way. *)
Definition nearest_double (n : Z) : Z :=
  let e := (Z.log2 (Z.abs n) - 52)%Z in
  if (e <=? 0)%Z then n
  else (Z.sgn n * (round_half_even (Z.abs n) (2 ^ e) * 2 ^ e))%Z.

(** [n / 1024] for an [int] [n], the true division of Python 3: the double
    nearest to the exact quotient. Dividing by 1024, a power of two, only
    moves the exponent, so that the quotient is the double nearest to [n],
    over 1024. The exponent of a double ends at 1023: from about 2^1034
    bytes on, which no tree of files with 64-bit sizes comes near, the
    division raises [OverflowError] instead; the properties of the quotient
    are stated below that bound. *)
Definition true_div_1024 (n : Z) : Q :=
  inject_Z (nearest_double n) / inject_Z 1024.

(** The sum of [get_size]: files whose [lstat] fails are left out of it. *)
Definition total_size (env : os_env) (path : string) : Z :=
  fold_left
    (fun total '(dirpath, _, filenames) =>
       fold_left
         (fun total f =>
            let fp := path_join dirpath f in
            match lstat env fp with
            | Ok st => (total + st_size st)%Z
            | Raise _ => total
            end)
         filenames total)
    (os_walk env path) 0%Z.

(** [get_size] *)
Definition get_size (env : os_env) (path : string) : Q :=
  true_div_1024 (total_size env path).

Definition get_creation_time (env : os_env) (thing : string) : result string :=
  do st <- lstat env thing ;
  Ok (isoformat_local env (st_ctime st)).

Definition opt_val (o : option string) : pyval :=
  match o with Some s => VStr s | None => VNone end.

Definition get_ntuple_dir_data (env : os_env) (ntuple_dir : string) : result row :=
  let size := VInt (-1) in
  let creation_time := "-1" in
  do user <- get_dir_user ntuple_dir ;
  do sc <-
    (if isdir env ntuple_dir then
       let size := VFloat (get_size env ntuple_dir) in
       do creation_time <- get_creation_time env ntuple_dir ;
       Ok (size, creation_time)
     else Ok (size, creation_time)) ;
  Ok [ ("ntuple_dir", VStr ntuple_dir); ("size", fst sc);
       ("user", opt_val user); ("creation_time", VStr (snd sc)) ].

(** [XMLNtupleDirDataGenerator.__iter__], run to its end. The state is the
    counter of directories and the seconds slept so far. *)
Record iter_state : Type := { counter : nat; slept : nat }.

Fixpoint ntuple_rows_of_dirs (env : os_env) (xml_path : string)
    (st : iter_state) (dirs : list string) : result (iter_state * list row) :=
  match dirs with
  | [] => Ok (st, [])
  | ntuple_dir :: dirs' =>
      let counter := S (counter st) in
      let st := {| counter := counter;
                   slept := if (counter mod 1000 =? 0)%nat
                            then (slept st + 5)%nat else slept st |} in
      do data <- get_ntuple_dir_data env ntuple_dir ;
      let data := row_set "xml_filepath" (VStr xml_path) data in
      do r <- ntuple_rows_of_dirs env xml_path st dirs' ;
      Ok (fst r, data :: snd r)
  end.

Fixpoint ntuple_rows_of_xmls (env : os_env) (top_dir : string)
    (st : iter_state) (xml_paths : list string) : result (iter_state * list row) :=
  match xml_paths with
  | [] => Ok (st, [])
  | xml_path :: xml_paths' =>
      do dirs <- get_ntuple_dirs_from_xml env (path_join top_dir xml_path) ;
      do r1 <- ntuple_rows_of_dirs env xml_path st dirs ;
      do r2 <- ntuple_rows_of_xmls env top_dir (fst r1) xml_paths' ;
      Ok (fst r2, snd r1 ++ snd r2)
  end.

Definition xml_ntuple_dir_rows (env : os_env) (top_dir : string)
    : result (iter_state * list row) :=
  do names <- get_xml_filenames env top_dir ;
  ntuple_rows_of_xmls env top_dir {| counter := 0; slept := 0 |} names.

(** ** SQLTable: the statements sent to the database

    The database file is seen through the statements executed on it, in
    order, each with its arguments. A call that raises is a [Raise]: the
    statements sent before the exception are then not told.

    [execute_query] hands the statement to the engine. The engine can
    refuse it, an insertion into a table that was never created for one,
    and [execute_query] then raises [sqlite3.Error] again; the log tells
    the statements of a run in which the engine accepts each of them. So a
    run of the code that returns is a run of these functions that returns,
    with this log, and what is proved of every returning run holds of it;
    that a run returns is only said of runs that create their tables first
    or find them created. *)

Definition db : Type := list (string * list pyval).

Definition execute_query (query : string) (args : list pyval) (d : db) : db :=
  d ++ [(query, args)].

Definition nl : string := String newline "".
Definition dq : string := String dquote "".
Definition indent (n : nat) : string := str_repeat " "%char n.

Definition create_table_cmd (table_name : string) (table_fields : list string)
    : string :=
  nl +:+ indent 12 +:+ "CREATE TABLE " +:+ dq +:+ table_name +:+ dq +:+ " ("
     +:+ join "," table_fields +:+ ");" +:+ nl +:+ indent 12.

Definition create_table (table_name : string) (table_fields : list string)
    (d : db) : db :=
  let d := execute_query ("DROP TABLE IF EXISTS " +:+ table_name +:+ ";") [] d in
  execute_query (create_table_cmd table_name table_fields) [] d.

Definition insert_cmd (table_name : string) (data : row) : string :=
  nl +:+ indent 12 +:+ "INSERT INTO " +:+ dq +:+ table_name +:+ dq +:+ " ("
     +:+ join ", " (map fst data) +:+ ")" +:+ nl +:+ indent 12 +:+ "VALUES ("
     +:+ join "," (map (fun _ => "?") data) +:+ ");" +:+ nl +:+ indent 8.

Definition insert_into_table (table_name : string) (data : row) (d : db) : db :=
  execute_query (insert_cmd table_name data) (map snd data) d.

Definition fill_table (table_name : string) (rows : list row) (d : db) : db :=
  fold_left (fun d data => insert_into_table table_name data d) rows d.

Definition xml_table_fields : list string :=
  [ "filepath TEXT NOT NULL";
    "branch TEXT NOT NULL";
    "git_src TEXT";
    "year TEXT NOT NULL" ].

(** [create_xml_table]. The database of [output_filename] is the [db]
    passed along; the change of working directory around the two [git]
    calls is in [git_remote_info] and [git_current_branch], which are asked
    about [top_dir]; what is printed is left out. *)
Definition create_xml_table (env : os_env) (top_dir table_name : string)
    (append : bool) (d : db) : result db :=
  if negb (isdir env top_dir)
  then Raise (IOError (top_dir +:+ " does not exist"))
  else
    let d := if negb append then create_table table_name xml_table_fields d else d in
    do remote <- git_remote_info env top_dir ;
    let remote_url := snd remote in
    do branch <- git_current_branch env top_dir ;
    do rows <- xml_file_rows env top_dir (remote_url +:+ "/" +:+ branch) ;
    Ok (fill_table table_name rows d).

Definition xml_ntuple_dir_table_fields : list string :=
  [ "xml_filepath TEXT NOT NULL";
    "ntuple_dir TEXT NOT NULL";
    "size FLOAT";
    "user TEXT";
    "creation_time TEXT" ].

Definition create_xml_ntuple_dir_table (env : os_env) (top_dir table_name : string)
    (append : bool) (d : db) : result db :=
  if negb (isdir env top_dir)
  then Raise (IOError (top_dir +:+ " does not exist"))
  else
    let d :=
      if negb append
      then create_table table_name xml_ntuple_dir_table_fields d else d in
    do r <- xml_ntuple_dir_rows env top_dir ;
    Ok (fill_table table_name (snd r) d).

(** [create_tables], with the default table names *)
Definition create_tables (env : os_env) (top_dir : string) (append : bool)
    (d : db) : result db :=
  do d <- create_xml_table env top_dir "xml" append d ;
  create_xml_ntuple_dir_table env top_dir "xml_ntuple_dir" append d.

(** ** A scan root with one descriptor *)

(** The element that references one file, and the line that holds it. *)
Definition in_tag (fname : string) : string :=
  "<In FileName=" +:+ dq +:+ fname +:+ dq +:+ " Lumi=" +:+ dq +:+ "0.0" +:+ dq
    +:+ "/>".

Definition in_line (fname : string) : string := in_tag fname +:+ nl.

Definition a_xml : string :=
  in_line "RunII_102X_v1/2017v2/store/user/alice/job/0000/f1.root"
  +:+ in_line "RunII_102X_v1/2017v2/store/user/alice/job/0001/f2.root".

Definition some_stat : stat := {| st_size := 4096; st_ctime := 0 |}.

Definition file_of (content : string) : node :=
  File content (Some {| st_size := Z.of_nat (String.length content); st_ctime := 0 |}).

(** The tree [/scan/a.xml] (or [/scan/<sub>/a.xml] for the directories
    [sub]); the process runs in [/]. *)
Fixpoint under (sub : list string) (x : string * node) : string * node :=
  match sub with
  | [] => x
  | d :: sub' => (d, Dir some_stat [under sub' x])
  end.

Definition scan_env (sub : list string) : os_env :=
  {| fs_root := Dir some_stat [("scan", Dir some_stat [under sub ("a.xml", file_of a_xml)])];
     cwd := "/";
     isoformat_local := fun _ => "1970-01-01 00:00:00";
     git_remote_info := fun _ => Ok ("origin", "UHH2-datasets");
     git_current_branch := fun _ => Ok "master" |}.

(** ** The version-control answers

    [get_git_remote_info] runs [git] in a subprocess; here it is a function
    of the bytes that the subprocess writes. *)

(** Whitespace of [bytes.split()]: tab to carriage return, and the space. *)
Definition is_bspace (c : ascii) : bool :=
  let n := nat_of_ascii c in
  ((9 <=? n)%nat && (n <=? 13)%nat) || (n =? 32)%nat.

Definition carriage_return : ascii := "013"%char.

(** [s.splitlines()]: the lines without their ends; a line ends with a
    newline, a carriage return, or a carriage return and a newline. *)
Fixpoint splitlines (s : string) : list string :=
  match s with
  | "" => []
  | String c s' =>
      if Ascii.eqb c newline then "" :: splitlines s'
      else if Ascii.eqb c carriage_return then
        match s' with
        | String c' s'' =>
            if Ascii.eqb c' newline then "" :: splitlines s''
            else "" :: splitlines s'
        | "" => [""]
        end
      else match splitlines s' with
           | [] => [String c ""]
           | l :: ls => String c l :: ls
           end
  end.

(** [s.split()]: the fields between runs of whitespace. *)
Fixpoint fields (f : ascii -> bool) (s : string) : list string :=
  match s with
  | "" => []
  | String c s' =>
      if f c then fields f s'
      else
        match s' with
        | "" => [String c ""]
        | String c' _ =>
            if f c' then String c "" :: fields f s'
            else match fields f s' with
                 | [] => [String c ""]
                 | w :: ws => String c w :: ws
                 end
        end
  end.

(** [s.replace(old, new)] for a non-empty [old]: the occurrences are taken
    from the left and do not overlap. [skip] counts the characters of an
    occurrence still to pass over. *)
Fixpoint replace_from (old new : string) (skip : nat) (s : string) : string :=
  match s with
  | "" => ""
  | String c s' =>
      match skip with
      | S n => replace_from old new n s'
      | O =>
          if is_prefix old s
          then new +:+ replace_from old new (String.length old - 1) s'
          else String c (replace_from old new 0 s')
      end
  end.

Definition replace (old new s : string) : string := replace_from old new 0 s.

(** [bytes.decode()], which is strict UTF-8. The first byte of a character
    tells which bytes may follow it: [utf8_lead] gives the ranges of the
    bytes that have to follow, [None] for a byte that starts no character
    (a continuation byte, 192, 193, and 245 to 255). The ranges leave out
    the forms longer than needed, the surrogates and what lies above
    U+10FFFF. *)
Definition in_range (lo hi : nat) (c : ascii) : bool :=
  let n := nat_of_ascii c in (lo <=? n)%nat && (n <=? hi)%nat.

Definition utf8_lead (c : ascii) : option (list (nat * nat)) :=
  let n := nat_of_ascii c in
  if (n <=? 127)%nat then Some []
  else if (194 <=? n)%nat && (n <=? 223)%nat then Some [(128, 191)]
  else if (n =? 224)%nat then Some [(160, 191); (128, 191)]
  else if (n =? 237)%nat then Some [(128, 159); (128, 191)]
  else if (225 <=? n)%nat && (n <=? 239)%nat then Some [(128, 191); (128, 191)]
  else if (n =? 240)%nat then Some [(144, 191); (128, 191); (128, 191)]
  else if (241 <=? n)%nat && (n <=? 243)%nat
       then Some [(128, 191); (128, 191); (128, 191)]
  else if (n =? 244)%nat then Some [(128, 143); (128, 191); (128, 191)]
  else None.

(** [pending]: the ranges of the bytes that the character being read still
    needs. *)
Fixpoint utf8_valid (pending : list (nat * nat)) (b : string) : bool :=
  match b with
  | "" => is_nil pending
  | String c b' =>
      match pending with
      | (lo, hi) :: pending' => in_range lo hi c && utf8_valid pending' b'
      | [] =>
          match utf8_lead c with
          | Some pending' => utf8_valid pending' b'
          | None => false
          end
      end
  end.

(** The text that [decode] returns is kept in its UTF-8 form, which for
    ASCII text is the text itself. What [get_git_remote_info] does with it
    looks for ["/"], ["."] and [".git"] only, and in UTF-8 an ASCII
    character stands for itself wherever it occurs. *)
Definition decode (b : string) : result string :=
  if utf8_valid [] b then Ok b else Raise (UnicodeDecodeError b).

(** [get_git_remote_info], of the output of [git remote -v] *)
Definition get_git_remote_info (remote_str : string) : result (string * string) :=
  do line <- match splitlines remote_str with
             | line :: _ => Ok line
             | [] => Raise (IndexError "list index out of range")
             end ;
  match fields is_bspace line with
  | [remote_name; remote_url; _] =>
      do remote_name <- decode remote_name ;
      do remote_url <- decode remote_url ;
      let repo_name :=
        if endswith remote_url ".git"
        then replace ".git" "" (List.last (split slash remote_url) "")
        else
          let remote_url := normpath remote_url in
          List.last (split slash remote_url) "" in
      Ok (remote_name, repo_name)
  | _ => Raise (ValueError "wrong number of values to unpack")
  end.

(** ** [create_sql_db_user_dirs.py]

    [get_dir_user] and [get_creation_time] of this file are, word for word,
    those of [XMLNtupleDirDataGenerator]. [get_user_dir_sizes] lists the
    directories and their sizes with a [find] subprocess: what it yields is
    the [listing] given to [get_user_dir_data]. *)

Definition user_dir_row (env : os_env) (entry : string * Q) : result row :=
  let dirname := fst entry in
  let size := snd entry in
  do user <- get_dir_user dirname ;
  let user := opt_str_or user "" in
  do creation_time <- get_creation_time env dirname ;
  Ok [ ("dirname", VStr dirname); ("size", VFloat size);
       ("user", VStr user); ("creation_time", VStr creation_time) ].

(** [get_user_dir_data], run to its end *)
Definition get_user_dir_data (env : os_env) (listing : list (string * Q))
    : result (list row) :=
  mapM (user_dir_row env) listing.

Definition user_dir_table_fields : list string :=
  [ "dirname TEXT NOT NULL";
    "size FLOAT";
    "user TEXT";
    "creation_time TEXT" ].

Definition create_user_dir_table (env : os_env) (listing : list (string * Q))
    (table_name : string) (append : bool) (d : db) : result db :=
  let d :=
    if negb append then create_table table_name user_dir_table_fields d else d in
  do rows <- get_user_dir_data env listing ;
  Ok (fill_table table_name rows d).

(** * Vocabulary of the properties

    Predicates and derived functions in which the properties are stated:
    the shape of the results of [normpath], the shard test, the flag of the
    comment loop, the statements of the tables, and, where a property is
    compared with the wording of the specification, that wording. *)

(** [c] does not occur in [s] *)
Definition lacks (c : ascii) (s : string) : bool :=
  str_all (fun a => negb (Ascii.eqb a c)) s.

(** A component that [normpath] keeps. *)
Definition good (c : string) : Prop :=
  c <> "" /\ c <> "." /\ lacks slash c = true.

(** The kept components, last one first: a [".."] is only kept in a relative
    path and on top of nothing but [".."]. *)
Fixpoint clean_stack (k : nat) (st : list string) : Prop :=
  match st with
  | [] => True
  | c :: st' =>
      good c /\ (c = ".." -> k = 0%nat /\ Forall (eq "..") st') /\ clean_stack k st'
  end.

(** The same, for the components in their order. *)
Definition clean (k : nat) (l : list string) : Prop := clean_stack k (rev l).

(** What [normpath] returns for the slashes and components kept. *)
Definition render (k : nat) (l : list string) : string :=
  let path := join "/" l in
  let path := if (k =? 0)%nat then path else str_repeat slash k +:+ path in
  if String.eqb path "" then "." else path.

(** The components [normpath] keeps of a path. *)
Definition kept (path : string) : list string :=
  fold_left (normpath_step (initial_slashes_of path)) (split slash path) [].

(** The text after the leading slashes does not start with one. *)
Definition lead_not_slash (s : string) : Prop :=
  match s with
  | String a _ => Ascii.eqb a slash = false
  | "" => True
  end.

(** The text made of [k] slashes and the clean components [l]. *)
Definition path_of (k : nat) (l : list string) : string :=
  str_repeat slash k +:+ join "/" l.

(** The test of the loop: the segment matches [^[0-9]{4}$]. *)
Definition is_shard (seg : string) : bool := is_some (re_match shard_pattern seg).

(** Exactly four digits. *)
Definition four_digits (s : string) : bool :=
  match s with
  | String a (String b (String c (String d ""))) =>
      is_digit a && is_digit b && is_digit c && is_digit d
  | _ => false
  end.

(** The last of the segments of a path. *)
Definition last_segment (p : string) : string := List.last (split slash p) "".

(** The path without its last segment. *)
Definition parent_of (p : string) : string :=
  join "/" (List.removelast (split slash p)).

(** The segment does not have the branch pattern; it is no year. *)
Definition no_branch (q : string) : Prop := contains branch_pattern q = false.

Definition no_year (q : string) : Prop := _is_year q = false.

(** [resolve_owner] as the specification words it: the segment after the
    first segment equal to ["user"], else after the first equal to
    ["group"], among the segments of the separator-normal path. *)
Definition resolve_owner_spec (path : string) : option string :=
  let parts := split slash (normpath path) in
  let following (m : string) :=
    match list_index m parts with
    | Ok i => nth_error parts (i + 1)
    | Raise _ => None
    end in
  if existsb (String.eqb "user") parts then following "user"
  else if existsb (String.eqb "group") parts then following "group"
  else None.

(** The line, trimmed, ends a comment; it starts one. *)
Definition closes (line : string) : bool := endswith (strip line) "-->".

Definition opens (line : string) : bool := startswith (strip line) "<!--".

(** The [is_comment] flag after a line. *)
Definition flag_step (is_comment : bool) (line : string) : bool :=
  if closes line then false
  else if opens line then true
  else is_comment.

(** Lines with a commented reference between two plain ones. *)
Definition commented_example : list string :=
  [ in_line "/store/user/alice/job/0000/kept.root";
    "<!-- old files" +:+ nl;
    "  " +:+ in_line "/store/user/alice/job/0000/dropped.root";
    "-->" +:+ nl;
    in_line "/store/user/alice/job/0000/later.root" ].

(** A line that matches the pattern and ends with the closing marker. *)
Definition closing_example : string :=
  in_tag "/store/user/alice/job/0000/f1.root" +:+ " -->" +:+ nl.

(** The row is that of the directory [x]. *)
Definition row_dir_is (x : string) (r : row) : bool :=
  match row_get "ntuple_dir" r with
  | Some (VStr y) => String.eqb x y
  | _ => false
  end.

(** The statement of [insert_into_table] for a row. *)
Definition insert_stmt (table_name : string) (data : row) : string * list pyval :=
  (insert_cmd table_name data, map snd data).

(** The two statements of [create_table]. *)
Definition create_stmts (table_name : string) (table_fields : list string)
    : list (string * list pyval) :=
  [ ("DROP TABLE IF EXISTS " +:+ table_name +:+ ";", []);
    (create_table_cmd table_name table_fields, []) ].

(** The column order of the descriptor table as the specification lists it. *)
Definition xml_table_fields_spec : list string :=
  [ "filepath TEXT NOT NULL";
    "branch TEXT NOT NULL";
    "year TEXT NOT NULL";
    "git_src TEXT" ].

(** The statements of a fresh run on the scan root with one descriptor. *)
Definition scan_db_xml : db :=
  match create_xml_table (scan_env []) "/scan" "xml" false [] with
  | Ok d => d
  | Raise _ => []
  end.

Definition scan_db_ntuple_dir : db :=
  match create_xml_ntuple_dir_table (scan_env []) "/scan" "xml_ntuple_dir" false [] with
  | Ok d => d
  | Raise _ => []
  end.

(** The directory of the two referenced files, shards apart. *)
Definition job_dir : string := "RunII_102X_v1/2017v2/store/user/alice/job".

(** The file name has the extension of a descriptor. *)
Definition is_xml (filename : string) : bool :=
  String.eqb (splitext_ext filename) ".xml".

(** The file names of a walk, in the order of the walk. *)
Definition walk_files (w : list (string * list string * list string))
    : list string :=
  flat_map (fun t => snd t) w.

(** The row of a descriptor, as [get_xml_data] makes it when the year is
    found without an exception. *)
Definition descriptor_row (git_source xml_path : string) : row :=
  let year :=
    match get_year_from_path (normpath xml_path) with
    | Ok (Some y) => y
    | _ => ""
    end in
  [ ("filepath", VStr xml_path); ("year", VStr year);
    ("branch", VStr (opt_str_or (get_branch_from_path (normpath xml_path)) ""));
    ("git_src", VStr git_source) ].

(** No file has a negative size. *)
Definition sizes_not_negative (env : os_env) : Prop :=
  forall path st, lstat env path = Ok st -> (0 <= st_size st)%Z.

(** The same, read off the tree. *)
Fixpoint tree_sizes_ok (x : node) : Prop :=
  match x with
  | File _ None => True
  | File _ (Some st) => (0 <= st_size st)%Z
  | Dir st es =>
      (0 <= st_size st)%Z
      /\ (fix entries_ok (es : list (string * node)) : Prop :=
            match es with
            | [] => True
            | e :: es' => tree_sizes_ok (snd e) /\ entries_ok es'
            end) es
  end.

(** What a pattern matches, apart from the order in which the matcher
    tries: [matches r x gs gs'] says that the text [x] is matched by [r],
    the groups closed going from [gs] to [gs']. *)
Inductive matches : regex -> string -> list string -> list string -> Prop :=
| M_lit l gs : matches (RLit l) l gs gs
| M_opt_none c gs : matches (ROptChar c) "" gs gs
| M_opt_some c gs : matches (ROptChar c) (String c "") gs gs
| M_set f a gs : f a = true -> matches (RSet f) (String a "") gs gs
| M_plus f x gs :
    x <> "" -> str_all f x = true -> matches (RPlusSet f) x gs gs
| M_bol gs : matches RBol "" gs gs
| M_eol gs : matches REol "" gs gs
| M_group r x gs gs' :
    matches r x gs gs' -> matches (RGroup r) x gs (gs' ++ [x])
| M_seq r1 r2 x1 x2 gs gs1 gs2 :
    matches r1 x1 gs gs1 -> matches r2 x2 gs1 gs2 ->
    matches (RSeq r1 r2) (x1 +:+ x2) gs gs2.

(** The segment has a digit with ["X_"] right after it, as in [102X_v1]. *)
Definition has_release_tag (p : string) : Prop :=
  exists a c b, is_digit c = true /\ p = a +:+ String c ("X_" +:+ b).

(** The segment is taken for a branch by [get_branch_from_path]. *)
Definition branch_like (p : string) : Prop :=
  (contains branch_pattern p = true \/ has_release_tag p)
  /\ contains ".xml" p = false.

(** What follows the file name in the element that references a file. *)
Definition fname_tail : string :=
  dq +:+ " Lumi=" +:+ dq +:+ "0.0" +:+ dq +:+ "/>".

(** The element up to its closing ["/>"]. *)
Definition in_head (fname : string) : string :=
  "<In FileName=" +:+ dq +:+ fname +:+ dq +:+ " Lumi=" +:+ dq +:+ "0.0" +:+ dq.

(** The pattern after its group. *)
Definition fname_pattern_end : regex :=
  rseq [ RLit (String dquote " Lumi=" +:+ String dquote "0.0" +:+ String dquote "");
         ROptChar " "%char;
         RLit "/>" ].

(** A space or a tab. *)
Definition is_blank (c : ascii) : bool :=
  Ascii.eqb c " "%char || Ascii.eqb c "009"%char.

(** A descriptor that references one file [f] in each of [n] directories,
    the directory of rank [i] being named by [i + 1] letters, and a scan
    root that holds this descriptor only. *)
Definition long_name (i : nat) : string := str_repeat "a"%char (S i).

Definition long_refs (n : nat) : list string :=
  map (fun i => long_name i +:+ "/f") (seq 0 n).

Definition long_xml (n : nat) : string :=
  fold_right (fun fname rest => in_line fname +:+ rest) "" (long_refs n).

Definition long_env (n : nat) : os_env :=
  {| fs_root := Dir some_stat [("scan", Dir some_stat [("a.xml", file_of (long_xml n))])];
     cwd := "/";
     isoformat_local := fun _ => "1970-01-01 00:00:00";
     git_remote_info := fun _ => Ok ("origin", "UHH2-datasets");
     git_current_branch := fun _ => Ok "master" |}.

(** A directory [/big] with one file of 2^53 + 1 bytes, a size that is not
    a double. *)
Definition big_env : os_env :=
  {| fs_root :=
       Dir some_stat
         [("big", Dir some_stat
                    [("f", File "" (Some {| st_size := 2 ^ 53 + 1; st_ctime := 0 |}))])];
     cwd := "/";
     isoformat_local := fun _ => "1970-01-01 00:00:00";
     git_remote_info := fun _ => Ok ("origin", "UHH2-datasets");
     git_current_branch := fun _ => Ok "master" |}.

(** The text is ASCII: every byte of it is below 128. *)
Definition ascii_text (s : string) : Prop := str_all (in_range 0 127) s = true.

(** A field of a line: not empty, and without whitespace. *)
Definition word (w : string) : Prop :=
  w <> "" /\ str_all (fun c => negb (is_bspace c)) w = true.

(** A separator of fields within a line: spaces and tabs, one at least. *)
Definition blanks (s : string) : Prop :=
  s <> "" /\ str_all is_blank s = true.

(** A line of [git remote -v]: the name of the remote, its address, and
    the kind of the address. *)
Definition remote_line (name sep1 url sep2 kind : string) : string :=
  name +:+ sep1 +:+ url +:+ sep2 +:+ kind.

(** The text is empty or starts with whitespace. *)
Definition starts_with_space (s : string) : Prop :=
  match s with
  | "" => True
  | String c _ => is_bspace c = true
  end.

(** The character does not end a line. *)
Definition no_line_end (c : ascii) : bool :=
  negb (Ascii.eqb c newline) && negb (Ascii.eqb c carriage_return).

(** The name of the column that a field of a table declares. *)
Definition column_name (field : string) : string :=
  List.hd "" (split " "%char field).

(** The keys of a row, in their order. *)
Definition row_keys (r : row) : list string := map fst r.

(** * Properties *)

(** ** Strings *)

#[local] Arguments append !s1 s2 : simpl nomatch.

Section StringFacts.

Lemma app_empty_r (s : string) : s +:+ "" = s.
Proof. induction s as [|a s IH]; simpl; [reflexivity | now rewrite IH]. Qed.

Lemma app_assoc_str (a b c : string) : (a +:+ b) +:+ c = a +:+ (b +:+ c).
Proof. induction a as [|x a IH]; simpl; [reflexivity | now rewrite IH]. Qed.

Lemma prefix_app (s t : string) : is_prefix s (s +:+ t) = true.
Proof.
  induction s as [|a s IH]; simpl; [reflexivity|].
  now rewrite Ascii.eqb_refl, IH.
Qed.

Lemma prefix_inv (s t : string) :
  is_prefix s t = true -> exists u, t = s +:+ u.
Proof.
  revert t. induction s as [|a s IH]; intros t H.
  - exists t. reflexivity.
  - destruct t as [|b t]; simpl in H; [discriminate|].
    apply andb_true_iff in H as [Hab H]. apply Ascii.eqb_eq in Hab as ->.
    destruct (IH _ H) as [u ->]. exists u. reflexivity.
Qed.

Lemma contains_intro (sub a b : string) : contains sub (a +:+ sub +:+ b) = true.
Proof.
  induction a as [|x a IH].
  - cbn [append]. destruct (sub +:+ b) eqn:E; cbn [contains];
      rewrite <- E, prefix_app; reflexivity.
  - cbn [append contains]. rewrite IH. apply orb_true_r.
Qed.

Lemma contains_elim (sub s : string) :
  contains sub s = true -> exists a b, s = a +:+ sub +:+ b.
Proof.
  induction s as [|x s IH]; intros H.
  - cbn [contains] in H. rewrite orb_false_r in H.
    destruct (prefix_inv _ _ H) as [u ->]. exists "", u. reflexivity.
  - cbn [contains] in H. apply orb_true_iff in H as [H|H].
    + destruct (prefix_inv _ _ H) as [u ->]. exists "", u. reflexivity.
    + destruct (IH H) as (a & b & ->). exists (String x a), b. reflexivity.
Qed.

Lemma lacks_cons c a s :
  lacks c (String a s) = negb (Ascii.eqb a c) && lacks c s.
Proof. reflexivity. Qed.

Lemma lacks_app c s t : lacks c (s +:+ t) = lacks c s && lacks c t.
Proof.
  induction s as [|a s IH]; [reflexivity|].
  cbn [append]. rewrite !lacks_cons, IH. apply andb_assoc.
Qed.

Lemma split_not_nil c s : split c s <> [].
Proof.
  destruct s as [|a s]; simpl; [discriminate|].
  destruct (Ascii.eqb a c); [discriminate|].
  destruct (split c s); discriminate.
Qed.

Lemma split_lacks c s : lacks c s = true -> split c s = [s].
Proof.
  induction s as [|a s IH]; intros H; [reflexivity|].
  rewrite lacks_cons in H. apply andb_true_iff in H as [Ha Hs].
  simpl. apply negb_true_iff in Ha. rewrite Ha, (IH Hs). reflexivity.
Qed.

Lemma split_each_lacks c s : Forall (fun x => lacks c x = true) (split c s).
Proof.
  induction s as [|a s IH]; simpl.
  - constructor; [reflexivity | constructor].
  - destruct (Ascii.eqb a c) eqn:E.
    + constructor; [reflexivity | exact IH].
    + destruct (split c s) as [|w ws]; [repeat constructor|].
      * rewrite lacks_cons, E. reflexivity.
      * inversion IH; subst. constructor; [|assumption].
        rewrite lacks_cons, E. assumption.
Qed.

(** Splitting distributes over a separator in the middle. *)
Lemma split_app_sep c a b :
  split c (a +:+ String c b) = split c a ++ split c b.
Proof.
  induction a as [|x a IH]; cbn [append split].
  - rewrite Ascii.eqb_refl. reflexivity.
  - rewrite IH. destruct (Ascii.eqb x c); [reflexivity|].
    destruct (split c a) eqn:E; [now apply split_not_nil in E|reflexivity].
Qed.

Lemma join_cons sep x y l :
  join sep (x :: y :: l) = x +:+ sep +:+ join sep (y :: l).
Proof. reflexivity. Qed.

Lemma join_snoc sep l x :
  l <> [] -> join sep (l ++ [x]) = join sep l +:+ sep +:+ x.
Proof.
  induction l as [|a l IH]; intros Hl; [congruence|].
  destruct l as [|b l]; [reflexivity|].
  change ((a :: b :: l) ++ [x]) with (a :: b :: (l ++ [x])).
  rewrite join_cons.
  change (b :: l ++ [x]) with ((b :: l) ++ [x]).
  rewrite IH by discriminate. rewrite join_cons.
  now rewrite !app_assoc_str.
Qed.

(** Splitting undoes joining, for segments free of the separator. *)
Lemma split_join c l :
  l <> [] -> Forall (fun x => lacks c x = true) l ->
  split c (join (String c "") l) = l.
Proof.
  induction l as [|a l IH]; intros Hl Hf; [congruence|].
  inversion Hf as [|? ? Ha Hrest]; subst.
  destruct l as [|b l].
  - simpl. now apply split_lacks.
  - rewrite join_cons. cbn [append].
    rewrite split_app_sep, (split_lacks _ _ Ha), IH; [reflexivity|discriminate|assumption].
Qed.

End StringFacts.

(** ** [normpath]: the shape of its results *)

Section NormpathFacts.

Lemma clean_nil k : clean k [].
Proof. exact I. Qed.

Lemma clean_snoc k l c :
  clean k (l ++ [c]) <->
  good c /\ (c = ".." -> k = 0%nat /\ Forall (eq "..") l) /\ clean k l.
Proof.
  unfold clean. rewrite rev_unit. cbn [clean_stack].
  split; intros (Hg & Hd & Hc); (split; [exact Hg | split; [|exact Hc]]);
    intros E; destruct (Hd E) as [Hk Hf]; (split; [exact Hk|]).
  - rewrite <- (rev_involutive l). now apply Forall_rev.
  - now apply Forall_rev.
Qed.

Lemma clean_app_l k a b : clean k (a ++ b) -> clean k a.
Proof.
  induction b as [|x b IH] using rev_ind; intros H.
  - now rewrite app_nil_r in H.
  - rewrite app_assoc in H. apply clean_snoc in H. apply IH, H.
Qed.

Lemma clean_good k l : clean k l -> Forall good l.
Proof.
  induction l as [|x l IH] using rev_ind; intros H; [constructor|].
  apply clean_snoc in H as (Hg & _ & Hc).
  apply Forall_app. split; [now apply IH | constructor; [exact Hg | constructor]].
Qed.

Lemma snoc_of_not_nil (l : list string) :
  l <> [] -> l = List.removelast l ++ [List.last l ""].
Proof. intros H. now apply app_removelast_last. Qed.

Lemma clean_snoc_intro k l c :
  c <> "" -> c <> "." -> lacks slash c = true ->
  (c = ".." -> k = 0%nat /\ Forall (eq "..") l) ->
  clean k l -> clean k (l ++ [c]).
Proof.
  intros H1 H2 H3 H4 H5. apply clean_snoc.
  split; [split; [|split] | split]; assumption.
Qed.

Lemma step_clean k acc c :
  clean k acc -> lacks slash c = true -> clean k (normpath_step k acc c).
Proof.
  intros Hc Hl. unfold normpath_step.
  destruct (String.eqb_spec c "") as [|Hne]; [assumption|].
  destruct (String.eqb_spec c ".") as [|Hnd]; [assumption|]. cbn [orb].
  destruct (String.eqb_spec c "..") as [Hdd|Hndd]; cbn [negb orb].
  - destruct acc as [|a acc]; cbn [is_nil negb andb orb].
    + destruct (Nat.eqb_spec k 0) as [Hk|Hk]; cbn [andb orb]; [|assumption].
      apply (clean_snoc_intro k [] c); try assumption.
      intros _. split; [assumption | constructor].
    + rewrite andb_false_r. cbn [orb].
      pose proof Hc as Hc'.
      rewrite (snoc_of_not_nil (a :: acc)) in Hc' by discriminate.
      destruct (String.eqb_spec (List.last (a :: acc) "") "..") as [Hlast|Hlast].
      * apply clean_snoc_intro; try assumption. intros _.
        apply clean_snoc in Hc' as (_ & Hd & _).
        destruct (Hd Hlast) as [Hk Hf]. split; [assumption|].
        rewrite (snoc_of_not_nil (a :: acc)) by discriminate.
        apply Forall_app. split; [assumption|].
        constructor; [now rewrite Hlast | constructor].
      * now apply clean_app_l in Hc'.
  - apply clean_snoc_intro; try assumption. intros E. contradiction.
Qed.

Lemma fold_clean k l acc :
  clean k acc -> Forall (fun x => lacks slash x = true) l ->
  clean k (fold_left (normpath_step k) l acc).
Proof.
  revert acc. induction l as [|c l IH]; intros acc Hc Hf; [assumption|].
  inversion Hf; subst. cbn [fold_left]. apply IH; [|assumption].
  now apply step_clean.
Qed.

Lemma all_dotdot_last (l : list string) :
  l <> [] -> Forall (eq "..") l -> List.last l "" = "..".
Proof.
  intros Hl Hf. rewrite (snoc_of_not_nil l Hl) in Hf.
  apply Forall_app in Hf as [_ Hf]. inversion Hf; subst. congruence.
Qed.

Lemma step_fix k acc c :
  clean k (acc ++ [c]) -> normpath_step k acc c = acc ++ [c].
Proof.
  intros H. apply clean_snoc in H as ((Hne & Hnd & _) & Hd & _).
  unfold normpath_step.
  destruct (String.eqb_spec c "") as [|_]; [contradiction|].
  destruct (String.eqb_spec c ".") as [|_]; [contradiction|]. cbn [orb].
  destruct (String.eqb_spec c "..") as [Hdd|]; [|reflexivity]. cbn [negb orb].
  destruct (Hd Hdd) as [-> Hf].
  destruct acc as [|a acc]; [reflexivity|]. cbn [is_nil negb andb orb Nat.eqb].
  rewrite (all_dotdot_last (a :: acc)) by (discriminate || assumption).
  reflexivity.
Qed.

(** A clean list of components is left as it is by the loop. *)
Lemma fold_fix k l acc :
  clean k (acc ++ l) -> fold_left (normpath_step k) l acc = acc ++ l.
Proof.
  revert acc. induction l as [|c l IH]; intros acc H.
  - now rewrite app_nil_r.
  - cbn [fold_left]. change (c :: l) with ([c] ++ l) in H. rewrite app_assoc in H.
    rewrite step_fix by (now apply clean_app_l in H).
    rewrite IH by assumption. now rewrite <- app_assoc.
Qed.

Lemma normpath_render path :
  path <> "" -> normpath path = render (initial_slashes_of path) (kept path).
Proof.
  intros H. unfold normpath. destruct (String.eqb_spec path ""); [contradiction|].
  reflexivity.
Qed.

Lemma initial_slashes_le path : (initial_slashes_of path <= 2)%nat.
Proof.
  unfold initial_slashes_of.
  destruct (startswith path "/"); [|lia].
  destruct (startswith path "//" && negb (startswith path "///")); lia.
Qed.

Lemma kept_clean path : clean (initial_slashes_of path) (kept path).
Proof. apply fold_clean; [apply clean_nil | apply split_each_lacks]. Qed.

Lemma good_lead c t : good c -> lead_not_slash (c +:+ t) /\ c +:+ t <> "".
Proof.
  intros (Hne & _ & Hl). destruct c as [|a c]; [contradiction|].
  rewrite lacks_cons in Hl. apply andb_true_iff in Hl as [Ha _].
  apply negb_true_iff in Ha. cbn [append lead_not_slash]. split; [exact Ha | discriminate].
Qed.

Lemma join_lead l : Forall good l -> lead_not_slash (join "/" l).
Proof.
  intros Hf. destruct l as [|x l]; [exact I|]. inversion Hf; subst.
  destruct l as [|y l].
  - cbn [join concat]. rewrite <- (app_empty_r x). now apply good_lead.
  - rewrite join_cons. now apply good_lead.
Qed.

Lemma join_not_empty l : l <> [] -> Forall good l -> join "/" l <> "".
Proof.
  intros Hl Hf. destruct l as [|x l]; [contradiction|]. inversion Hf; subst.
  destruct l as [|y l].
  - cbn [join concat]. rewrite <- (app_empty_r x). now apply good_lead.
  - rewrite join_cons. now apply good_lead.
Qed.

Lemma initial_slashes_lead k s :
  lead_not_slash s -> (k <= 2)%nat -> (k = 0%nat -> s <> "") ->
  initial_slashes_of (str_repeat slash k +:+ s) = k.
Proof.
  intros Hs Hk H0. unfold initial_slashes_of, startswith.
  destruct k as [|[|[|k]]]; [| | |lia]; cbn [str_repeat append].
  - destruct s as [|a s]; [now specialize (H0 eq_refl)|].
    cbn [lead_not_slash] in Hs. unfold slash in Hs. cbn [is_prefix].
    rewrite (Ascii.eqb_sym "/" a), Hs. reflexivity.
  - destruct s as [|a s]; [reflexivity|].
    cbn [lead_not_slash] in Hs. unfold slash in *. cbn [is_prefix].
    rewrite Ascii.eqb_refl, (Ascii.eqb_sym "/" a), Hs. reflexivity.
  - destruct s as [|a s]; [reflexivity|].
    cbn [lead_not_slash] in Hs. unfold slash in *. cbn [is_prefix].
    rewrite Ascii.eqb_refl, (Ascii.eqb_sym "/" a), Hs. reflexivity.
Qed.

Lemma split_leading k s :
  split slash (str_repeat slash k +:+ s) = List.repeat "" k ++ split slash s.
Proof.
  induction k as [|k IH]; [reflexivity|].
  cbn [str_repeat append split List.repeat]. rewrite Ascii.eqb_refl, IH. reflexivity.
Qed.

Lemma fold_skip_empty k n l acc :
  fold_left (normpath_step k) (List.repeat "" n ++ l) acc
  = fold_left (normpath_step k) l acc.
Proof. induction n as [|n IH]; [reflexivity | exact IH]. Qed.

Lemma fold_split_join k l :
  clean k l -> fold_left (normpath_step k) (split slash (join "/" l)) [] = l.
Proof.
  intros Hc. destruct l as [|x l]; [reflexivity|].
  change "/" with (String slash ""). rewrite split_join.
  - now apply (fold_fix k (x :: l) []).
  - discriminate.
  - eapply List.Forall_impl; [|apply (clean_good _ _ Hc)]. now intros c (_ & _ & H).
Qed.

(** Such a text is a fixed point of [normpath]. *)
Lemma normpath_path_of k l :
  clean k l -> (k <= 2)%nat -> (k = 0%nat -> l <> []) ->
  path_of k l <> "" /\ normpath (path_of k l) = path_of k l.
Proof.
  intros Hc Hk H0.
  assert (Hne : path_of k l <> "").
  { unfold path_of. destruct k; [|discriminate]. cbn [str_repeat append].
    apply join_not_empty; [now apply H0 | now apply clean_good in Hc]. }
  split; [exact Hne|].
  assert (Hi : initial_slashes_of (path_of k l) = k).
  { apply initial_slashes_lead; [|assumption|].
    - apply join_lead. now apply clean_good in Hc.
    - intros E. apply join_not_empty; [now apply H0 | now apply clean_good in Hc]. }
  rewrite normpath_render by exact Hne. unfold kept. rewrite Hi.
  unfold path_of at 1. rewrite split_leading, fold_skip_empty, fold_split_join by exact Hc.
  unfold render. fold (path_of k l).
  destruct k as [|k].
  - cbn [Nat.eqb]. unfold path_of in Hne. cbn [str_repeat append] in Hne.
    destruct (String.eqb_spec (join "/" l) ""); [contradiction | reflexivity].
  - cbn [Nat.eqb]. destruct (String.eqb_spec (path_of (S k) l) ""); [contradiction | reflexivity].
Qed.

(** Every result of [normpath] is ["."] or such a text. *)
Lemma normpath_shape path :
  normpath path = "." \/
  exists k l, normpath path = path_of k l /\ clean k l /\ (k <= 2)%nat
              /\ (k = 0%nat -> l <> []).
Proof.
  destruct (String.eqb_spec path "") as [->|Hne]; [now left|].
  rewrite normpath_render by exact Hne.
  pose proof (kept_clean path) as Hc. pose proof (initial_slashes_le path) as Hk.
  set (k := initial_slashes_of path) in *. set (l := kept path) in *.
  unfold render.
  destruct k as [|k]; cbn [Nat.eqb].
  - destruct (String.eqb_spec (join "/" l) "") as [E|E]; [now left|]. right.
    exists 0%nat, l. repeat split; try assumption.
    intros _ ->. now apply E.
  - destruct (String.eqb_spec (str_repeat slash (S k) +:+ join "/" l) "") as [E|E];
      [discriminate|]. right. exists (S k), l. repeat split; try assumption. lia.
Qed.

Lemma normpath_idem path : normpath (normpath path) = normpath path.
Proof.
  destruct (normpath_shape path) as [->|(k & l & -> & Hc & Hk & H0)]; [reflexivity|].
  now apply normpath_path_of.
Qed.

End NormpathFacts.

(** ** The shard pattern *)

Section ShardFacts.

(** What the pattern accepts: four digits, then nothing or one final newline. *)
Lemma is_shard_eq s :
  is_shard s =
  match s with
  | String a (String b (String c (String d t))) =>
      is_digit a && is_digit b && is_digit c && is_digit d
      && (String.eqb t "" || String.eqb t (String newline ""))
  | _ => false
  end.
Proof.
  unfold is_shard, re_match, shard_pattern.
  destruct s as [|a [|b [|c [|d t]]]]; cbn [rseq rtimes rx Nat.eqb];
    repeat match goal with
           | |- context [is_digit ?x] => destruct (is_digit x)
           end; try reflexivity.
  cbn [andb]. destruct (String.eqb t "" || String.eqb t (String newline "")); reflexivity.
Qed.

Lemma four_digits_shard s : four_digits s = true -> is_shard s = true.
Proof.
  intros H. rewrite is_shard_eq.
  destruct s as [|a [|b [|c [|d [|e t]]]]]; try discriminate.
  cbn [four_digits] in H. rewrite H. reflexivity.
Qed.

Lemma is_digit_not c x : is_digit x = true -> is_digit c = false -> Ascii.eqb x c = false.
Proof.
  intros Hx Hc. destruct (Ascii.eqb_spec x c) as [->|]; [congruence | reflexivity].
Qed.

(** A shard segment is a component that [normpath] keeps, and no [".."]. *)
Lemma shard_good s : is_shard s = true -> s <> ".." /\ s <> "" /\ s <> ".".
Proof.
  intros H. rewrite is_shard_eq in H.
  destruct s as [|a [|b [|c [|d t]]]]; try discriminate.
  repeat split; discriminate.
Qed.

Lemma four_digits_lacks_slash s : four_digits s = true -> lacks slash s = true.
Proof.
  intros H. destruct s as [|a [|b [|c [|d [|e t]]]]]; try discriminate.
  cbn [four_digits] in H.
  apply andb_true_iff in H as [H Hd]. apply andb_true_iff in H as [H Hc].
  apply andb_true_iff in H as [Ha Hb].
  rewrite !lacks_cons.
  rewrite (is_digit_not slash a), (is_digit_not slash b), (is_digit_not slash c),
    (is_digit_not slash d) by (assumption || reflexivity).
  reflexivity.
Qed.

Lemma four_digits_good s : four_digits s = true -> good s.
Proof.
  intros H. destruct (shard_good s (four_digits_shard s H)) as (_ & H1 & H2).
  repeat split; try assumption. now apply four_digits_lacks_slash.
Qed.

End ShardFacts.

(** ** Dropping the shard segment *)

Section StripShardFacts.

Lemma strip_shard_dir_eq d :
  strip_shard_dir d =
  if is_shard (last_segment (normpath d)) then parent_of (normpath d)
  else normpath d.
Proof. reflexivity. Qed.

Lemma join_leading k l :
  l <> [] -> join "/" (List.repeat "" k ++ l) = path_of k l.
Proof.
  intros Hl. induction k as [|k IH]; [reflexivity|].
  cbn [List.repeat app]. destruct (List.repeat "" k ++ l) as [|y r] eqn:E.
  - apply app_eq_nil in E as [_ E]. contradiction.
  - rewrite join_cons, IH. reflexivity.
Qed.

Lemma split_path_of k l :
  l <> [] -> Forall good l ->
  split slash (path_of k l) = List.repeat "" k ++ l.
Proof.
  intros Hl Hf. unfold path_of. rewrite split_leading.
  change "/" with (String slash ""). rewrite split_join; [reflexivity|assumption|].
  eapply List.Forall_impl; [|exact Hf]. now intros c (_ & _ & H).
Qed.

Lemma split_slashes k : split slash (path_of k []) = List.repeat "" k ++ [""].
Proof. unfold path_of. now rewrite split_leading. Qed.

(** A normal path whose last component is a shard: the shard goes. *)
Lemma strip_shard_path_of k l s :
  clean k (l ++ [s]) -> (k <= 2)%nat -> is_shard s = true ->
  strip_shard_dir (path_of k (l ++ [s])) = join "/" (List.repeat "" k ++ l).
Proof.
  intros Hc Hk Hs.
  assert (Hnn : l ++ [s] <> []) by (now destruct l).
  destruct (normpath_path_of k (l ++ [s]) Hc Hk) as [_ Hn]; [now intros _|].
  rewrite strip_shard_dir_eq, Hn. unfold last_segment, parent_of.
  rewrite split_path_of by (assumption || now apply clean_good in Hc).
  rewrite app_assoc, last_last, removelast_last, Hs. reflexivity.
Qed.

Lemma strip_shard_fixed d :
  normpath d = d -> is_shard (last_segment d) = false -> strip_shard_dir d = d.
Proof. intros Hn Hs. now rewrite strip_shard_dir_eq, Hn, Hs. Qed.

Lemma last_repeat_empty k : List.last (List.repeat "" k ++ [""]) "" = "".
Proof. now rewrite last_last. Qed.

(** The result of [strip_shard_dir] is the empty text, or a fixed point of
    [normpath]. *)
Lemma strip_shard_normal d :
  strip_shard_dir d = "" \/ normpath (strip_shard_dir d) = strip_shard_dir d.
Proof.
  rewrite strip_shard_dir_eq.
  destruct (is_shard (last_segment (normpath d))) eqn:Hs;
    [|right; apply normpath_idem].
  destruct (normpath_shape d) as [E|(k & l & E & Hc & Hk & H0)].
  - rewrite E in Hs. discriminate.
  - rewrite E in *. unfold last_segment, parent_of in *.
    destruct l as [|x l0] using rev_ind.
    + rewrite split_slashes, last_repeat_empty in Hs. discriminate.
    + clear IHl0.
      rewrite split_path_of by ((now destruct l0) || now apply clean_good in Hc).
      rewrite app_assoc, removelast_last.
      destruct l0 as [|y l0].
      * rewrite app_nil_r.
        destruct k as [|[|[|k]]]; [now left | now left | now right | lia].
      * right. rewrite join_leading by discriminate.
        apply normpath_path_of; [now apply clean_app_l in Hc | assumption | discriminate].
Qed.

End StripShardFacts.

(** ** Directory normalisation (C1) *)

Section Normalisation.

Lemma path_of_snoc k l s :
  l <> [] -> path_of k l +:+ "/" +:+ s = path_of k (l ++ [s]).
Proof.
  intros Hl. unfold path_of. rewrite join_snoc by exact Hl.
  now rewrite !app_assoc_str.
Qed.

(** A separator-normal directory followed by a shard loses the shard. *)
Lemma strip_shard_child d s :
  normpath d = d -> d <> "." -> d <> "//" -> four_digits s = true ->
  strip_shard_dir (d +:+ "/" +:+ s) = d.
Proof.
  intros Hn Hdot Hss Hs.
  pose proof (four_digits_good s Hs) as (Hs1 & Hs2 & Hs3).
  pose proof (shard_good s (four_digits_shard s Hs)) as (Hs0 & _).
  destruct (normpath_shape d) as [E|(k & l & E & Hc & Hk & H0)]; [congruence|].
  rewrite Hn in E. subst d.
  destruct l as [|x l].
  - destruct k as [|[|[|k]]]; [now specialize (H0 eq_refl) | | contradiction | lia].
    change (path_of 1 [] +:+ "/" +:+ s) with (path_of 2 ([] ++ [s])).
    rewrite strip_shard_path_of; [reflexivity | | lia | now apply four_digits_shard].
    apply clean_snoc_intro; (assumption || contradiction || exact I).
  - rewrite path_of_snoc by discriminate.
    rewrite strip_shard_path_of; [now apply join_leading | | assumption
                                 | now apply four_digits_shard].
    apply clean_snoc_intro; try assumption. contradiction.
Qed.

(** C1, as the code has it. For every directory path [d], with [n] its
    separator-normal form [normpath d]: when the last segment of [n] matches
    the shard pattern the result is [n] without that segment, otherwise it is
    [n]; the pattern accepts four digits (for a segment without a newline,
    nothing else); a separator-normal directory followed by a four-digit
    segment comes back as that directory. Normalising the result [r] again
    gives [r] provided [r] is not empty and its own last segment is no shard:
    one segment is dropped per pass, so normalising is not idempotent in
    general. *)
Theorem strip_shard_dir_spec :
  forall d : string,
    let n := normpath d in
    let r := strip_shard_dir d in
    (is_shard (last_segment n) = true -> r = parent_of n)
    /\ (is_shard (last_segment n) = false -> r = n)
    /\ (forall seg, lacks newline seg = true -> is_shard seg = four_digits seg)
    /\ (forall s, four_digits s = true -> n = d -> d <> "." -> d <> "//" ->
        strip_shard_dir (d +:+ "/" +:+ s) = d)
    /\ (r <> "" -> is_shard (last_segment r) = false -> strip_shard_dir r = r).
Proof.
  intros d n r. subst n r. repeat split.
  - intros H. now rewrite strip_shard_dir_eq, H.
  - intros H. now rewrite strip_shard_dir_eq, H.
  - intros seg Hl. rewrite is_shard_eq.
    destruct seg as [|a [|b [|c [|e t]]]]; try reflexivity.
    cbn [four_digits]. rewrite !lacks_cons in Hl.
    destruct t as [|x t]; [now rewrite orb_true_l, andb_true_r|].
    cbn [String.eqb]. rewrite lacks_cons in Hl.
    destruct (Ascii.eqb x newline); [now rewrite !andb_false_r in Hl|].
    now rewrite andb_false_r.
  - intros s Hs Hn Hd Hss. now apply strip_shard_child.
  - intros Hne Hs. destruct (strip_shard_normal d) as [E|E]; [contradiction|].
    now apply strip_shard_fixed.
Qed.

Lemma strip_shard_dir_spec_witness :
  strip_shard_dir "/store/user/alice/crab_job/0000" = "/store/user/alice/crab_job"
  /\ strip_shard_dir "/store/user/alice/crab_job" = "/store/user/alice/crab_job"
  /\ strip_shard_dir ("/store/user/alice/crab_job" +:+ "/" +:+ "0017")
     = "/store/user/alice/crab_job"
  /\ strip_shard_dir (strip_shard_dir "/store//user/alice/crab_job/0000/")
     = strip_shard_dir "/store//user/alice/crab_job/0000/".
Proof.
  split; [|split; [|split]].
  - destruct (strip_shard_dir_spec "/store/user/alice/crab_job/0000") as (H & _).
    rewrite H by reflexivity. reflexivity.
  - destruct (strip_shard_dir_spec "/store/user/alice/crab_job") as (_ & H & _).
    rewrite H by reflexivity. reflexivity.
  - destruct (strip_shard_dir_spec "/store/user/alice/crab_job") as (_ & _ & _ & H & _).
    apply H; [reflexivity | reflexivity | discriminate | discriminate].
  - destruct (strip_shard_dir_spec "/store//user/alice/crab_job/0000/")
      as (_ & _ & _ & _ & H).
    apply H; [discriminate | reflexivity].
Defined.

(** C1 as stated fails: a path with two shard-like segments at its end loses
    one of them at each pass, with or without the directory component being
    taken first. *)
Lemma strip_shard_dir_not_idempotent :
  strip_shard_dir (strip_shard_dir "a/0000/0001") <> strip_shard_dir "a/0000/0001"
  /\ ntuple_dir_of (ntuple_dir_of "a/0000/0001/f.root")
     <> ntuple_dir_of "a/0000/0001/f.root".
Proof. split; vm_compute; discriminate. Qed.

End Normalisation.

(** ** Lists: first occurrences *)

Section FirstOccurrence.

Lemma find_first (f : string -> bool) pre p rest :
  Forall (fun q => f q = false) pre -> f p = true ->
  List.find f (pre ++ p :: rest) = Some p.
Proof.
  intros Hpre Hp. induction Hpre as [|q pre Hq _ IH]; cbn [app List.find].
  - now rewrite Hp.
  - now rewrite Hq.
Qed.

Lemma find_none (f : string -> bool) l :
  Forall (fun q => f q = false) l -> List.find f l = None.
Proof.
  intros H. induction H as [|q l Hq _ IH]; [reflexivity|].
  cbn [List.find]. now rewrite Hq.
Qed.

Lemma list_index_first m pre t :
  ~ In m pre -> list_index m (pre ++ m :: t) = Ok (List.length pre).
Proof.
  induction pre as [|q pre IH]; intros Hn; cbn [app list_index List.length].
  - now rewrite String.eqb_refl.
  - destruct (String.eqb_spec q m) as [->|_]; [exfalso; apply Hn; now left|].
    rewrite IH; [reflexivity|]. intros Hin. apply Hn. now right.
Qed.

Lemma list_get_next (pre : list string) m y rest :
  list_get (pre ++ m :: y :: rest) (List.length pre + 1) = Ok y.
Proof.
  unfold list_get. rewrite nth_error_app2 by lia.
  replace (List.length pre + 1 - List.length pre)%nat with 1%nat by lia. reflexivity.
Qed.

Lemma not_last_index (pre : list string) m y rest :
  (List.length pre =? List.length (pre ++ m :: y :: rest) - 1)%nat = false.
Proof. apply Nat.eqb_neq. rewrite length_app. cbn [List.length]. lia. Qed.

Lemma last_index (pre : list string) m :
  (List.length pre =? List.length (pre ++ [m]) - 1)%nat = true.
Proof. apply Nat.eqb_eq. rewrite length_app. cbn [List.length]. lia. Qed.

(** A list with [m] and something after it has a first [m] with something
    after it. *)
Lemma first_marker m (a : list string) x r :
  exists pre y rest, a ++ m :: x :: r = pre ++ m :: y :: rest /\ ~ In m pre.
Proof.
  induction a as [|q a IH].
  - exists [], x, r. split; [reflexivity | intros []].
  - destruct (String.eqb_spec q m) as [->|Hne].
    + destruct a as [|y a].
      * exists [], m, (x :: r). split; [reflexivity | intros []].
      * exists [], y, (a ++ m :: x :: r). split; [reflexivity | intros []].
    + destruct IH as (pre & y & rest & E & Hn).
      exists (q :: pre), y, rest. cbn [app]. rewrite E. split; [reflexivity|].
      intros [H|H]; [now apply Hne | now apply Hn].
Qed.

End FirstOccurrence.

(** ** The year of a descriptor path (C4) *)

Section Year.

(** C4. For every path, with its segments [split slash path]:
    when [p] is the first segment that contains ["RunII_"], the year is the
    segment that follows [p] if that one passes [_is_year] (it contains "16",
    "17" or "18" and no ".xml"), and [None] if it does not or if [p] is the
    last segment; when no segment contains ["RunII_"], the year is the first
    segment that passes [_is_year], and [None] when there is none. The
    function never raises. *)
Theorem get_year_from_path_spec :
  forall path : string,
    (forall pre p rest,
        split slash path = pre ++ p :: rest ->
        Forall no_branch pre -> contains branch_pattern p = true ->
        get_year_from_path path
        = Ok match rest with
             | [] => None
             | year :: _ => if _is_year year then Some year else None
             end)
    /\ (forall pre y rest,
           Forall no_branch (split slash path) ->
           split slash path = pre ++ y :: rest ->
           Forall no_year pre -> _is_year y = true ->
           get_year_from_path path = Ok (Some y))
    /\ (Forall no_branch (split slash path) ->
        Forall no_year (split slash path) ->
        get_year_from_path path = Ok None).
Proof.
  intros path. unfold get_year_from_path. repeat split.
  - intros pre p rest E Hpre Hp. rewrite E.
    rewrite (find_first _ pre p rest Hpre Hp).
    assert (Hn : ~ In p pre).
    { intros Hin. rewrite List.Forall_forall in Hpre.
      specialize (Hpre p Hin). unfold no_branch in Hpre. congruence. }
    rewrite (list_index_first p pre rest Hn). cbn [bind].
    destruct rest as [|year rest].
    + now rewrite last_index.
    + now rewrite not_last_index, list_get_next.
  - intros pre y rest Hb E Hpre Hy.
    rewrite (find_none _ _ Hb), E. now rewrite (find_first _ pre y rest Hpre Hy).
  - intros Hb Hy. now rewrite (find_none _ _ Hb), (find_none _ _ Hy).
Qed.

Lemma get_year_from_path_spec_witness :
  get_year_from_path "common/dataset/RunII_102X_v1/2017v2/MC_TTbar.xml"
  = Ok (Some "2017v2")
  /\ get_year_from_path "common/RunII_foo/bar.xml" = Ok None
  /\ get_year_from_path "common/2018/MC_TTbar.xml" = Ok (Some "2018")
  /\ get_year_from_path "common/2019/MC_TTbar.xml" = Ok None.
Proof.
  split; [|split; [|split]].
  - destruct (get_year_from_path_spec
                "common/dataset/RunII_102X_v1/2017v2/MC_TTbar.xml") as (H & _).
    apply (H ["common"; "dataset"] "RunII_102X_v1" ["2017v2"; "MC_TTbar.xml"]);
      [reflexivity | repeat constructor | reflexivity].
  - destruct (get_year_from_path_spec "common/RunII_foo/bar.xml") as (H & _).
    apply (H ["common"] "RunII_foo" ["bar.xml"]);
      [reflexivity | repeat constructor | reflexivity].
  - destruct (get_year_from_path_spec "common/2018/MC_TTbar.xml") as (_ & H & _).
    apply (H ["common"] "2018" ["MC_TTbar.xml"]);
      [repeat constructor | reflexivity | repeat constructor | reflexivity].
  - destruct (get_year_from_path_spec "common/2019/MC_TTbar.xml") as (_ & _ & H).
    apply H; repeat constructor.
Defined.

End Year.

(** ** The owner of a directory (C5) *)

Section Owner.

(** A marker between two slashes is a segment with a segment after it; so
    is then the first segment equal to the marker. *)
Lemma marker_split m s :
  lacks slash m = true -> contains ("/" +:+ m +:+ "/") s = true ->
  exists pre x rest, split slash s = pre ++ m :: x :: rest /\ ~ In m pre.
Proof.
  intros Hm H. apply contains_elim in H as (a & b & ->).
  replace (("/" +:+ m +:+ "/") +:+ b) with (String slash (m +:+ String slash b))
    by (cbn [append]; now rewrite app_assoc_str).
  rewrite !split_app_sep, (split_lacks _ _ Hm).
  destruct (split slash b) as [|x r] eqn:E; [now apply split_not_nil in E|].
  apply first_marker.
Qed.

(** The index arithmetic of [get_dir_user] at the first marker. *)
Lemma after_first_marker m pre x rest :
  ~ In m pre ->
  (do ind <- list_index m (pre ++ m :: x :: rest) ;
   if (ind =? List.length (pre ++ m :: x :: rest) - 1)%nat then Ok None
   else do u <- list_get (pre ++ m :: x :: rest) (ind + 1) ; Ok (Some u))
  = Ok (Some x).
Proof.
  intros Hn. rewrite (list_index_first m pre (x :: rest) Hn). cbn [bind].
  now rewrite not_last_index, list_get_next.
Qed.

(** C5, as the code has it. The markers are looked for as the texts
    ["/user/"] and ["/group/"], first in the path as given, then in its
    separator-normal form [n]: without either in the path as given, or in
    [n], the owner is [None]; with ["/user/"] in [n] it is the segment after
    the first segment ["user"] of [n]; failing that, with ["/group/"] in [n],
    the segment after the first segment ["group"]. The function never
    raises. *)
Theorem get_dir_user_spec :
  forall ntuple_dir : string,
    let n := normpath ntuple_dir in
    (contains "/user/" ntuple_dir = false ->
     contains "/group/" ntuple_dir = false ->
     get_dir_user ntuple_dir = Ok None)
    /\ (contains "/user/" ntuple_dir || contains "/group/" ntuple_dir = true ->
        (contains "/user/" n = true ->
         exists pre x rest,
           split slash n = pre ++ "user" :: x :: rest /\ ~ In "user" pre
           /\ get_dir_user ntuple_dir = Ok (Some x))
        /\ (contains "/user/" n = false -> contains "/group/" n = true ->
            exists pre x rest,
              split slash n = pre ++ "group" :: x :: rest /\ ~ In "group" pre
              /\ get_dir_user ntuple_dir = Ok (Some x))
        /\ (contains "/user/" n = false -> contains "/group/" n = false ->
            get_dir_user ntuple_dir = Ok None)).
Proof.
  intros d n. unfold get_dir_user. fold n. split.
  - intros -> ->. reflexivity.
  - intros Hraw.
    assert (Hg : negb (contains "/user/" d) && negb (contains "/group/" d) = false).
    { rewrite <- negb_orb, Hraw. reflexivity. }
    rewrite Hg. repeat split.
    + intros Hu. rewrite Hu.
      destruct (marker_split "user" n eq_refl Hu) as (pre & x & rest & E & Hn).
      exists pre, x, rest. repeat split; [exact E | exact Hn |].
      rewrite E. now apply after_first_marker.
    + intros Hu Hgr. rewrite Hu, Hgr.
      destruct (marker_split "group" n eq_refl Hgr) as (pre & x & rest & E & Hn).
      exists pre, x, rest. repeat split; [exact E | exact Hn |].
      rewrite E. now apply after_first_marker.
    + intros -> ->. reflexivity.
Qed.

Lemma get_dir_user_spec_witness :
  get_dir_user "/nfs/dust/cms/home/robin" = Ok None
  /\ (exists pre x rest,
         split slash (normpath "/pnfs/desy.de/cms/tier2//store/user/abenecke/RunII/")
         = pre ++ "user" :: x :: rest /\ ~ In "user" pre
         /\ get_dir_user "/pnfs/desy.de/cms/tier2//store/user/abenecke/RunII/"
            = Ok (Some x))
  /\ (exists pre x rest,
         split slash (normpath "/pnfs/desy.de/cms/tier2/store/group/uhh/uhh2ntuples")
         = pre ++ "group" :: x :: rest /\ ~ In "group" pre
         /\ get_dir_user "/pnfs/desy.de/cms/tier2/store/group/uhh/uhh2ntuples"
            = Ok (Some x))
  /\ get_dir_user "/pnfs/desy.de/store/user/" = Ok None.
Proof.
  split; [|split; [|split]].
  - destruct (get_dir_user_spec "/nfs/dust/cms/home/robin") as (H & _).
    apply H; reflexivity.
  - destruct (get_dir_user_spec "/pnfs/desy.de/cms/tier2//store/user/abenecke/RunII/")
      as (_ & H).
    destruct (H eq_refl) as (Hu & _). apply Hu. reflexivity.
  - destruct (get_dir_user_spec "/pnfs/desy.de/cms/tier2/store/group/uhh/uhh2ntuples")
      as (_ & H).
    destruct (H eq_refl) as (_ & Hg & _). apply Hg; reflexivity.
  - destruct (get_dir_user_spec "/pnfs/desy.de/store/user/") as (_ & H).
    destruct (H eq_refl) as (_ & _ & Hn). apply Hn; reflexivity.
Defined.

(** C5 as stated fails where a marker is a segment but not between two
    slashes: the first segment of a relative path, or the last segment of a
    path that has the other marker too. *)
Lemma get_dir_user_not_resolve_owner_spec :
  resolve_owner_spec "user/alice" = Some "alice"
  /\ get_dir_user "user/alice" = Ok None
  /\ resolve_owner_spec "/store/group/uhh/user" = None
  /\ get_dir_user "/store/group/uhh/user" = Ok (Some "uhh").
Proof. repeat split; vm_compute; reflexivity. Qed.

(** [get_dir_user] returns, for every path. *)
Lemma get_dir_user_total ntuple_dir : exists u, get_dir_user ntuple_dir = Ok u.
Proof.
  unfold get_dir_user.
  destruct (negb (contains "/user/" ntuple_dir)
            && negb (contains "/group/" ntuple_dir)); [eauto|].
  destruct (contains "/user/" (normpath ntuple_dir)) eqn:Hu.
  - destruct (marker_split "user" _ eq_refl Hu) as (pre & x & rest & E & Hn).
    rewrite E, after_first_marker by exact Hn. eauto.
  - destruct (contains "/group/" (normpath ntuple_dir)) eqn:Hg; [|eauto].
    destruct (marker_split "group" _ eq_refl Hg) as (pre & x & rest & E & Hn).
    rewrite E, after_first_marker by exact Hn. eauto.
Qed.

End Owner.

(** ** Comments in a descriptor (C6, C9) *)

Section Comments.

Lemma loop_cons_close f line rest :
  closes line = true ->
  ntuple_filenames_loop f (line :: rest) = ntuple_filenames_loop false rest.
Proof.
  unfold closes. intros H. cbn [ntuple_filenames_loop]. now rewrite H.
Qed.

Lemma loop_cons_open f line rest :
  closes line = false -> opens line = true ->
  ntuple_filenames_loop f (line :: rest) = ntuple_filenames_loop true rest.
Proof.
  unfold closes, opens. intros Hc Ho. cbn [ntuple_filenames_loop].
  now rewrite Hc, Ho.
Qed.

Lemma loop_cons_inside line rest :
  closes line = false ->
  ntuple_filenames_loop true (line :: rest) = ntuple_filenames_loop true rest.
Proof.
  unfold closes. intros Hc. cbn [ntuple_filenames_loop]. rewrite Hc.
  now destruct (startswith (strip line) "<!--").
Qed.

Lemma loop_inside mid rest :
  Forall (fun l => closes l = false) mid ->
  ntuple_filenames_loop true (mid ++ rest) = ntuple_filenames_loop true rest.
Proof.
  intros H. induction H as [|l mid Hl _ IH]; [reflexivity|].
  cbn [app]. now rewrite loop_cons_inside.
Qed.

(** The loop over two stretches of lines: the second starts with the flag
    the first leaves. *)
Lemma loop_app f pre post :
  ntuple_filenames_loop f (pre ++ post)
  = ntuple_filenames_loop f pre
    ++ ntuple_filenames_loop (fold_left flag_step pre f) post.
Proof.
  revert f. induction pre as [|l pre IH]; intros f; [reflexivity|].
  cbn [app fold_left]. unfold flag_step at 2.
  destruct (closes l) eqn:Hc.
  - rewrite !loop_cons_close by exact Hc. apply IH.
  - destruct (opens l) eqn:Ho.
    + rewrite !loop_cons_open by assumption. apply IH.
    + cbn [ntuple_filenames_loop]. unfold closes, opens in Hc, Ho. rewrite Hc, Ho.
      destruct f; [apply IH|].
      destruct (re_search fname_pattern (strip (strip l))); [|apply IH].
      cbn [app]. now rewrite IH.
Qed.

(** C6. The flag: a line that (trimmed) ends with ["-->"] is skipped and
    leaves the flag cleared; any other line that starts with ["<!--"] is
    skipped and leaves it set; while it is set, a line that does not end
    with ["-->"] is skipped. So in a file with an opening line [o], lines
    [mid] none of which closes, and a closing line [c], nothing of [o],
    [mid] and [c] is yielded, whatever these lines hold: the names yielded
    are those of the lines before, and those of the lines after, read with
    the flag cleared. *)
Theorem comment_lines_skipped :
  (forall f line rest,
      closes line = true ->
      ntuple_filenames_loop f (line :: rest) = ntuple_filenames_loop false rest)
  /\ (forall f line rest,
         closes line = false -> opens line = true ->
         ntuple_filenames_loop f (line :: rest) = ntuple_filenames_loop true rest)
  /\ (forall line rest,
         closes line = false ->
         ntuple_filenames_loop true (line :: rest) = ntuple_filenames_loop true rest)
  /\ (forall f pre o mid c post,
         opens o = true -> closes o = false ->
         Forall (fun l => closes l = false) mid ->
         closes c = true ->
         ntuple_filenames_loop f (pre ++ o :: mid ++ c :: post)
         = ntuple_filenames_loop f pre ++ ntuple_filenames_loop false post).
Proof.
  split; [exact loop_cons_close|]. split; [exact loop_cons_open|].
  split; [exact loop_cons_inside|].
  intros f pre o mid c post Ho Hoc Hmid Hc.
  rewrite loop_app. f_equal.
  rewrite (loop_cons_open _ o) by assumption.
  rewrite loop_inside by assumption. now apply loop_cons_close.
Qed.

Lemma comment_lines_skipped_witness :
  ntuple_filenames_loop false commented_example
  = [ "/store/user/alice/job/0000/kept.root";
      "/store/user/alice/job/0000/later.root" ]
  /\ is_some (re_search fname_pattern
                (strip ("  " +:+ in_line "/store/user/alice/job/0000/dropped.root")))
     = true.
Proof.
  split; [|reflexivity].
  destruct comment_lines_skipped as (_ & _ & _ & H).
  change commented_example
    with ([in_line "/store/user/alice/job/0000/kept.root"]
            ++ ("<!-- old files" +:+ nl)
            :: ["  " +:+ in_line "/store/user/alice/job/0000/dropped.root"]
            ++ ("-->" +:+ nl)
            :: [in_line "/store/user/alice/job/0000/later.root"]).
  rewrite H; [reflexivity | reflexivity | reflexivity | repeat constructor | reflexivity].
Defined.

(** C9. A line that, trimmed, ends with ["-->"] yields nothing, whatever the
    flag is and whether or not the line matches the pattern: the names of a
    file with such a line are those of the lines before it and those of the
    lines after it, read with the flag cleared. *)
Theorem closing_line_yields_nothing :
  forall f pre line post,
    closes line = true ->
    ntuple_filenames_loop f (pre ++ line :: post)
    = ntuple_filenames_loop f pre ++ ntuple_filenames_loop false post.
Proof.
  intros f pre line post H. rewrite loop_app. f_equal. now apply loop_cons_close.
Qed.

Lemma closing_line_yields_nothing_witness :
  re_search fname_pattern (strip closing_example)
  = Some ["/store/user/alice/job/0000/f1.root"]
  /\ ntuple_filenames_loop false ([] ++ closing_example :: []) = [].
Proof.
  split; [reflexivity|].
  rewrite (closing_line_yields_nothing false [] closing_example []); reflexivity.
Defined.

(** The trimming is that of [str.strip()]: a no-break space or a next-line
    control after ["-->"] is trimmed as a space is, so that the line closes
    and its reference is not yielded. *)
Example closing_line_no_break_space :
  closes ("-->" +:+ String "160" nl) = true
  /\ closes ("-->" +:+ String "133" nl) = true
  /\ ntuple_filenames_loop true
       [ "-->" +:+ String "160" nl; in_line "/store/user/alice/job/0000/f1.root" ]
     = [ "/store/user/alice/job/0000/f1.root" ]
  /\ ntuple_filenames_loop false
       [ in_tag "/store/user/alice/job/0000/f1.root" +:+ " -->" +:+ String "160" nl ]
     = [].
Proof. repeat split; reflexivity. Qed.

End Comments.

(** ** The probe of a directory (C7, C10) *)

Section Probe.

Lemma isdir_lstat env path :
  isdir env path = true -> exists st, lstat env path = Ok st.
Proof.
  unfold isdir, lstat. destruct (resolve env path) as [[c o|st es]|];
    try discriminate. intros _. now exists st.
Qed.

(** The row of a directory, in all cases. *)
Lemma get_ntuple_dir_data_cases env ntuple_dir :
  exists u,
    get_dir_user ntuple_dir = Ok u
    /\ ((isdir env ntuple_dir = false
         /\ get_ntuple_dir_data env ntuple_dir
            = Ok [ ("ntuple_dir", VStr ntuple_dir); ("size", VInt (-1));
                   ("user", opt_val u); ("creation_time", VStr "-1") ])
        \/ (isdir env ntuple_dir = true
            /\ exists st,
                lstat env ntuple_dir = Ok st
                /\ get_ntuple_dir_data env ntuple_dir
                   = Ok [ ("ntuple_dir", VStr ntuple_dir);
                          ("size", VFloat (get_size env ntuple_dir));
                          ("user", opt_val u);
                          ("creation_time",
                           VStr (isoformat_local env (st_ctime st))) ])).
Proof.
  destruct (get_dir_user_total ntuple_dir) as [u Hu]. exists u.
  split; [exact Hu|]. unfold get_ntuple_dir_data. rewrite Hu. cbn [bind].
  destruct (isdir env ntuple_dir) eqn:Hd.
  - right. split; [reflexivity|].
    destruct (isdir_lstat _ _ Hd) as [st Hst]. exists st. split; [exact Hst|].
    unfold get_creation_time. rewrite Hst. reflexivity.
  - left. split; reflexivity.
Qed.

(** C7. For a path that is not a directory of the file system, the probe
    returns a row (it does not raise) with size -1 and creation time "-1". *)
Theorem get_ntuple_dir_data_missing :
  forall (env : os_env) (ntuple_dir : string),
    isdir env ntuple_dir = false ->
    exists r,
      get_ntuple_dir_data env ntuple_dir = Ok r
      /\ row_get "size" r = Some (VInt (-1))
      /\ row_get "creation_time" r = Some (VStr "-1").
Proof.
  intros env d Hd.
  destruct (get_ntuple_dir_data_cases env d) as (u & _ & [[_ H]|[Ht _]]);
    [|congruence].
  eexists. split; [exact H|]. split; reflexivity.
Qed.

Lemma get_ntuple_dir_data_missing_witness :
  exists r,
    get_ntuple_dir_data (scan_env []) "/pnfs/desy.de/store/user/alice/job" = Ok r
    /\ row_get "size" r = Some (VInt (-1))
    /\ row_get "creation_time" r = Some (VStr "-1").
Proof.
  apply (get_ntuple_dir_data_missing (scan_env []) "/pnfs/desy.de/store/user/alice/job").
  reflexivity.
Defined.

(** C10. For every file system and every path the probe returns a row whose
    [user] is what [get_dir_user] gives for the path, [None] standing for
    no owner; whether the directory exists shows in [size] and
    [creation_time] only: over two file systems the rows of one path have
    the same [ntuple_dir] and [user]. *)
Theorem get_ntuple_dir_data_user :
  forall (ntuple_dir : string),
  exists u,
    get_dir_user ntuple_dir = Ok u
    /\ forall env : os_env,
        exists size creation_time,
          get_ntuple_dir_data env ntuple_dir
          = Ok [ ("ntuple_dir", VStr ntuple_dir); ("size", size);
                 ("user", opt_val u); ("creation_time", VStr creation_time) ]
          /\ (isdir env ntuple_dir = false ->
              size = VInt (-1) /\ creation_time = "-1").
Proof.
  intros d. destruct (get_dir_user_total d) as [u Hu]. exists u.
  split; [exact Hu|]. intros env.
  destruct (get_ntuple_dir_data_cases env d) as (u' & Hu' & [[Hd H]|[Hd (st & _ & H)]]);
    assert (u' = u) by congruence; subst u'.
  - exists (VInt (-1)), "-1". split; [exact H | now intros _].
  - eexists _, _. split; [exact H | congruence].
Qed.

Lemma get_ntuple_dir_data_user_witness :
  exists u,
    get_dir_user "/pnfs/desy.de/store/user/alice/job" = Ok u
    /\ exists size creation_time,
        get_ntuple_dir_data (scan_env []) "/pnfs/desy.de/store/user/alice/job"
        = Ok [ ("ntuple_dir", VStr "/pnfs/desy.de/store/user/alice/job");
               ("size", size); ("user", opt_val u);
               ("creation_time", VStr creation_time) ]
        /\ size = VInt (-1) /\ creation_time = "-1".
Proof.
  destruct (get_ntuple_dir_data_user "/pnfs/desy.de/store/user/alice/job")
    as (u & Hu & H).
  exists u. split; [exact Hu|].
  destruct (H (scan_env [])) as (size & ct & E & Hmiss).
  exists size, ct. split; [exact E|]. apply Hmiss. reflexivity.
Defined.

End Probe.

(** ** Shards of one job directory (C8) *)

Section Siblings.

Lemma rfind_lacks c f : lacks c f = true -> rfind c f = (-1)%Z.
Proof.
  induction f as [|a f IH]; intros H; [reflexivity|].
  rewrite lacks_cons in H. apply andb_true_iff in H as [Ha Hf].
  apply negb_true_iff in Ha. cbn [rfind]. rewrite (IH Hf), Ha. reflexivity.
Qed.

Lemma rfind_app_sep c x f :
  lacks c f = true -> rfind c (x +:+ String c f) = Z.of_nat (String.length x).
Proof.
  intros Hf. induction x as [|a x IH]; cbn [append rfind String.length].
  - now rewrite (rfind_lacks _ _ Hf), Ascii.eqb_refl.
  - rewrite IH. destruct (Z.leb_spec 0 (Z.of_nat (String.length x))); lia.
Qed.

Lemma substring_app n x t :
  n = String.length x -> String.substring 0 n (x +:+ t) = x.
Proof.
  intros ->. induction x as [|a x IH]; cbn [append String.length String.substring].
  - now destruct t.
  - now rewrite IH.
Qed.

Lemma slice_to_app_sep c x f :
  slice_to (Z.of_nat (String.length x) + 1) (x +:+ String c f) = x +:+ String c "".
Proof.
  unfold slice_to.
  replace (x +:+ String c f) with ((x +:+ String c "") +:+ f)
    by (now rewrite app_assoc_str).
  apply substring_app.
  induction x as [|a x IH]; cbn [append String.length]; lia.
Qed.

Lemma not_all_slashes y e t n :
  Ascii.eqb e slash = false -> y +:+ String e t <> str_repeat slash n.
Proof.
  intros He. revert n. induction y as [|a y IH]; intros [|n]; cbn [append str_repeat];
    try discriminate.
  - intros E. injection E as -> _. now rewrite Ascii.eqb_refl in He.
  - intros E. injection E as _ E. now apply IH in E.
Qed.

Lemma rstrip_slash y e :
  Ascii.eqb e slash = false ->
  rstrip_by (Ascii.eqb slash) (y +:+ String e "/") = y +:+ String e "".
Proof.
  intros He. rewrite Ascii.eqb_sym in He.
  induction y as [|a y IH]; cbn [append].
  - cbn [rstrip_by]. unfold slash in *. rewrite He. reflexivity.
  - cbn [rstrip_by]. rewrite IH. now destruct y.
Qed.

(** The directory component of [x/f], for [x] ending in a plain character
    and a file name [f]. *)
Lemma dirname_file y e f :
  Ascii.eqb e slash = false -> lacks slash f = true ->
  dirname ((y +:+ String e "") +:+ "/" +:+ f) = y +:+ String e "".
Proof.
  intros He Hf. unfold dirname.
  change ("/" +:+ f) with (String slash f).
  rewrite rfind_app_sep by exact Hf. rewrite slice_to_app_sep.
  rewrite app_assoc_str. cbn [append].
  destruct (String.eqb_spec (y +:+ String e (String slash "")) "") as [E|_];
    [now destruct y|].
  destruct (String.eqb_spec (y +:+ String e (String slash ""))
              (str_repeat slash (String.length (y +:+ String e (String slash "")))))
    as [E|_]; [now apply not_all_slashes in E|].
  cbn [negb andb]. now apply rstrip_slash.
Qed.

Lemma four_digits_end s :
  four_digits s = true ->
  exists y e, s = y +:+ String e "" /\ Ascii.eqb e slash = false.
Proof.
  intros H. destruct s as [|a [|b [|c [|e [|x t]]]]]; try discriminate.
  exists (String a (String b (String c ""))), e. split; [reflexivity|].
  cbn [four_digits] in H. apply andb_true_iff in H as [_ He].
  now apply is_digit_not.
Qed.

Lemma render_path_of k l : path_of k l <> "" -> render k l = path_of k l.
Proof.
  intros H. unfold render. destruct k as [|k]; cbn [Nat.eqb].
  - change (path_of 0 l) with (join "/" l) in *.
    destruct (String.eqb_spec (join "/" l) ""); [contradiction | reflexivity].
  - fold (path_of (S k) l).
    destruct (String.eqb_spec (path_of (S k) l) ""); [contradiction | reflexivity].
Qed.

(** [normpath] of a directory followed by a plain segment. *)
Lemma normpath_child d s :
  good s -> s <> ".." ->
  let k := initial_slashes_of (d +:+ "/" +:+ s) in
  let l := fold_left (normpath_step k) (split slash d) [] in
  clean k (l ++ [s]) /\ normpath (d +:+ "/" +:+ s) = path_of k (l ++ [s]).
Proof.
  intros (Hs1 & Hs2 & Hs3) Hs0 k l.
  assert (Hc : clean k (l ++ [s])).
  { apply clean_snoc_intro; try assumption; [contradiction|].
    apply fold_clean; [apply clean_nil | apply split_each_lacks]. }
  split; [exact Hc|].
  assert (Hne : d +:+ "/" +:+ s <> "") by (now destruct d).
  rewrite normpath_render by exact Hne. unfold kept. fold k.
  change (d +:+ "/" +:+ s) with (d +:+ String slash s).
  rewrite split_app_sep, (split_lacks _ _ Hs3), fold_left_app. fold l.
  cbn [fold_left]. rewrite (step_fix k l s Hc).
  apply render_path_of.
  apply normpath_path_of; [exact Hc | apply initial_slashes_le | now destruct l].
Qed.

Lemma strip_shard_dir_normpath d : strip_shard_dir (normpath d) = strip_shard_dir d.
Proof. now rewrite !strip_shard_dir_eq, normpath_idem. Qed.

(** The leading slashes of [d/s] do not depend on the plain segment [s]. *)
Lemma initial_slashes_child d s1 s2 :
  good s1 -> good s2 ->
  initial_slashes_of (d +:+ "/" +:+ s1) = initial_slashes_of (d +:+ "/" +:+ s2).
Proof.
  intros (H1 & _ & L1) (H2 & _ & L2).
  destruct s1 as [|a1 t1]; [contradiction|]. destruct s2 as [|a2 t2]; [contradiction|].
  rewrite lacks_cons in L1, L2.
  apply andb_true_iff in L1 as [L1 _]. apply andb_true_iff in L2 as [L2 _].
  apply negb_true_iff in L1, L2. unfold slash in L1, L2.
  rewrite Ascii.eqb_sym in L1, L2.
  unfold initial_slashes_of, startswith.
  destruct d as [|x [|y [|z d]]]; cbn [append is_prefix];
    rewrite ?Ascii.eqb_refl, ?L1, ?L2; cbn [andb negb]; try reflexivity;
    repeat match goal with
           | |- context [Ascii.eqb "/" ?c] => destruct (Ascii.eqb "/" c)
           end; reflexivity.
Qed.

(** Two shards of one directory come back as the same directory. *)
Lemma strip_shard_sibling d s1 s2 :
  four_digits s1 = true -> four_digits s2 = true ->
  strip_shard_dir (d +:+ "/" +:+ s1) = strip_shard_dir (d +:+ "/" +:+ s2).
Proof.
  intros F1 F2.
  pose proof (four_digits_good _ F1) as G1. pose proof (four_digits_good _ F2) as G2.
  pose proof (shard_good _ (four_digits_shard _ F1)) as (N1 & _).
  pose proof (shard_good _ (four_digits_shard _ F2)) as (N2 & _).
  destruct (normpath_child d s1 G1 N1) as (C1 & E1).
  destruct (normpath_child d s2 G2 N2) as (C2 & E2).
  rewrite <- (strip_shard_dir_normpath (d +:+ "/" +:+ s1)), E1.
  rewrite <- (strip_shard_dir_normpath (d +:+ "/" +:+ s2)), E2.
  rewrite !strip_shard_path_of
    by (assumption || apply initial_slashes_le || now apply four_digits_shard).
  now rewrite (initial_slashes_child d s1 s2 G1 G2).
Qed.

Lemma ntuple_dir_of_shard_file d s a :
  four_digits s = true -> lacks slash a = true ->
  ntuple_dir_of (d +:+ "/" +:+ s +:+ "/" +:+ a) = strip_shard_dir (d +:+ "/" +:+ s).
Proof.
  intros Fs Ha. unfold ntuple_dir_of. f_equal.
  destruct (four_digits_end s Fs) as (y & e & -> & He).
  replace (d +:+ "/" +:+ (y +:+ String e "") +:+ "/" +:+ a)
    with (((d +:+ "/" +:+ y) +:+ String e "") +:+ "/" +:+ a)
    by (now rewrite !app_assoc_str).
  rewrite dirname_file by assumption. now rewrite !app_assoc_str.
Qed.

End Siblings.

(** ** One row for each directory of a descriptor (C8) *)

Section Dedup.

Lemma fold_dirs_in (fnames : list string) (acc : gset string) (x : string) :
  x ∈ acc \/ (exists f, In f fnames /\ x = ntuple_dir_of f) ->
  x ∈ fold_left (fun dirs f => {[ ntuple_dir_of f ]} ∪ dirs) fnames acc.
Proof.
  revert acc. induction fnames as [|g fnames IH]; intros acc H; cbn [fold_left].
  - destruct H as [H|(f & [] & _)]. exact H.
  - apply IH. destruct H as [H|(f & [->|Hin] & ->)].
    + left. set_solver.
    + left. set_solver.
    + right. now exists f.
Qed.

Lemma ntuple_dirs_set_in fnames f :
  In f fnames -> ntuple_dir_of f ∈ ntuple_dirs_set fnames.
Proof. intros H. apply fold_dirs_in. right. now exists f. Qed.

Lemma filter_absent (x : string) (l : list string) :
  x ∉ l -> List.filter (String.eqb x) l = [].
Proof.
  induction l as [|y l IH]; intros H; [reflexivity|]. cbn [List.filter].
  destruct (String.eqb_spec x y) as [->|_]; [exfalso; apply H; now left|].
  apply IH. intros Hin. apply H. now right.
Qed.

(** An element of a list without duplicates occurs in it once. *)
Lemma filter_once (x : string) (l : list string) :
  NoDup l -> x ∈ l -> List.length (List.filter (String.eqb x) l) = 1%nat.
Proof.
  intros Hnd. induction Hnd as [|y l Hy _ IH]; intros Hin.
  - now apply elem_of_nil in Hin.
  - cbn [List.filter]. destruct (String.eqb_spec x y) as [->|Hne].
    + now rewrite (filter_absent y l Hy).
    + apply elem_of_cons in Hin as [E|Hin]; [contradiction | now apply IH].
Qed.

Lemma row_dir_is_data x xml_path d size user creation_time :
  row_dir_is x
    (row_set "xml_filepath" (VStr xml_path)
       [ ("ntuple_dir", VStr d); ("size", size); ("user", user);
         ("creation_time", creation_time) ])
  = String.eqb x d.
Proof. reflexivity. Qed.

(** The rows of the directories of one descriptor: the generator does not
    raise, and a directory has as many rows as it has places in the list. *)
Lemma ntuple_rows_of_dirs_ok env xml_path st dirs :
  exists st' rows,
    ntuple_rows_of_dirs env xml_path st dirs = Ok (st', rows)
    /\ forall x, List.length (List.filter (row_dir_is x) rows)
                 = List.length (List.filter (String.eqb x) dirs).
Proof.
  revert st. induction dirs as [|d dirs IH]; intros st.
  - exists st, []. split; [reflexivity|]. now intros x.
  - cbn [ntuple_rows_of_dirs].
    set (st1 := {| counter := S (counter st); slept := _ |}).
    destruct (IH st1) as (st' & rows & E & Hrows). rewrite E.
    destruct (get_ntuple_dir_data_cases env d)
      as (u & _ & [[_ H]|[_ (s & _ & H)]]); rewrite H; cbn [bind fst snd];
      eexists _, _; (split; [reflexivity|]); intros x;
      cbn [List.filter]; rewrite row_dir_is_data;
      destruct (String.eqb x d); cbn [List.length]; now rewrite Hrows.
Qed.

(** C8. Two referenced files [d/s1/a] and [d/s2/b], with [s1] and [s2] of
    four digits and [a], [b] file names, have the same normalised directory;
    and a descriptor that references both gives exactly one row of that
    directory, the directories of a descriptor being collected in a set. *)
Theorem shards_give_one_row :
  forall d s1 s2 a b : string,
    four_digits s1 = true -> four_digits s2 = true ->
    lacks slash a = true -> lacks slash b = true ->
    let f1 := d +:+ "/" +:+ s1 +:+ "/" +:+ a in
    let f2 := d +:+ "/" +:+ s2 +:+ "/" +:+ b in
    ntuple_dir_of f1 = ntuple_dir_of f2
    /\ forall env top_dir xml_path st fnames,
        get_ntuple_filenames_from_xml env (path_join top_dir xml_path) = Ok fnames ->
        In f1 fnames -> In f2 fnames ->
        exists st' rows,
          ntuple_rows_of_xmls env top_dir st [xml_path] = Ok (st', rows)
          /\ List.length (List.filter (row_dir_is (ntuple_dir_of f1)) rows) = 1%nat.
Proof.
  intros d s1 s2 a b F1 F2 Ha Hb f1 f2.
  assert (E12 : ntuple_dir_of f1 = ntuple_dir_of f2).
  { unfold f1, f2. rewrite !ntuple_dir_of_shard_file by assumption.
    now apply strip_shard_sibling. }
  split; [exact E12|].
  intros env top_dir xml_path st fnames Hf H1 H2.
  cbn [ntuple_rows_of_xmls]. unfold get_ntuple_dirs_from_xml. rewrite Hf. cbn [bind].
  destruct (ntuple_rows_of_dirs_ok env xml_path st (elements (ntuple_dirs_set fnames)))
    as (st' & rows & E & Hrows).
  rewrite E. cbn [bind fst snd]. exists st', (rows ++ []). split; [reflexivity|].
  rewrite app_nil_r, Hrows.
  apply filter_once; [apply NoDup_elements|].
  apply elem_of_elements. now apply ntuple_dirs_set_in.
Qed.

Lemma shards_give_one_row_witness :
  ntuple_dir_of "/store/user/alice/crab_job/0000/a.root"
  = ntuple_dir_of "/store/user/alice/crab_job/0001/b.root"
  /\ exists st' rows,
      ntuple_rows_of_xmls (scan_env []) "/scan" {| counter := 0; slept := 0 |} ["a.xml"]
      = Ok (st', rows)
      /\ List.length
           (List.filter
              (row_dir_is
                 (ntuple_dir_of
                    "RunII_102X_v1/2017v2/store/user/alice/job/0000/f1.root"))
              rows) = 1%nat.
Proof.
  split.
  - exact (proj1 (shards_give_one_row "/store/user/alice/crab_job" "0000" "0001"
                    "a.root" "b.root" eq_refl eq_refl eq_refl eq_refl)).
  - apply (proj2 (shards_give_one_row "RunII_102X_v1/2017v2/store/user/alice/job"
                    "0000" "0001" "f1.root" "f2.root"
                    eq_refl eq_refl eq_refl eq_refl)
             (scan_env []) "/scan" "a.xml" {| counter := 0; slept := 0 |}
             [ "RunII_102X_v1/2017v2/store/user/alice/job/0000/f1.root";
               "RunII_102X_v1/2017v2/store/user/alice/job/0001/f2.root" ]).
    + reflexivity.
    + left. reflexivity.
    + right. left. reflexivity.
Defined.

End Dedup.

(** ** The tables (C3) *)

Section Tables.

Lemma fill_table_log table_name rows d :
  fill_table table_name rows d = d ++ map (insert_stmt table_name) rows.
Proof.
  unfold fill_table. revert d. induction rows as [|r rows IH]; intros d; cbn [fold_left map].
  - now rewrite app_nil_r.
  - rewrite IH. unfold insert_into_table, execute_query.
    now rewrite <- app_assoc.
Qed.

Lemma create_table_log table_name table_fields d :
  create_table table_name table_fields d = d ++ create_stmts table_name table_fields.
Proof. unfold create_table, execute_query. now rewrite <- app_assoc. Qed.

(** C3, as the code has it. When the tables are created afresh ([append]
    false) and the call returns, the statements sent are: the drop and the
    creation of the table, then one insertion for each row. The descriptor
    table is declared with the columns filepath, branch, git_src, year in
    this order (git_src before year); the directory table with
    xml_filepath, ntuple_dir, size, user, creation_time. *)
Theorem fresh_tables_columns :
  forall (env : os_env) (top_dir table_name : string) (d d' : db),
    (create_xml_table env top_dir table_name false d = Ok d' ->
     exists rows,
       d' = d ++ create_stmts table_name
                   [ "filepath TEXT NOT NULL"; "branch TEXT NOT NULL";
                     "git_src TEXT"; "year TEXT NOT NULL" ]
              ++ map (insert_stmt table_name) rows)
    /\ (create_xml_ntuple_dir_table env top_dir table_name false d = Ok d' ->
        exists rows,
          d' = d ++ create_stmts table_name
                      [ "xml_filepath TEXT NOT NULL"; "ntuple_dir TEXT NOT NULL";
                        "size FLOAT"; "user TEXT"; "creation_time TEXT" ]
                 ++ map (insert_stmt table_name) rows).
Proof.
  intros env top_dir table_name d d'. split.
  - unfold create_xml_table. destruct (isdir env top_dir); [|discriminate].
    cbn [negb]. destruct (git_remote_info env top_dir) as [remote|]; [|discriminate].
    cbn [bind]. destruct (git_current_branch env top_dir) as [branch|]; [|discriminate].
    cbn [bind]. destruct (xml_file_rows _ _ _) as [rows|]; [|discriminate].
    cbn [bind]. intros [= <-]. exists rows.
    now rewrite fill_table_log, create_table_log, <- app_assoc.
  - unfold create_xml_ntuple_dir_table. destruct (isdir env top_dir); [|discriminate].
    cbn [negb]. destruct (xml_ntuple_dir_rows env top_dir) as [r|]; [|discriminate].
    cbn [bind]. intros [= <-]. exists (snd r).
    now rewrite fill_table_log, create_table_log, <- app_assoc.
Qed.

Lemma fresh_tables_columns_witness :
  (exists rows,
      scan_db_xml
      = [] ++ create_stmts "xml"
                [ "filepath TEXT NOT NULL"; "branch TEXT NOT NULL";
                  "git_src TEXT"; "year TEXT NOT NULL" ]
           ++ map (insert_stmt "xml") rows)
  /\ (exists rows,
         scan_db_ntuple_dir
         = [] ++ create_stmts "xml_ntuple_dir"
                   [ "xml_filepath TEXT NOT NULL"; "ntuple_dir TEXT NOT NULL";
                     "size FLOAT"; "user TEXT"; "creation_time TEXT" ]
              ++ map (insert_stmt "xml_ntuple_dir") rows).
Proof.
  split.
  - apply (proj1 (fresh_tables_columns (scan_env []) "/scan" "xml" [] scan_db_xml)).
    reflexivity.
  - apply (proj2 (fresh_tables_columns (scan_env []) "/scan" "xml_ntuple_dir" []
                    scan_db_ntuple_dir)).
    reflexivity.
Defined.

(** C3 as stated fails for the descriptor table: the creation statement
    sent is not the one with year before git_src. *)
Lemma xml_table_not_in_spec_order :
  create_xml_table (scan_env []) "/scan" "xml" false [] = Ok scan_db_xml
  /\ In (create_table_cmd "xml" xml_table_fields, []) scan_db_xml
  /\ ~ In (create_table_cmd "xml" xml_table_fields_spec, []) scan_db_xml
  /\ xml_table_fields <> xml_table_fields_spec.
Proof.
  split; [reflexivity|]. split; [right; left; reflexivity|].
  split; [|discriminate].
  vm_compute. intros [H|[H|[H|[]]]]; discriminate.
Qed.

End Tables.

(** ** A scan root with one descriptor (C2) *)

Section Scenario.

(** C2, as the code has it. The descriptor [a.xml] of the scan root
    references [.../job/0000/f1.root] and [.../job/0001/f2.root] under
    [RunII_102X_v1/2017v2/store/user/alice]. The run gives one row of the
    descriptor table, with filepath "a.xml" and with branch and year empty,
    since both are read from the path of the descriptor and not from the
    files it references; and one row of the directory table, whose
    [ntuple_dir] is the [job] directory and whose [user] is "alice". With
    the same descriptor at [RunII_102X_v1/2017v2/a.xml] under the scan root,
    the row of the descriptor has branch "RunII_102X_v1" and year "2017v2". *)
Theorem one_descriptor_rows :
  (exists ra rb st,
      xml_file_rows (scan_env []) "/scan" "UHH2-datasets/master" = Ok [ra]
      /\ ra = [ ("filepath", VStr "a.xml"); ("year", VStr ""); ("branch", VStr "");
                ("git_src", VStr "UHH2-datasets/master") ]
      /\ xml_ntuple_dir_rows (scan_env []) "/scan" = Ok (st, [rb])
      /\ rb = [ ("ntuple_dir", VStr job_dir); ("size", VInt (-1));
                ("user", VStr "alice"); ("creation_time", VStr "-1");
                ("xml_filepath", VStr "a.xml") ]
      /\ endswith job_dir "/job" = true
      /\ exists d, create_tables (scan_env []) "/scan" false [] = Ok d
                   /\ map snd d = [ []; []; map snd ra; []; []; map snd rb ])
  /\ (exists ra rb st,
         xml_file_rows (scan_env ["RunII_102X_v1"; "2017v2"]) "/scan"
           "UHH2-datasets/master" = Ok [ra]
         /\ ra = [ ("filepath", VStr "RunII_102X_v1/2017v2/a.xml");
                   ("year", VStr "2017v2"); ("branch", VStr "RunII_102X_v1");
                   ("git_src", VStr "UHH2-datasets/master") ]
         /\ xml_ntuple_dir_rows (scan_env ["RunII_102X_v1"; "2017v2"]) "/scan"
            = Ok (st, [rb])
         /\ rb = [ ("ntuple_dir", VStr job_dir); ("size", VInt (-1));
                   ("user", VStr "alice"); ("creation_time", VStr "-1");
                   ("xml_filepath", VStr "RunII_102X_v1/2017v2/a.xml") ]).
Proof.
  split.
  - eexists _, _, _. split; [vm_compute; reflexivity|]. split; [reflexivity|].
    split; [vm_compute; reflexivity|]. split; [reflexivity|].
    split; [reflexivity|]. eexists. split; vm_compute; reflexivity.
  - eexists _, _, _. split; [vm_compute; reflexivity|]. split; [reflexivity|].
    split; [vm_compute; reflexivity|]. reflexivity.
Qed.

(** C2 as stated fails for the descriptor table: with [a.xml] in the scan
    root itself, the row has neither the branch nor the year of the
    referenced files. *)
Lemma one_descriptor_no_branch_year :
  exists ra,
    xml_file_rows (scan_env []) "/scan" "UHH2-datasets/master" = Ok [ra]
    /\ row_get "branch" ra = Some (VStr "")
    /\ row_get "year" ra = Some (VStr "")
    /\ row_get "branch" ra <> Some (VStr "RunII_102X_v1")
    /\ row_get "year" ra <> Some (VStr "2017v2").
Proof.
  eexists. split; [vm_compute; reflexivity|].
  repeat split; (reflexivity || discriminate).
Qed.

End Scenario.


(** * Further properties of the code *)

(** ** Descriptor names and descriptor rows *)

Section Descriptors.

Lemma path_join_not_empty a b : b <> "" -> path_join a b <> "".
Proof.
  intros Hb. unfold path_join. destruct (startswith b "/"); [exact Hb|].
  destruct (String.eqb a "" || endswith a "/"); destruct a; cbn [append];
    (exact Hb || discriminate).
Qed.

Lemma relpath_ok env path start :
  path <> "" -> exists r, relpath env path start = Ok r.
Proof.
  intros H. unfold relpath. destruct (String.eqb_spec path ""); [contradiction|].
  match goal with |- context [match ?l with [] => _ | _ => _ end] => destruct l end;
    eauto.
Qed.

Lemma is_xml_not_empty filename : is_xml filename = true -> filename <> "".
Proof. intros H ->. discriminate. Qed.

Lemma xml_files_of_ok env top_dir root files :
  exists names,
    xml_files_of env top_dir root files = Ok names
    /\ List.length names = List.length (List.filter is_xml files).
Proof.
  induction files as [|f files (names & E & Hl)]; [now exists []|].
  cbn [xml_files_of List.filter]. fold (is_xml f). destruct (is_xml f) eqn:Hx.
  - cbn [negb].
    destruct (relpath_ok env (path_join root f) top_dir) as [r Hr];
      [apply path_join_not_empty; now apply is_xml_not_empty|].
    rewrite Hr, E. cbn [bind]. exists (r :: names). split; [reflexivity|].
    cbn [List.length]. now rewrite Hl.
  - cbn [negb]. now exists names.
Qed.

Lemma xml_files_walk_ok env top_dir w :
  exists names,
    xml_files_walk env top_dir w = Ok names
    /\ List.length names = List.length (List.filter is_xml (walk_files w)).
Proof.
  induction w as [|[[root dirs] files] w (rest & E & Hl)]; [now exists []|].
  cbn [xml_files_walk]. destruct (xml_files_of_ok env top_dir root files) as (here & Eh & Hh).
  rewrite Eh, E. cbn [bind]. exists (here ++ rest). split; [reflexivity|].
  unfold walk_files in *. cbn [flat_map snd].
  rewrite List.filter_app, !length_app. lia.
Qed.

(** The walk for descriptors never raises: it gives one name for each file
    of the walk whose extension is [.xml], and no name at all when the scan
    root is not a directory. *)
Theorem get_xml_filenames_total :
  forall (env : os_env) (top_dir : string),
  exists names,
    get_xml_filenames env top_dir = Ok names
    /\ List.length names
       = List.length (List.filter is_xml (walk_files (os_walk env top_dir)))
    /\ (isdir env top_dir = false -> names = []).
Proof.
  intros env top_dir. unfold get_xml_filenames.
  destruct (xml_files_walk_ok env top_dir (os_walk env top_dir)) as (names & E & Hl).
  exists names. split; [exact E|]. split; [exact Hl|].
  intros Hd. unfold isdir in Hd. unfold os_walk in E.
  destruct (resolve env top_dir) as [[c o|st es]|]; try discriminate;
    cbn in E; congruence.
Qed.

Lemma list_index_in x l :
  In x l -> exists i, list_index x l = Ok i /\ (i < List.length l)%nat.
Proof.
  induction l as [|y l IH]; intros Hin; [destruct Hin|]. cbn [list_index].
  destruct (String.eqb_spec y x) as [_|Hne].
  - exists 0%nat. split; [reflexivity | cbn; lia].
  - destruct Hin as [E|Hin]; [contradiction|].
    destruct (IH Hin) as (i & -> & Hi). exists (S i). split; [reflexivity | cbn; lia].
Qed.

Lemma list_get_in_range (l : list string) i :
  (i < List.length l)%nat -> exists x, list_get l i = Ok x.
Proof.
  intros H. unfold list_get. destruct (nth_error l i) eqn:E; [eauto|].
  apply nth_error_None in E. lia.
Qed.

(** [get_year_from_path] returns, for every path. *)
Lemma get_year_from_path_total path : exists y, get_year_from_path path = Ok y.
Proof.
  unfold get_year_from_path.
  destruct (List.find (contains branch_pattern) (split slash path)) as [p|] eqn:Ef;
    [|eauto].
  apply List.find_some in Ef as [Hin _].
  destruct (list_index_in _ _ Hin) as (i & -> & Hi). cbn [bind].
  destruct (Nat.eqb_spec i (List.length (split slash path) - 1)); [eauto|].
  destruct (list_get_in_range (split slash path) (i + 1)) as [x ->]; [lia|].
  cbn [bind]. eauto.
Qed.

Lemma get_xml_data_ok git_source xml_path :
  get_xml_data git_source xml_path = Ok (descriptor_row git_source xml_path).
Proof.
  unfold get_xml_data, descriptor_row.
  destruct (get_year_from_path_total (normpath xml_path)) as [y ->].
  now destruct y.
Qed.

Lemma mapM_ok {A B : Type} (f : A -> result B) (g : A -> B) l :
  (forall a, f a = Ok (g a)) -> mapM f l = Ok (map g l).
Proof.
  intros H. induction l as [|a l IH]; [reflexivity|].
  cbn [mapM map]. now rewrite H, IH.
Qed.

(** The rows of the descriptor table are made without an exception, one for
    each descriptor found, in the order of the walk: [filepath] is the name
    as found, [year] and [branch] are always texts, the empty text standing
    for a year or a branch that the path does not show. *)
Theorem xml_file_rows_total :
  forall (env : os_env) (top_dir git_source : string),
  exists names,
    get_xml_filenames env top_dir = Ok names
    /\ xml_file_rows env top_dir git_source
       = Ok (map (descriptor_row git_source) names).
Proof.
  intros env top_dir git_source.
  destruct (xml_files_walk_ok env top_dir (os_walk env top_dir)) as (names & E & _).
  exists names. split; [exact E|].
  unfold xml_file_rows, get_xml_filenames. rewrite E. cbn [bind].
  apply mapM_ok. intros a. apply get_xml_data_ok.
Qed.

End Descriptors.

(** ** The directories of a descriptor *)

Section Directories.

Lemma fold_dirs_only (fnames : list string) (acc : gset string) (x : string) :
  x ∈ fold_left (fun dirs f => {[ ntuple_dir_of f ]} ∪ dirs) fnames acc ->
  x ∈ acc \/ (exists f, In f fnames /\ x = ntuple_dir_of f).
Proof.
  revert acc. induction fnames as [|g fnames IH]; intros acc H; cbn [fold_left] in H.
  - now left.
  - destruct (IH _ H) as [Hx|(f & Hin & ->)].
    + apply elem_of_union in Hx as [Hx|Hx]; [|now left].
      apply elem_of_singleton in Hx as ->. right. exists g. split; [now left | reflexivity].
    + right. exists f. split; [now right | reflexivity].
Qed.

Lemma fold_dirs_size (fnames : list string) (acc : gset string) :
  (size (fold_left (fun dirs f => {[ ntuple_dir_of f ]} ∪ dirs) fnames acc)
   <= size acc + List.length fnames)%nat.
Proof.
  revert acc. induction fnames as [|g fnames IH]; intros acc; cbn [fold_left List.length].
  - lia.
  - etransitivity; [apply IH|].
    rewrite size_union_alt, size_singleton.
    assert (Hle : (size (acc ∖ {[ntuple_dir_of g]}) <= size acc)%nat).
    { apply subseteq_size. apply subseteq_difference_l. reflexivity. }
    lia.
Qed.

(** The directories of a descriptor that can be read: the list has no
    directory twice, it holds the normalised directory of every referenced
    file and nothing else, so it is not longer than the list of references
    (and empty when nothing is referenced). *)
Theorem get_ntuple_dirs_from_xml_spec :
  forall (env : os_env) (xml_filename : string) (fnames : list string),
    get_ntuple_filenames_from_xml env xml_filename = Ok fnames ->
    exists dirs,
      get_ntuple_dirs_from_xml env xml_filename = Ok dirs
      /\ List.NoDup dirs
      /\ (forall x, In x dirs <-> exists f, In f fnames /\ x = ntuple_dir_of f)
      /\ (List.length dirs <= List.length fnames)%nat.
Proof.
  intros env xml_filename fnames Hf. unfold get_ntuple_dirs_from_xml.
  rewrite Hf. cbn [bind]. eexists. split; [reflexivity|]. split; [|split].
  - apply NoDup_ListNoDup, NoDup_elements.
  - intros x. rewrite <- list_elem_of_In, elem_of_elements. split.
    + intros H. apply fold_dirs_only in H as [H|H]; [|exact H].
      now apply not_elem_of_empty in H.
    + intros H. apply fold_dirs_in. now right.
  - change (size (ntuple_dirs_set fnames) <= List.length fnames)%nat.
    unfold ntuple_dirs_set.
    pose proof (fold_dirs_size fnames ∅) as H. now rewrite size_empty in H.
Qed.

Lemma get_ntuple_dirs_from_xml_spec_witness :
  exists dirs,
    get_ntuple_dirs_from_xml (scan_env []) "/scan/a.xml" = Ok dirs
    /\ List.NoDup dirs
    /\ (forall x,
           In x dirs <->
           exists f,
             In f [ "RunII_102X_v1/2017v2/store/user/alice/job/0000/f1.root";
                    "RunII_102X_v1/2017v2/store/user/alice/job/0001/f2.root" ]
             /\ x = ntuple_dir_of f)
    /\ (List.length dirs <= 2)%nat.
Proof.
  apply (get_ntuple_dirs_from_xml_spec (scan_env []) "/scan/a.xml"
           [ "RunII_102X_v1/2017v2/store/user/alice/job/0000/f1.root";
             "RunII_102X_v1/2017v2/store/user/alice/job/0001/f2.root" ]).
  reflexivity.
Defined.

(** A recorded directory is the empty text, or is separator-normal:
    [normpath] leaves it as it is. *)
Theorem ntuple_dir_of_normal :
  forall ntuple_fname : string,
    ntuple_dir_of ntuple_fname = ""
    \/ normpath (ntuple_dir_of ntuple_fname) = ntuple_dir_of ntuple_fname.
Proof. intros f. unfold ntuple_dir_of. apply strip_shard_normal. Qed.

(** A reference that is a bare file name, without any slash, is recorded
    under the directory ["."]. *)
Theorem ntuple_dir_of_bare_name :
  forall ntuple_fname : string,
    lacks slash ntuple_fname = true -> ntuple_dir_of ntuple_fname = ".".
Proof.
  intros f Hf. unfold ntuple_dir_of, dirname.
  rewrite (rfind_lacks _ _ Hf). change (-1 + 1)%Z with 0%Z.
  unfold slice_to. change (Z.to_nat 0) with 0%nat.
  replace (String.substring 0 0 f) with "" by (now destruct f).
  reflexivity.
Qed.

Lemma ntuple_dir_of_bare_name_witness : ntuple_dir_of "Ntuple_2016v2.root" = ".".
Proof. apply ntuple_dir_of_bare_name. reflexivity. Defined.

End Directories.

(** ** The run of the directory generator *)

Section Throttle.

Lemma div_step c :
  (S c / 1000 = if (S c mod 1000 =? 0) then S (c / 1000) else c / 1000)%nat.
Proof.
  pose proof (Nat.div_mod_eq c 1000) as Hc.
  pose proof (Nat.mod_upper_bound c 1000) as Hb.
  pose proof (Nat.div_mod_eq (S c) 1000) as Hs.
  pose proof (Nat.mod_upper_bound (S c) 1000) as Hsb.
  destruct (Nat.eqb_spec (S c mod 1000) 0); nia.
Qed.

(** The counter counts the rows, and the seconds slept stay five for each
    full thousand counted. *)
Lemma rows_of_dirs_state env xml_path st dirs st' rows :
  ntuple_rows_of_dirs env xml_path st dirs = Ok (st', rows) ->
  counter st' = (counter st + List.length rows)%nat
  /\ List.length rows = List.length dirs
  /\ (slept st = 5 * (counter st / 1000) -> slept st' = 5 * (counter st' / 1000))%nat.
Proof.
  revert st st' rows. induction dirs as [|d dirs IH]; intros st st' rows H.
  - cbn in H. injection H as <- <-. cbn. repeat split; lia.
  - cbn [ntuple_rows_of_dirs] in H.
    destruct (get_ntuple_dir_data env d) as [data|]; [|discriminate].
    cbn [bind] in H.
    match type of H with
    | context [ntuple_rows_of_dirs env xml_path ?s dirs] =>
        destruct (ntuple_rows_of_dirs env xml_path s dirs) as [[st2 rows2]|] eqn:E;
        [|discriminate]
    end.
    cbn [bind fst snd] in H. injection H as <- <-.
    apply IH in E as (Hc & Hl & Hs). cbn [counter slept] in *.
    split; [cbn [List.length]; lia|]. split; [cbn [List.length]; lia|].
    intros H0. apply Hs. rewrite div_step.
    destruct (S (counter st) mod 1000 =? 0)%nat; lia.
Qed.

Lemma rows_of_xmls_state env top_dir st xml_paths st' rows :
  ntuple_rows_of_xmls env top_dir st xml_paths = Ok (st', rows) ->
  counter st' = (counter st + List.length rows)%nat
  /\ (slept st = 5 * (counter st / 1000) -> slept st' = 5 * (counter st' / 1000))%nat.
Proof.
  revert st st' rows. induction xml_paths as [|x xs IH]; intros st st' rows H.
  - cbn in H. injection H as <- <-. cbn. split; [lia | tauto].
  - cbn [ntuple_rows_of_xmls] in H.
    destruct (get_ntuple_dirs_from_xml env (path_join top_dir x)) as [dirs|];
      [|discriminate].
    cbn [bind] in H.
    destruct (ntuple_rows_of_dirs env x st dirs) as [[st1 rows1]|] eqn:E1;
      [|discriminate].
    cbn [bind fst snd] in H.
    destruct (ntuple_rows_of_xmls env top_dir st1 xs) as [[st2 rows2]|] eqn:E2;
      [|discriminate].
    cbn [bind fst snd] in H. injection H as <- <-.
    apply rows_of_dirs_state in E1 as (Hc1 & _ & Hs1).
    apply IH in E2 as (Hc2 & Hs2).
    rewrite length_app. split; [lia|]. intros H0. now apply Hs2, Hs1.
Qed.

(** When the run of the directory generator ends, its counter is the number
    of rows it has yielded, and it has slept five seconds for each full
    thousand of them. *)
Theorem xml_ntuple_dir_rows_throttle :
  forall (env : os_env) (top_dir : string) (st : iter_state) (rows : list row),
    xml_ntuple_dir_rows env top_dir = Ok (st, rows) ->
    counter st = List.length rows
    /\ slept st = (5 * (List.length rows / 1000))%nat.
Proof.
  intros env top_dir st rows H. unfold xml_ntuple_dir_rows in H.
  destruct (get_xml_filenames env top_dir) as [names|]; [|discriminate].
  cbn [bind] in H. apply rows_of_xmls_state in H as (Hc & Hs).
  cbn [counter slept] in *. split; [lia|].
  rewrite Hs by reflexivity. now rewrite Hc.
Qed.

End Throttle.

(** ** The double nearest to an integer *)

Section Rounding.

Local Open Scope Z_scope.

(** Rounding to the nearest integer moves a quotient by a half at most. *)
Lemma round_half_even_near n d :
  0 < d -> 2 * Z.abs (round_half_even n d * d - n) <= d.
Proof.
  intros Hd. unfold round_half_even.
  pose proof (Z.div_mod n d ltac:(lia)) as E.
  pose proof (Z.mod_pos_bound n d Hd) as Hr.
  destruct (Z.ltb_spec (2 * (n mod d)) d); [nia|].
  destruct (Z.ltb_spec d (2 * (n mod d))); [nia|].
  destruct (Z.even (n / d)); nia.
Qed.

Lemma round_half_even_nonneg n d : 0 <= n -> 0 < d -> 0 <= round_half_even n d.
Proof.
  intros Hn Hd. unfold round_half_even.
  pose proof (Z.div_pos n d Hn Hd).
  repeat match goal with |- context [if ?b then _ else _] => destruct b end; lia.
Qed.

Lemma nearest_double_nonneg n : 0 <= n -> 0 <= nearest_double n.
Proof.
  intros Hn. unfold nearest_double.
  destruct (Z.leb_spec (Z.log2 (Z.abs n) - 52) 0) as [_|He]; [exact Hn|].
  assert (H : 0 < 2 ^ (Z.log2 (Z.abs n) - 52)) by (apply Z.pow_pos_nonneg; lia).
  pose proof (round_half_even_nonneg (Z.abs n) _ (Z.abs_nonneg n) H).
  assert (0 <= Z.sgn n) by lia. nia.
Qed.

(** An integer of at most 53 bits is a double. *)
Lemma nearest_double_exact n : Z.abs n <= 2 ^ 53 -> nearest_double n = n.
Proof.
  intros Hn. unfold nearest_double.
  destruct (Z.eq_dec (Z.abs n) (2 ^ 53)) as [E|E].
  - rewrite E. change (Z.log2 (2 ^ 53) - 52 <=? 0) with false. cbn iota.
    change (round_half_even (2 ^ 53) (2 ^ (Z.log2 (2 ^ 53) - 52))
            * 2 ^ (Z.log2 (2 ^ 53) - 52)) with (2 ^ 53).
    rewrite <- E. rewrite Z.mul_comm. apply Z.abs_sgn.
  - destruct (Z.leb_spec (Z.log2 (Z.abs n) - 52) 0) as [_|He]; [reflexivity|].
    exfalso. destruct (Z.eq_dec (Z.abs n) 0) as [E0|E0].
    + rewrite E0 in He. cbn in He. lia.
    + assert (Z.log2 (Z.abs n) < 53); [|lia].
      apply Z.log2_lt_pow2; lia.
Qed.

(** The double nearest to an integer is off by one part in 2^53 at most. *)
Lemma nearest_double_near n :
  Z.abs (nearest_double n - n) * 2 ^ 53 <= Z.abs n.
Proof.
  unfold nearest_double.
  destruct (Z.leb_spec (Z.log2 (Z.abs n) - 52) 0) as [_|He].
  - rewrite Z.sub_diag. cbn. lia.
  - set (e := Z.log2 (Z.abs n) - 52) in *.
    assert (Hd : 0 < 2 ^ e) by (apply Z.pow_pos_nonneg; lia).
    pose proof (round_half_even_near (Z.abs n) (2 ^ e) Hd) as Hnear.
    assert (Hpos : 0 < Z.abs n).
    { destruct (Z.eq_dec (Z.abs n) 0) as [E0|]; [|lia].
      subst e. rewrite E0 in He. cbn in He. lia. }
    pose proof (Z.log2_spec (Z.abs n) Hpos) as [Hlo _].
    assert (Hpow : 2 ^ Z.log2 (Z.abs n) = 2 ^ e * 2 ^ 52).
    { rewrite <- Z.pow_add_r by lia. f_equal. lia. }
    assert (Hs : Z.abs (Z.sgn n * (round_half_even (Z.abs n) (2 ^ e) * 2 ^ e) - n)
                 = Z.abs (round_half_even (Z.abs n) (2 ^ e) * 2 ^ e - Z.abs n)).
    { destruct (Z.sgn_spec n) as [[? ->]|[[? ->]|[? ->]]]; lia. }
    rewrite Hs. change (2 ^ 53) with (2 * 2 ^ 52). nia.
Qed.

Lemma over_1024_near (a b : Z) :
  Z.abs (a - b) * 2 ^ 53 <= b ->
  (Qabs (inject_Z a / inject_Z 1024 - inject_Z b / inject_Z 1024) * inject_Z (2 ^ 53)
   <= inject_Z b / inject_Z 1024)%Q.
Proof.
  intros H.
  assert (E : (inject_Z a / inject_Z 1024 - inject_Z b / inject_Z 1024
               == inject_Z (a - b) / inject_Z 1024)%Q).
  { unfold Qeq, Qminus, Qplus, Qopp, Qdiv, Qmult, Qinv, inject_Z. cbn [Qnum Qden]. lia. }
  rewrite E. unfold Qabs, Qle, Qdiv, Qmult, Qinv, inject_Z. cbn [Qnum Qden].
  change (Z.pos (1 * 1024)) with 1024. rewrite !Z.mul_1_r.
  change (Z.pos (1024 * 1)) with 1024. lia.
Qed.

End Rounding.

(** ** The size of a directory *)

Section Size.

(** Of a path that is no directory, be it missing or a plain file, the size
    is zero: the walk yields nothing. *)
Theorem get_size_not_a_directory :
  forall (env : os_env) (path : string),
    isdir env path = false -> (get_size env path == 0)%Q.
Proof.
  intros env path H. unfold get_size, total_size, os_walk. unfold isdir in H.
  destruct (resolve env path) as [[c o|st es]|]; try discriminate; reflexivity.
Qed.

Lemma get_size_not_a_directory_witness :
  (get_size (scan_env []) "/scan/a.xml" == 0)%Q
  /\ (get_size (scan_env []) "/pnfs/desy.de/store/user/alice/job" == 0)%Q.
Proof.
  split; apply get_size_not_a_directory; reflexivity.
Defined.

Lemma lookup_entry_sizes_ok st es c x :
  tree_sizes_ok (Dir st es) -> lookup_entry c es = Some x -> tree_sizes_ok x.
Proof.
  intros [_ H]. induction es as [|[n y] es IH]; [discriminate|].
  cbn [lookup_entry]. destruct H as [Hy Hes]. cbn [snd] in Hy.
  destruct (String.eqb n c); [now intros [= <-] | now apply IH].
Qed.

Lemma descend_sizes_ok comps stack stack' :
  List.Forall tree_sizes_ok stack -> descend stack comps = Some stack' ->
  List.Forall tree_sizes_ok stack'.
Proof.
  revert stack. induction comps as [|c cs IH]; intros stack Hs H; cbn [descend] in H.
  - now injection H as <-.
  - destruct stack as [|[content o|st es] up]; try discriminate.
    destruct (String.eqb c "" || String.eqb c "."); [now apply (IH _ Hs)|].
    destruct (String.eqb c "..").
    + destruct up as [|u up]; cbn [is_nil] in H; [now apply (IH _ Hs)|].
      apply (IH (u :: up)); [now inversion Hs | exact H].
    + destruct (lookup_entry c es) as [x|] eqn:E; [|discriminate].
      apply (IH (x :: Dir st es :: up)); [|exact H].
      constructor; [|exact Hs]. inversion Hs; subst.
      now apply (lookup_entry_sizes_ok st es c).
Qed.

Lemma tree_sizes_ok_lstat env :
  tree_sizes_ok (fs_root env) -> sizes_not_negative env.
Proof.
  intros Hroot path st H. unfold lstat in H.
  destruct (resolve env path) as [x|] eqn:E; [|discriminate].
  assert (Hx : tree_sizes_ok x).
  { unfold resolve in E. destruct (String.eqb path ""); [discriminate|].
    assert (H1 : List.Forall tree_sizes_ok [fs_root env]) by (now constructor).
    destruct (startswith path "/").
    - destruct (descend [fs_root env] (split slash path)) as [[|y ys]|] eqn:Ed;
        try discriminate.
      injection E as ->. apply descend_sizes_ok in Ed; [|exact H1]. now inversion Ed.
    - destruct (descend [fs_root env] (split slash (cwd env))) as [st0|] eqn:E0;
        [|discriminate].
      apply descend_sizes_ok in E0; [|exact H1].
      destruct (descend st0 (split slash path)) as [[|y ys]|] eqn:Ed; try discriminate.
      injection E as ->. apply descend_sizes_ok in Ed; [|exact E0]. now inversion Ed. }
  destruct x as [content [s0|]|s0 es]; try discriminate; injection H as <-.
  - exact Hx.
  - exact (proj1 Hx).
Qed.

Lemma fold_files_not_negative env dirpath filenames total :
  sizes_not_negative env -> (0 <= total)%Z ->
  (0 <= fold_left
          (fun total f =>
             match lstat env (path_join dirpath f) with
             | Ok st => (total + st_size st)%Z
             | Raise _ => total
             end)
          filenames total)%Z.
Proof.
  intros Hn. revert total. induction filenames as [|f fs IH]; intros total Ht;
    cbn [fold_left]; [exact Ht|].
  apply IH. destruct (lstat env (path_join dirpath f)) as [st|] eqn:E; [|exact Ht].
  specialize (Hn _ _ E). lia.
Qed.

(** In a tree without a negative size, the sum of the sizes is not
    negative, also when [lstat] fails on some of the files. *)
Lemma total_size_ge_0 :
  forall (env : os_env) (path : string),
    tree_sizes_ok (fs_root env) -> (0 <= total_size env path)%Z.
Proof.
  intros env path Hroot. pose proof (tree_sizes_ok_lstat env Hroot) as Hn.
  unfold total_size.
  match goal with
  | |- context [fold_left ?f (os_walk env path) 0%Z] =>
      assert (Ht : forall w total,
                 (0 <= total)%Z -> (0 <= fold_left f w total)%Z)
  end.
  { induction w as [|[[dirpath dirs] filenames] w IH]; intros total Ht;
      cbn [fold_left]; [exact Ht|].
    apply IH. now apply fold_files_not_negative. }
  exact (Ht (os_walk env path) 0%Z (Z.le_refl 0)).
Qed.

(** In a tree without a negative size, the size of a directory is not
    negative. *)
Lemma get_size_ge_0 :
  forall (env : os_env) (path : string),
    tree_sizes_ok (fs_root env) -> (0 <= get_size env path)%Q.
Proof.
  intros env path Hroot. pose proof (total_size_ge_0 env path Hroot) as Ht.
  apply nearest_double_nonneg in Ht. unfold get_size, true_div_1024.
  unfold Qle, Qdiv, Qmult, Qinv, inject_Z. cbn [Qnum Qden]. lia.
Qed.

(** The size is the exact quotient when the sum has at most 53 bits, and
    is off by one part in 2^53 at most in any case. *)
Lemma get_size_near :
  forall (env : os_env) (path : string),
    tree_sizes_ok (fs_root env) ->
    ((total_size env path <= 2 ^ 53)%Z ->
     (get_size env path = inject_Z (total_size env path) / inject_Z 1024)%Q)
    /\ (Qabs (get_size env path - inject_Z (total_size env path) / inject_Z 1024)
        * inject_Z (2 ^ 53)
        <= inject_Z (total_size env path) / inject_Z 1024)%Q.
Proof.
  intros env path Hroot. pose proof (total_size_ge_0 env path Hroot) as Ht.
  unfold get_size, true_div_1024. split.
  - intros Hb. rewrite nearest_double_exact; [reflexivity|lia].
  - apply over_1024_near.
    pose proof (nearest_double_near (total_size env path)). lia.
Qed.

End Size.

(** ** The owner of a separator-normal path *)

Section OwnerOfNormalPath.

Lemma join_app (l1 l2 : list string) :
  l1 <> [] -> l2 <> [] ->
  join "/" (l1 ++ l2) = join "/" l1 +:+ "/" +:+ join "/" l2.
Proof.
  intros H1 H2. induction l1 as [|a l1 IH]; [contradiction|].
  destruct l1 as [|b l1].
  - destruct l2 as [|c l2]; [contradiction | reflexivity].
  - change ((a :: b :: l1) ++ l2) with (a :: b :: (l1 ++ l2)).
    rewrite !join_cons. change (b :: l1 ++ l2) with ((b :: l1) ++ l2).
    rewrite IH by discriminate. now rewrite !app_assoc_str.
Qed.

Lemma str_repeat_snoc c k : str_repeat c (S k) = str_repeat c k +:+ String c "".
Proof. induction k as [|k IH]; [reflexivity|]. cbn [str_repeat append] in *. now rewrite <- IH. Qed.

(** A marker segment with a slash before it and a segment after it shows
    in the text between two slashes. *)
Lemma contains_marker_path_of k pre m x rest :
  k <> 0%nat \/ pre <> [] ->
  contains ("/" +:+ m +:+ "/") (path_of k (pre ++ m :: x :: rest)) = true.
Proof.
  intros H. unfold path_of. destruct pre as [|p pre].
  - destruct H as [H|H]; [|contradiction]. destruct k as [|k]; [contradiction|].
    rewrite str_repeat_snoc. cbn [app]. rewrite join_cons.
    replace ((str_repeat slash k +:+ String slash "") +:+ m +:+ "/" +:+ join "/" (x :: rest))
      with (str_repeat slash k +:+ ("/" +:+ m +:+ "/") +:+ join "/" (x :: rest))
      by (now rewrite !app_assoc_str).
    apply contains_intro.
  - rewrite join_app by discriminate. rewrite join_cons.
    replace (str_repeat slash k +:+ join "/" (p :: pre) +:+ "/" +:+ m +:+ "/"
               +:+ join "/" (x :: rest))
      with ((str_repeat slash k +:+ join "/" (p :: pre)) +:+ ("/" +:+ m +:+ "/")
              +:+ join "/" (x :: rest))
      by (now rewrite !app_assoc_str).
    apply contains_intro.
Qed.

Lemma not_in_leading m k (pre : list string) :
  m <> "" -> ~ In m pre -> ~ In m (List.repeat "" k ++ pre).
Proof.
  intros Hm Hn Hin. apply in_app_or in Hin as [Hin|Hin]; [|now apply Hn].
  apply repeat_spec in Hin. now apply Hm.
Qed.

(** The marker is looked for in the path as written: leading slashes [k]
    and plain segments. *)
Lemma get_dir_user_at_marker k pre m x rest :
  let path := path_of k (pre ++ m :: x :: rest) in
  clean k (pre ++ m :: x :: rest) -> (k <= 2)%nat ->
  m <> "" -> ~ In m pre ->
  normpath path = path
  /\ (do ind <- list_index m (split slash path) ;
      if (ind =? List.length (split slash path) - 1)%nat then Ok None
      else do u <- list_get (split slash path) (ind + 1) ; Ok (Some u))
     = Ok (Some x).
Proof.
  intros path Hc Hk Hm Hn.
  assert (Hnn : pre ++ m :: x :: rest <> []) by (now destruct pre).
  destruct (normpath_path_of k _ Hc Hk) as [_ Hnorm]; [now intros _|].
  split; [exact Hnorm|]. unfold path.
  rewrite split_path_of by (assumption || now apply clean_good in Hc).
  rewrite app_assoc. apply after_first_marker. now apply not_in_leading.
Qed.

(** For a separator-normal path ([k] leading slashes, plain segments) that
    has a segment ["user"] with a slash before it and a segment [x] after
    it, the first such segment, the owner is [x]. *)
Theorem get_dir_user_after_user :
  forall (k : nat) (pre : list string) (x : string) (rest : list string),
    clean k (pre ++ "user" :: x :: rest) -> (k <= 2)%nat ->
    k <> 0%nat \/ pre <> [] ->
    ~ In "user" pre ->
    get_dir_user (path_of k (pre ++ "user" :: x :: rest)) = Ok (Some x).
Proof.
  intros k pre x rest Hc Hk Hfront Hn.
  pose proof (contains_marker_path_of k pre "user" x rest Hfront) as Hu.
  destruct (get_dir_user_at_marker k pre "user" x rest Hc Hk) as [Hnorm Hidx];
    [discriminate | exact Hn |].
  unfold get_dir_user. change ("/" +:+ "user" +:+ "/") with "/user/" in Hu.
  rewrite Hu, Hnorm, Hu. cbn [negb andb]. exact Hidx.
Qed.

Ltac clean_segments :=
  unfold clean; cbn [rev app clean_stack];
  repeat split; try discriminate; try reflexivity.

Lemma get_dir_user_after_user_witness :
  get_dir_user "/nfs/dust/cms/user/robin/UHH2/Ntuple_2016v2.root" = Ok (Some "robin").
Proof.
  apply (get_dir_user_after_user 1 ["nfs"; "dust"; "cms"] "robin"
           ["UHH2"; "Ntuple_2016v2.root"]).
  - clean_segments.
  - lia.
  - left. discriminate.
  - intros [H|[H|[H|[]]]]; discriminate.
Defined.

(** For a separator-normal path without a segment ["user"] that has a
    segment ["group"] with a slash before it and a segment [x] after it,
    the first such segment, the owner is [x]. *)
Theorem get_dir_user_after_group :
  forall (k : nat) (pre : list string) (x : string) (rest : list string),
    clean k (pre ++ "group" :: x :: rest) -> (k <= 2)%nat ->
    k <> 0%nat \/ pre <> [] ->
    ~ In "group" pre ->
    ~ In "user" (pre ++ "group" :: x :: rest) ->
    get_dir_user (path_of k (pre ++ "group" :: x :: rest)) = Ok (Some x).
Proof.
  intros k pre x rest Hc Hk Hfront Hn Hnu.
  pose proof (contains_marker_path_of k pre "group" x rest Hfront) as Hg.
  destruct (get_dir_user_at_marker k pre "group" x rest Hc Hk) as [Hnorm Hidx];
    [discriminate | exact Hn |].
  assert (Hu : contains "/user/" (path_of k (pre ++ "group" :: x :: rest)) = false).
  { destruct (contains "/user/" _) eqn:E; [exfalso | reflexivity].
    destruct (marker_split "user" _ eq_refl E) as (p & y & r & Es & _).
    assert (Hnn : pre ++ "group" :: x :: rest <> []) by (now destruct pre).
    rewrite split_path_of in Es by (assumption || now apply clean_good in Hc).
    apply (not_in_leading "user" k (pre ++ "group" :: x :: rest));
      [discriminate | exact Hnu |].
    rewrite Es. apply in_or_app. right. now left. }
  unfold get_dir_user. change ("/" +:+ "group" +:+ "/") with "/group/" in Hg.
  rewrite Hu, Hg, Hnorm, Hu, Hg. cbn [negb andb]. exact Hidx.
Qed.

Lemma get_dir_user_after_group_witness :
  get_dir_user "/pnfs/desy.de/cms/tier2/store/group/uhh/uhh2ntuples/RunII_102X_v2"
  = Ok (Some "uhh").
Proof.
  apply (get_dir_user_after_group 1 ["pnfs"; "desy.de"; "cms"; "tier2"; "store"] "uhh"
           ["uhh2ntuples"; "RunII_102X_v2"]).
  - clean_segments.
  - lia.
  - left. discriminate.
  - intros [H|[H|[H|[H|[H|[]]]]]]; discriminate.
  - intros [H|[H|[H|[H|[H|[H|[H|[H|[H|[]]]]]]]]]]; discriminate.
Defined.

End OwnerOfNormalPath.

(** ** Appending to the tables *)

Section Append.

(** With [append] true the tables are neither dropped nor created: a run
    that returns has kept the statements that were there and has added
    insertions only, those of the descriptor table before those of the
    directory table. *)
Theorem create_tables_append :
  forall (env : os_env) (top_dir : string) (d d' : db),
    create_tables env top_dir true d = Ok d' ->
    exists rows_a rows_b,
      d' = d ++ map (insert_stmt "xml") rows_a
             ++ map (insert_stmt "xml_ntuple_dir") rows_b.
Proof.
  intros env top_dir d d' H. unfold create_tables in H.
  destruct (create_xml_table env top_dir "xml" true d) as [d1|] eqn:E1; [|discriminate].
  cbn [bind] in H. unfold create_xml_table in E1.
  unfold create_xml_ntuple_dir_table in H.
  destruct (isdir env top_dir); [|discriminate]. cbn [negb] in *.
  destruct (git_remote_info env top_dir) as [remote|]; [|discriminate].
  cbn [bind] in E1. destruct (git_current_branch env top_dir) as [b|]; [|discriminate].
  cbn [bind] in E1. destruct (xml_file_rows _ _ _) as [rows_a|]; [|discriminate].
  cbn [bind] in E1. injection E1 as <-.
  destruct (xml_ntuple_dir_rows env top_dir) as [r|]; [|discriminate].
  cbn [bind] in H. injection H as <-.
  exists rows_a, (snd r). now rewrite !fill_table_log, <- app_assoc.
Qed.

(** The witness is a run on the database that a run without [append] has
    left, in which the two tables exist. *)
Lemma create_tables_append_witness :
  exists d d' rows_a rows_b,
    create_tables (scan_env []) "/scan" false [] = Ok d
    /\ create_tables (scan_env []) "/scan" true d = Ok d'
    /\ d' = d ++ map (insert_stmt "xml") rows_a
              ++ map (insert_stmt "xml_ntuple_dir") rows_b.
Proof.
  destruct (create_tables (scan_env []) "/scan" false []) as [d|] eqn:Ed;
    [|vm_compute in Ed; discriminate].
  assert (Hok : exists d', create_tables (scan_env []) "/scan" true d = Ok d').
  { vm_compute in Ed. injection Ed as <-. eexists. vm_compute. reflexivity. }
  destruct Hok as [d' Ed'].
  destruct (create_tables_append (scan_env []) "/scan" d d' Ed') as (ra & rb & E).
  exists d, d', ra, rb. split; [reflexivity|]. split; [exact Ed' | exact E].
Defined.

End Append.

(** ** The matcher reports matches of the pattern only *)

Section Matcher.

Lemma length_app_str (a b : string) :
  String.length (a +:+ b) = (String.length a + String.length b)%nat.
Proof. induction a as [|c a IH]; cbn [append String.length]; [reflexivity | now rewrite IH]. Qed.

Lemma drop_str_app (l u : string) : drop_str (String.length l) (l +:+ u) = u.
Proof. induction l as [|c l IH]; [reflexivity | exact IH]. Qed.

Lemma or_else_some {A : Type} (a b : option A) r :
  or_else a b = Some r -> a = Some r \/ b = Some r.
Proof. destruct a; cbn; intros H; [left | right]; exact H. Qed.

Lemma str_all_cons f c x : str_all f (String c x) = f c && str_all f x.
Proof. reflexivity. Qed.

Lemma star_set_sound {A : Type} f pos s (k : nat -> string -> option A) r :
  star_set f pos s k = Some r ->
  exists x t, s = x +:+ t /\ str_all f x = true
              /\ k (pos + String.length x)%nat t = Some r.
Proof.
  revert pos. induction s as [|c s IH]; intros pos H; cbn [star_set] in H.
  - exists "", "". rewrite Nat.add_0_r. now repeat split.
  - destruct (f c) eqn:Hc.
    + apply or_else_some in H as [H|H].
      * destruct (IH _ H) as (x & t & -> & Hx & Hk).
        exists (String c x), t. rewrite str_all_cons, Hc, Hx.
        cbn [String.length]. rewrite Nat.add_succ_r. now repeat split.
      * exists "", (String c s). rewrite Nat.add_0_r. now repeat split.
    + exists "", (String c s). rewrite Nat.add_0_r. now repeat split.
Qed.

(** Whatever the matcher hands to its continuation is a match of the
    pattern at the front of the text. *)
Lemma rx_sound r :
  forall pos s gs k res,
    rx r pos s gs k = Some res ->
    exists x t gs',
      s = x +:+ t /\ matches r x gs gs'
      /\ k (pos + String.length x)%nat t gs' = Some res.
Proof.
  induction r as [l|c|f|f| | |r IH|r1 IH1 r2 IH2]; intros pos s gs k res H;
    cbn [rx] in H.
  - destruct (is_prefix l s) eqn:Hp; [|discriminate].
    apply prefix_inv in Hp as [u ->]. rewrite drop_str_app in H.
    exists l, u, gs. repeat split; [constructor | exact H].
  - destruct s as [|a s].
    + exists "", "", gs. rewrite Nat.add_0_r. repeat split; [constructor | exact H].
    + destruct (Ascii.eqb_spec a c) as [->|_].
      * apply or_else_some in H as [H|H].
        -- exists (String c ""), s, gs. cbn [String.length]. rewrite Nat.add_1_r.
           repeat split; [constructor | exact H].
        -- exists "", (String c s), gs. rewrite Nat.add_0_r.
           repeat split; [constructor | exact H].
      * exists "", (String a s), gs. rewrite Nat.add_0_r.
        repeat split; [constructor | exact H].
  - destruct s as [|a s]; [discriminate|]. destruct (f a) eqn:Ha; [|discriminate].
    exists (String a ""), s, gs. cbn [String.length]. rewrite Nat.add_1_r.
    repeat split; [now constructor | exact H].
  - destruct s as [|a s]; [discriminate|]. destruct (f a) eqn:Ha; [|discriminate].
    apply star_set_sound in H as (x & t & -> & Hx & Hk).
    exists (String a x), t, gs. cbn [String.length]. rewrite Nat.add_succ_r.
    repeat split; [|exact Hk]. constructor; [discriminate|].
    now rewrite str_all_cons, Ha, Hx.
  - destruct (pos =? 0)%nat; [|discriminate].
    exists "", s, gs. rewrite Nat.add_0_r. repeat split; [constructor | exact H].
  - destruct (String.eqb s "" || String.eqb s (String newline "")); [|discriminate].
    exists "", s, gs. rewrite Nat.add_0_r. repeat split; [constructor | exact H].
  - apply IH in H as (x & t & gs' & -> & Hm & Hk).
    replace (pos + String.length x - pos)%nat with (String.length x) in Hk by lia.
    rewrite substring_app in Hk by reflexivity.
    exists x, t, (gs' ++ [x]). repeat split; [now constructor | exact Hk].
  - apply IH1 in H as (x1 & t1 & gs1 & -> & Hm1 & Hk).
    apply IH2 in Hk as (x2 & t & gs2 & -> & Hm2 & Hk).
    exists (x1 +:+ x2), t, gs2. rewrite length_app_str, Nat.add_assoc, app_assoc_str.
    repeat split; [now apply (M_seq r1 r2 x1 x2 gs gs1 gs2) | exact Hk].
Qed.

Lemma re_search_sound r pos s gs :
  re_search_from r pos s = Some gs ->
  exists pre x t, s = pre +:+ x +:+ t /\ matches r x [] gs.
Proof.
  revert pos. induction s as [|c s IH]; intros pos H; cbn [re_search_from] in H;
    apply or_else_some in H as [H|H].
  - apply rx_sound in H as (x & t & gs' & E & Hm & [= <-]). exists "", x, t. now split.
  - discriminate.
  - apply rx_sound in H as (x & t & gs' & E & Hm & [= <-]). exists "", x, t. now split.
  - destruct (IH _ H) as (pre & x & t & -> & Hm). exists (String c pre), x, t. now split.
Qed.

(** A match of the pattern of a reference has one group, and the text of
    the group is not empty and has no newline. *)
Lemma fname_pattern_group x gs :
  matches fname_pattern x [] gs ->
  exists g, gs = [g] /\ g <> "" /\ lacks newline g = true.
Proof.
  unfold fname_pattern. cbn [rseq]. intros H.
  repeat match goal with
         | H : matches (RSeq _ _) _ _ _ |- _ => inversion H; subst; clear H
         | H : matches (RLit _) _ _ _ |- _ => inversion H; subst; clear H
         | H : matches (ROptChar _) _ _ _ |- _ => inversion H; subst; clear H
         | H : matches (RGroup _) _ _ _ |- _ => inversion H; subst; clear H
         | H : matches (RPlusSet _) _ _ _ |- _ => inversion H; subst; clear H
         end;
    eexists; (split; [reflexivity|]); split; assumption.
Qed.

(** The names yielded for the lines of a descriptor are never empty and
    never hold a newline, whatever the lines and the flag. *)
Theorem ntuple_filenames_plain :
  forall (is_comment : bool) (lines : list string),
    List.Forall (fun fname => fname <> "" /\ lacks newline fname = true)
                (ntuple_filenames_loop is_comment lines).
Proof.
  intros f lines. revert f. induction lines as [|line lines IH]; intros f;
    cbn [ntuple_filenames_loop]; [constructor|].
  destruct (endswith (strip line) "-->"); [apply IH|].
  destruct (if startswith (strip line) "<!--" then true else f); [apply IH|].
  destruct (re_search fname_pattern (strip (strip line))) as [gs|] eqn:E; [|apply IH].
  constructor; [|apply IH].
  apply re_search_sound in E as (pre & x & t & _ & Hm).
  apply fname_pattern_group in Hm as (g & -> & Hg). exact Hg.
Qed.

End Matcher.

(** ** The branch of a descriptor path *)

Section Branch.

Lemma last_char (x : string) :
  x <> "" -> exists y c, x = y +:+ String c "".
Proof.
  induction x as [|a x IH]; intros H; [contradiction|].
  destruct x as [|b x].
  - now exists "", a.
  - destruct IH as (y & c & E); [discriminate|]. rewrite E.
    now exists (String a y), c.
Qed.

Lemma str_all_app f x y : str_all f (x +:+ y) = str_all f x && str_all f y.
Proof.
  induction x as [|a x IH]; [reflexivity|].
  cbn [append]. rewrite !str_all_cons, IH. apply andb_assoc.
Qed.

Lemma is_some_or_else {A : Type} (a b : option A) :
  is_some (or_else a b) = is_some a || is_some b.
Proof. now destruct a. Qed.

Lemma release_tag_found a c b pos :
  is_digit c = true ->
  is_some (re_search_from branch_pattern2 pos (a +:+ String c ("X_" +:+ b))) = true.
Proof.
  intros Hc. revert pos. induction a as [|x a IH]; intros pos;
    cbn [append re_search_from]; rewrite is_some_or_else.
  - unfold branch_pattern2. cbn [rx star_set append]. rewrite Hc.
    cbn [star_set is_digit]. reflexivity.
  - rewrite IH. apply orb_true_r.
Qed.

(** The pattern [[0-9]+X_] is found in a segment exactly when the segment
    has a digit with ["X_"] right after it. *)
Lemma release_tag_search p :
  is_some (re_search branch_pattern2 p) = true <-> has_release_tag p.
Proof.
  split.
  - destruct (re_search branch_pattern2 p) as [gs|] eqn:E; [intros _ | discriminate].
    apply re_search_sound in E as (pre & x & t & -> & Hm).
    unfold branch_pattern2 in Hm. inversion Hm as [| | | | | | | |? ? x1 x2 ? ? ? H1 H2]; subst.
    inversion H1; subst. inversion H2; subst.
    match goal with H : x1 <> "" |- _ => destruct (last_char x1 H) as (y & c & ->) end.
    match goal with H : str_all is_digit _ = true |- _ =>
      rewrite str_all_app, str_all_cons in H;
      apply andb_true_iff in H as [_ H]; apply andb_true_iff in H as [Hc _] end.
    exists (pre +:+ y), c, t. split; [exact Hc|].
    rewrite !app_assoc_str. reflexivity.
  - intros (a & c & b & Hc & ->). now apply release_tag_found.
Qed.

Lemma branch_test_iff q :
  (contains branch_pattern q || is_some (re_search branch_pattern2 q))
  && negb (contains ".xml" q) = true
  <-> branch_like q.
Proof.
  unfold branch_like. rewrite andb_true_iff, orb_true_iff, negb_true_iff.
  now rewrite release_tag_search.
Qed.

Lemma branch_test_false q :
  ~ branch_like q ->
  (contains branch_pattern q || is_some (re_search branch_pattern2 q))
  && negb (contains ".xml" q) = false.
Proof.
  intros H. destruct (_ && _) eqn:E; [|reflexivity].
  now apply branch_test_iff in E.
Qed.

(** The branch of a path is its first segment that has no [".xml"] and
    has ["RunII_"] or a digit followed by ["X_"]; there is none when no
    segment is like that; and what is returned is always such a segment of
    the path. *)
Theorem get_branch_from_path_spec :
  forall path : string,
    (forall pre p rest,
        split slash path = pre ++ p :: rest ->
        List.Forall (fun q => ~ branch_like q) pre -> branch_like p ->
        get_branch_from_path path = Some p)
    /\ (List.Forall (fun q => ~ branch_like q) (split slash path) ->
        get_branch_from_path path = None)
    /\ (forall p, get_branch_from_path path = Some p ->
                  branch_like p /\ In p (split slash path)).
Proof.
  intros path. unfold get_branch_from_path. split; [|split].
  - intros pre p rest E Hpre Hp. rewrite E. apply find_first.
    + eapply List.Forall_impl; [|exact Hpre]. intros q. apply branch_test_false.
    + now apply branch_test_iff.
  - intros H. apply find_none.
    eapply List.Forall_impl; [|exact H]. intros q. apply branch_test_false.
  - intros p H. apply List.find_some in H as [Hin Ht].
    split; [now apply branch_test_iff | exact Hin].
Qed.

Lemma no_branch_like q :
  is_some (re_search branch_pattern2 q) = false ->
  contains branch_pattern q = false -> ~ branch_like q.
Proof.
  intros Hq Hb [[Hc|Hr] _]; [congruence|].
  apply release_tag_search in Hr. congruence.
Qed.

Lemma get_branch_from_path_spec_witness :
  get_branch_from_path "common/datasets/MC_94X_v1/2017/MC_TTbar.xml" = Some "MC_94X_v1"
  /\ get_branch_from_path "common/datasets/MC_TTbar.xml" = None
  /\ branch_like "RunII_102X_v1".
Proof.
  destruct (get_branch_from_path_spec "common/datasets/MC_94X_v1/2017/MC_TTbar.xml")
    as (H1 & _).
  destruct (get_branch_from_path_spec "common/datasets/MC_TTbar.xml") as (_ & H2 & _).
  destruct (get_branch_from_path_spec "RunII_102X_v1/2018/a.xml") as (_ & _ & H3).
  split; [|split].
  - apply (H1 ["common"; "datasets"] "MC_94X_v1" ["2017"; "MC_TTbar.xml"]).
    + vm_compute. reflexivity.
    + apply List.Forall_cons; [apply no_branch_like; vm_compute; reflexivity|].
      apply List.Forall_cons; [apply no_branch_like; vm_compute; reflexivity|].
      apply List.Forall_nil.
    + split; [right; exists "MC_9", "4"%char, "v1"; split; reflexivity
             | vm_compute; reflexivity].
  - apply H2.
    change (split slash "common/datasets/MC_TTbar.xml")
      with ["common"; "datasets"; "MC_TTbar.xml"].
    apply List.Forall_cons; [apply no_branch_like; vm_compute; reflexivity|].
    apply List.Forall_cons; [apply no_branch_like; vm_compute; reflexivity|].
    apply List.Forall_cons; [apply no_branch_like; vm_compute; reflexivity|].
    apply List.Forall_nil.
  - destruct (H3 "RunII_102X_v1") as [Hb _]; [vm_compute; reflexivity | exact Hb].
Defined.

End Branch.

(** ** A reference and its line *)

Section Reference.

Lemma star_set_all {A : Type} f pos x t (k : nat -> string -> option A) r :
  str_all f x = true ->
  star_set f (pos + String.length x)%nat t k = Some r ->
  star_set f pos (x +:+ t) k = Some r.
Proof.
  revert pos. induction x as [|c x IH]; intros pos Hx H.
  - now rewrite Nat.add_0_r in H.
  - rewrite str_all_cons in Hx. apply andb_true_iff in Hx as [Hc Hx].
    cbn [append star_set]. rewrite Hc.
    rewrite (IH (S pos) Hx); [reflexivity|].
    cbn [String.length] in H. now rewrite Nat.add_succ_r in H.
Qed.

Lemma star_set_first_choice {A : Type} f (k : nat -> string -> option A) :
  forall tail pos,
    (forall y u, tail = y +:+ u -> y <> "" -> k (pos + String.length y)%nat u = None) ->
    star_set f pos tail k = k pos tail.
Proof.
  induction tail as [|c t IH]; intros pos H; [reflexivity|].
  cbn [star_set]. destruct (f c); [|reflexivity].
  rewrite IH.
  - specialize (H (String c "") t eq_refl). cbn [String.length] in H.
    rewrite Nat.add_1_r in H. rewrite H by discriminate. reflexivity.
  - intros y u -> Hy. specialize (H (String c y) u eq_refl).
    cbn [String.length] in H. rewrite Nat.add_succ_r in H. now apply H.
Qed.

Lemma rx_group_plus f r pos a x t gs k :
  f a = true ->
  rx (RSeq (RGroup (RPlusSet f)) r) pos (String a x +:+ t) gs k
  = star_set f (S pos) (x +:+ t)
      (fun p u => rx r p u (gs ++ [String.substring 0 (p - pos) (String a x +:+ t)]) k).
Proof. intros H. cbn [rx append]. now rewrite H. Qed.

Lemma fname_pattern_head w k :
  rx fname_pattern 0 ("<In FileName=" +:+ dq +:+ w) [] k
  = rx (RSeq (RGroup (RPlusSet not_newline)) fname_pattern_end) 14 w [] k.
Proof. reflexivity. Qed.

Lemma fname_pattern_end_here pos gs :
  rx fname_pattern_end pos fname_tail gs (fun _ _ gs => Some gs) = Some gs.
Proof. reflexivity. Qed.

Lemma fname_pattern_end_later pos gs y u :
  fname_tail = y +:+ u -> y <> "" ->
  rx fname_pattern_end pos u gs (fun _ _ gs => Some gs) = None.
Proof.
  intros E Hy. destruct y as [|c y]; [contradiction|]. clear Hy.
  unfold fname_tail, dq in E. cbn [append] in E. injection E as _ E.
  repeat (destruct y as [|? y];
          [cbn [append] in E; subst u; reflexivity
          |cbn [append] in E; try discriminate; injection E as _ E]).
Qed.

Lemma re_search_from_hit r pos s gs :
  rx r pos s [] (fun _ _ gs => Some gs) = Some gs ->
  re_search_from r pos s = Some gs.
Proof. intros H. destruct s; cbn [re_search_from]; now rewrite H. Qed.

Lemma in_tag_eq fname :
  in_tag fname = "<In FileName=" +:+ dq +:+ fname +:+ fname_tail.
Proof. reflexivity. Qed.

(** The search finds the element at the start of the text and gives the
    file name, whole, as its group. *)
Lemma re_search_in_tag fname :
  fname <> "" -> lacks newline fname = true ->
  re_search fname_pattern (in_tag fname) = Some [fname].
Proof.
  intros Hne Hnl. rewrite in_tag_eq. apply re_search_from_hit.
  rewrite fname_pattern_head.
  destruct fname as [|a f]; [contradiction|].
  change (lacks newline (String a f)) with (str_all not_newline (String a f)) in Hnl.
  rewrite str_all_cons in Hnl. apply andb_true_iff in Hnl as [Ha Hf].
  rewrite (rx_group_plus _ _ _ _ _ _ _ _ Ha).
  apply (star_set_all not_newline); [exact Hf|].
  rewrite star_set_first_choice.
  - rewrite fname_pattern_end_here. cbn [app]. do 2 f_equal.
    apply (substring_app _ (String a f)). cbn [String.length]. lia.
  - intros y u E Hy. now apply (fname_pattern_end_later _ _ y u).
Qed.

Lemma lstrip_spaces n c s :
  is_space c = false ->
  lstrip_by is_space (str_repeat " "%char n +:+ String c s) = String c s.
Proof.
  intros Hc. induction n as [|n IH]; cbn [str_repeat append lstrip_by].
  - now rewrite Hc.
  - exact IH.
Qed.

Lemma rstrip_all f w : str_all f w = true -> rstrip_by f w = "".
Proof.
  induction w as [|c w IH]; [reflexivity|]. rewrite str_all_cons.
  intros H. apply andb_true_iff in H as [Hc Hw]. cbn [rstrip_by].
  now rewrite (IH Hw), Hc.
Qed.

Lemma rstrip_tail f y e w :
  f e = false -> str_all f w = true ->
  rstrip_by f (y +:+ String e w) = y +:+ String e "".
Proof.
  intros He Hw. induction y as [|a y IH]; cbn [append rstrip_by].
  - now rewrite (rstrip_all f w Hw), He.
  - rewrite IH. now destruct y.
Qed.

Lemma in_tag_end fname w :
  in_tag fname +:+ w = (in_head fname +:+ "/") +:+ String ">"%char w.
Proof.
  unfold in_tag, in_head. rewrite !app_assoc_str. reflexivity.
Qed.

(** Trimming the line of an element, indented or not, leaves the element. *)
Lemma strip_in_tag n fname w :
  str_all is_space w = true ->
  strip (str_repeat " "%char n +:+ in_tag fname +:+ w) = in_tag fname.
Proof.
  intros Hw. unfold strip.
  change (in_tag fname +:+ w) with (String "<"%char (("In FileName=" +:+ dq +:+ fname +:+ fname_tail) +:+ w)).
  rewrite lstrip_spaces by reflexivity.
  change (String "<"%char (("In FileName=" +:+ dq +:+ fname +:+ fname_tail) +:+ w))
    with (in_tag fname +:+ w).
  rewrite in_tag_end, rstrip_tail by (reflexivity || exact Hw).
  rewrite <- (in_tag_end fname ""). apply app_empty_r.
Qed.

Lemma strip_in_tag_self fname : strip (in_tag fname) = in_tag fname.
Proof.
  pose proof (strip_in_tag 0 fname "" eq_refl) as H.
  cbn [str_repeat] in H. change ("" +:+ in_tag fname +:+ "") with (in_tag fname +:+ "") in H.
  now rewrite app_empty_r in H.
Qed.

Lemma endswith_not_comment a : endswith (a +:+ "/>") "-->" = false.
Proof.
  induction a as [|c a IH]; [reflexivity|]. cbn [append endswith].
  rewrite IH, orb_false_r.
  destruct (String.eqb_spec (String c (a +:+ "/>")) "-->") as [E|]; [|reflexivity].
  destruct a as [|? [|? [|? ?]]]; cbn [append] in E; discriminate.
Qed.

Lemma in_tag_not_closing fname : endswith (in_tag fname) "-->" = false.
Proof.
  replace (in_tag fname) with (in_head fname +:+ "/>");
    [apply endswith_not_comment|].
  unfold in_tag, in_head. rewrite !app_assoc_str. reflexivity.
Qed.

(** Outside a comment, the line that holds the element for a file, with or
    without spaces before it, yields the name of the file, whole and as
    written, for every name that is not empty and has no newline, also
    when the name has quotes or pieces of the element in it. *)
Theorem reference_line_yields_name :
  forall (n : nat) (fname : string) (rest : list string),
    fname <> "" -> lacks newline fname = true ->
    ntuple_filenames_loop false
      ((str_repeat " "%char n +:+ in_tag fname +:+ nl) :: rest)
    = fname :: ntuple_filenames_loop false rest.
Proof.
  intros n fname rest Hne Hnl. cbn [ntuple_filenames_loop].
  rewrite (strip_in_tag n fname nl eq_refl).
  rewrite in_tag_not_closing.
  change (startswith (in_tag fname) "<!--") with false. cbn iota.
  rewrite strip_in_tag_self.
  now rewrite (re_search_in_tag fname Hne Hnl).
Qed.

Lemma reference_line_yields_name_witness :
  ntuple_filenames_loop false
    [ str_repeat " "%char 4 +:+ in_tag "/pnfs/desy.de/store/user/alice/job/0000/f1.root"
        +:+ nl ]
  = [ "/pnfs/desy.de/store/user/alice/job/0000/f1.root" ].
Proof.
  apply (reference_line_yields_name 4 "/pnfs/desy.de/store/user/alice/job/0000/f1.root" []).
  - discriminate.
  - reflexivity.
Defined.

End Reference.

(** ** A run of the directory generator over a thousand directories *)

Section LongRun.

Lemma file_lines_line s rest :
  lacks newline s = true ->
  file_lines (s +:+ nl +:+ rest) = (s +:+ nl) :: file_lines rest.
Proof.
  induction s as [|c s IH]; intros H.
  - reflexivity.
  - rewrite lacks_cons in H. apply andb_true_iff in H as [Hc Hs].
    apply negb_true_iff in Hc. cbn [append file_lines]. rewrite Hc.
    change (s +:+ String newline rest) with (s +:+ nl +:+ rest).
    rewrite (IH Hs). reflexivity.
Qed.

Lemma in_tag_lacks_newline fname :
  lacks newline fname = true -> lacks newline (in_tag fname) = true.
Proof.
  intros H. unfold in_tag. rewrite !lacks_app, H. reflexivity.
Qed.

Lemma file_lines_refs fnames :
  List.Forall (fun f => lacks newline f = true) fnames ->
  file_lines (fold_right (fun fname rest => in_line fname +:+ rest) "" fnames)
  = map in_line fnames.
Proof.
  induction 1 as [|f fnames Hf _ IH]; [reflexivity|].
  cbn [fold_right map]. unfold in_line at 1. rewrite app_assoc_str.
  rewrite file_lines_line by (now apply in_tag_lacks_newline).
  now rewrite IH.
Qed.

Lemma loop_in_lines fnames :
  List.Forall (fun f => f <> "" /\ lacks newline f = true) fnames ->
  ntuple_filenames_loop false (map in_line fnames) = fnames.
Proof.
  induction 1 as [|f fnames [Hne Hnl] _ IH]; [reflexivity|].
  cbn [map ntuple_filenames_loop]. change (in_line f) with (in_tag f +:+ nl).
  pose proof (strip_in_tag 0 f nl eq_refl) as Hs. cbn [str_repeat] in Hs.
  change ("" +:+ in_tag f +:+ nl) with (in_tag f +:+ nl) in Hs. rewrite !Hs.
  rewrite in_tag_not_closing.
  change (startswith (in_tag f) "<!--") with false. cbn iota.
  rewrite strip_in_tag_self, (re_search_in_tag f Hne Hnl). cbn [nth].
  now rewrite IH.
Qed.

Lemma long_name_lacks c i : Ascii.eqb "a" c = false -> lacks c (long_name i) = true.
Proof.
  intros Hc. unfold long_name. induction (S i) as [|k IH]; [reflexivity|].
  cbn [str_repeat]. now rewrite lacks_cons, Hc, IH.
Qed.

Lemma long_name_length i : String.length (long_name i) = S i.
Proof.
  unfold long_name. induction (S i) as [|k IH]; [reflexivity|].
  cbn [str_repeat String.length]. now rewrite IH.
Qed.

Lemma long_name_good i : good (long_name i).
Proof.
  split; [discriminate|]. split; [|now apply long_name_lacks].
  unfold long_name. cbn [str_repeat]. discriminate.
Qed.

(** The directory recorded for the file [f] of a directory [long_name i]. *)
Lemma ntuple_dir_of_long_name i : ntuple_dir_of (long_name i +:+ "/f") = long_name i.
Proof.
  unfold ntuple_dir_of.
  assert (Hd : dirname (long_name i +:+ "/f") = long_name i).
  { unfold long_name. rewrite str_repeat_snoc.
    change ((str_repeat "a" i +:+ String "a"%char "") +:+ "/f")
      with ((str_repeat "a" i +:+ String "a"%char "") +:+ "/" +:+ "f").
    now apply dirname_file. }
  rewrite Hd. apply strip_shard_fixed.
  - pose proof (long_name_good i) as Hg.
    destruct (normpath_path_of 0 [long_name i]) as [_ Hn].
    + unfold clean. cbn [rev app clean_stack]. split; [exact Hg|]. split; [|exact I].
      intros E. unfold long_name in E. cbn [str_repeat] in E. discriminate.
    + lia.
    + discriminate.
    + unfold path_of in Hn. cbn [str_repeat join String.concat] in Hn.
      exact Hn.
  - unfold last_segment. rewrite split_lacks by (now apply long_name_lacks).
    cbn [List.last]. rewrite is_shard_eq. unfold long_name. cbn [str_repeat].
    destruct i as [|[|[|[|i]]]]; reflexivity.
Qed.

Lemma NoDup_map_inj {A B : Type} (f : A -> B) (l : list A) :
  (forall x y, f x = f y -> x = y) -> List.NoDup l -> List.NoDup (map f l).
Proof.
  intros Hf. induction 1 as [|x l Hx Hl IH]; cbn [map]; constructor; [|exact IH].
  intros Hin. apply in_map_iff in Hin as (y & E & Hy). apply Hf in E. now subst.
Qed.

Lemma long_dirs_NoDup n : List.NoDup (map ntuple_dir_of (long_refs n)).
Proof.
  unfold long_refs. rewrite map_map.
  rewrite (map_ext _ long_name) by (intros i; apply ntuple_dir_of_long_name).
  apply NoDup_map_inj; [|apply List.seq_NoDup].
  intros x y E. apply (f_equal String.length) in E.
  rewrite !long_name_length in E. now injection E.
Qed.

(** A descriptor whose references all lie in different directories has as
    many directories as references. *)
Lemma ntuple_dirs_set_length fnames :
  List.NoDup (map ntuple_dir_of fnames) ->
  List.length (elements (ntuple_dirs_set fnames)) = List.length fnames.
Proof.
  intros Hnd. apply Nat.le_antisymm.
  - change (size (ntuple_dirs_set fnames) <= List.length fnames)%nat.
    unfold ntuple_dirs_set.
    pose proof (fold_dirs_size fnames ∅) as H. now rewrite size_empty in H.
  - rewrite <- (length_map ntuple_dir_of fnames).
    apply List.NoDup_incl_length; [exact Hnd|].
    intros x Hx. apply in_map_iff in Hx as (f & <- & Hf).
    apply list_elem_of_In, elem_of_elements. now apply ntuple_dirs_set_in.
Qed.

Lemma long_refs_plain n :
  List.Forall (fun f => f <> "" /\ lacks newline f = true) (long_refs n).
Proof.
  unfold long_refs. apply List.Forall_forall. intros f Hf.
  apply in_map_iff in Hf as (i & <- & _). split.
  - unfold long_name. cbn [str_repeat append]. discriminate.
  - rewrite lacks_app, long_name_lacks by reflexivity. reflexivity.
Qed.

(** The run on the root with the long descriptor: as many rows as
    references. *)
Lemma long_run n :
  exists st rows,
    xml_ntuple_dir_rows (long_env n) "/scan" = Ok (st, rows)
    /\ List.length rows = n.
Proof.
  unfold xml_ntuple_dir_rows.
  change (get_xml_filenames (long_env n) "/scan") with (@Ok (list string) ["a.xml"]).
  cbn [bind ntuple_rows_of_xmls].
  unfold get_ntuple_dirs_from_xml, get_ntuple_filenames_from_xml.
  change (open_lines (long_env n) (path_join "/scan" "a.xml"))
    with (Ok (file_lines (long_xml n))).
  cbn [bind]. unfold long_xml.
  pose proof (long_refs_plain n) as Hp.
  rewrite file_lines_refs
    by (eapply List.Forall_impl; [|exact Hp]; intros f [_ H]; exact H).
  rewrite (loop_in_lines _ Hp).
  destruct (ntuple_rows_of_dirs_ok (long_env n) "a.xml" {| counter := 0; slept := 0 |}
              (elements (ntuple_dirs_set (long_refs n)))) as (st & rows & E & _).
  rewrite E. cbn [bind fst snd]. exists st, (rows ++ []). split; [reflexivity|].
  apply rows_of_dirs_state in E as (_ & Hl & _).
  rewrite app_nil_r, Hl, ntuple_dirs_set_length by apply long_dirs_NoDup.
  unfold long_refs. now rewrite length_map, length_seq.
Qed.

(** The witness is the run over a descriptor with 1001 directories, which
    passes the thousandth row and sleeps once. *)
Lemma xml_ntuple_dir_rows_throttle_witness :
  exists st rows,
    xml_ntuple_dir_rows (long_env 1001) "/scan" = Ok (st, rows)
    /\ List.length rows = 1001%nat
    /\ counter st = 1001%nat
    /\ slept st = 5%nat.
Proof.
  destruct (long_run 1001) as (st & rows & E & Hl).
  exists st, rows. split; [exact E|].
  destruct (xml_ntuple_dir_rows_throttle (long_env 1001) "/scan" st rows E) as [Hc Hs].
  rewrite Hc, Hs, Hl. repeat split; reflexivity.
Defined.

End LongRun.

(** ** The answers of git *)

Section Git.

Lemma str_all_impl (f g : ascii -> bool) s :
  (forall c, f c = true -> g c = true) -> str_all f s = true -> str_all g s = true.
Proof.
  intros H. induction s as [|c s IH]; [reflexivity|].
  rewrite !str_all_cons. intros Hs. apply andb_true_iff in Hs as [Hc Hs].
  now rewrite (H c Hc), (IH Hs).
Qed.

Lemma fields_word w rest :
  word w -> starts_with_space rest ->
  fields is_bspace (w +:+ rest) = w :: fields is_bspace rest.
Proof.
  intros [Hne Hw] Hr. induction w as [|c w IH]; [contradiction|].
  rewrite str_all_cons in Hw. apply andb_true_iff in Hw as [Hc Hw].
  apply negb_true_iff in Hc. cbn [append fields]. rewrite Hc.
  destruct w as [|c2 w].
  - cbn [append]. destruct rest as [|c' rest]; [reflexivity|].
    cbn [starts_with_space] in Hr. now rewrite Hr.
  - cbn [append]. pose proof Hw as Hw'. rewrite str_all_cons in Hw'.
    apply andb_true_iff in Hw' as [Hc2 _]. apply negb_true_iff in Hc2. rewrite Hc2.
    change (String c2 (w +:+ rest)) with (String c2 w +:+ rest).
    rewrite IH by (discriminate || exact Hw). reflexivity.
Qed.

Lemma fields_blanks sep rest :
  str_all is_bspace sep = true ->
  fields is_bspace (sep +:+ rest) = fields is_bspace rest.
Proof.
  induction sep as [|c sep IH]; [reflexivity|]. rewrite str_all_cons.
  intros H. apply andb_true_iff in H as [Hc Hs]. cbn [append fields].
  rewrite Hc. now apply IH.
Qed.

Lemma blank_is_space c : is_blank c = true -> is_bspace c = true.
Proof.
  unfold is_blank. intros H. apply orb_true_iff in H as [H|H];
    apply Ascii.eqb_eq in H; now subst.
Qed.

Lemma blanks_start sep rest : blanks sep -> starts_with_space (sep +:+ rest).
Proof.
  intros [Hne Hs]. destruct sep as [|c sep]; [contradiction|].
  rewrite str_all_cons in Hs. apply andb_true_iff in Hs as [Hc _].
  now apply blank_is_space.
Qed.

(** The fields of a line of three words. *)
Lemma fields_remote_line name sep1 url sep2 kind :
  word name -> blanks sep1 -> word url -> blanks sep2 -> word kind ->
  fields is_bspace (remote_line name sep1 url sep2 kind) = [name; url; kind].
Proof.
  intros Hn H1 Hu H2 Hk. unfold remote_line.
  rewrite fields_word by (assumption || now apply blanks_start).
  rewrite fields_blanks by (apply (str_all_impl is_blank); [apply blank_is_space | apply H1]).
  rewrite fields_word by (assumption || now apply blanks_start).
  rewrite fields_blanks by (apply (str_all_impl is_blank); [apply blank_is_space | apply H2]).
  rewrite <- (app_empty_r kind) at 1. rewrite fields_word by (assumption || exact I).
  reflexivity.
Qed.

Lemma splitlines_first line more :
  str_all no_line_end line = true ->
  splitlines (line +:+ String newline more) = line :: splitlines more.
Proof.
  induction line as [|c line IH]; intros H.
  - cbn [append splitlines]. now rewrite Ascii.eqb_refl.
  - rewrite str_all_cons in H. apply andb_true_iff in H as [Hc Hl].
    unfold no_line_end in Hc. apply andb_true_iff in Hc as [Hn Hr].
    apply negb_true_iff in Hn, Hr. cbn [append splitlines].
    rewrite Hn, Hr, (IH Hl). reflexivity.
Qed.

Lemma word_no_line_end w : word w -> str_all no_line_end w = true.
Proof.
  intros [_ H]. eapply str_all_impl; [|exact H]. intros c Hc.
  apply negb_true_iff in Hc. unfold no_line_end.
  destruct (Ascii.eqb_spec c newline) as [->|]; [discriminate|].
  destruct (Ascii.eqb_spec c carriage_return) as [->|]; [discriminate|]. reflexivity.
Qed.

Lemma blanks_no_line_end s : blanks s -> str_all no_line_end s = true.
Proof.
  intros [_ H]. eapply str_all_impl; [|exact H]. intros c Hc.
  unfold is_blank in Hc. apply orb_true_iff in Hc as [Hc|Hc];
    apply Ascii.eqb_eq in Hc; now subst.
Qed.

Lemma remote_line_no_line_end name sep1 url sep2 kind :
  word name -> blanks sep1 -> word url -> blanks sep2 -> word kind ->
  str_all no_line_end (remote_line name sep1 url sep2 kind) = true.
Proof.
  intros Hn H1 Hu H2 Hk. unfold remote_line. rewrite !str_all_app.
  now rewrite (word_no_line_end _ Hn), (blanks_no_line_end _ H1),
    (word_no_line_end _ Hu), (blanks_no_line_end _ H2), (word_no_line_end _ Hk).
Qed.

(** ASCII text is UTF-8, and decoding leaves it as it is. *)
Lemma decode_ascii s : ascii_text s -> decode s = Ok s.
Proof.
  unfold ascii_text, decode. intros H.
  assert (Hv : utf8_valid [] s = true); [|now rewrite Hv].
  induction s as [|c s IH]; [reflexivity|].
  rewrite str_all_cons in H. apply andb_true_iff in H as [Hc Hs].
  cbn [utf8_valid]. unfold utf8_lead. unfold in_range in Hc. cbn [Nat.leb andb] in Hc.
  rewrite Hc. now apply IH.
Qed.

(** What [get_git_remote_info] does with the first line: a field that is
    not UTF-8 stops it, and otherwise the answer is read off the address. *)
Lemma get_git_remote_info_first_line name sep1 url sep2 kind more :
  word name -> blanks sep1 -> word url -> blanks sep2 -> word kind ->
  get_git_remote_info (remote_line name sep1 url sep2 kind +:+ String newline more)
  = do remote_name <- decode name ;
    do remote_url <- decode url ;
    Ok (remote_name,
        if endswith remote_url ".git"
        then replace ".git" "" (List.last (split slash remote_url) "")
        else List.last (split slash (normpath remote_url)) "").
Proof.
  intros Hn H1 Hu H2 Hk. unfold get_git_remote_info.
  rewrite splitlines_first by (now apply remote_line_no_line_end).
  cbn [bind]. now rewrite fields_remote_line.
Qed.

Lemma endswith_app s p : endswith (s +:+ p) p = true.
Proof.
  induction s as [|c s IH]; cbn [append].
  - destruct p; cbn [endswith]; now rewrite String.eqb_refl.
  - cbn [endswith]. rewrite IH. apply orb_true_r.
Qed.

Lemma last_split_app d x :
  lacks slash x = true -> List.last (split slash (d +:+ "/" +:+ x)) "" = x.
Proof.
  intros H. change (d +:+ "/" +:+ x) with (d +:+ String slash x).
  now rewrite split_app_sep, (split_lacks _ _ H), last_last.
Qed.

Lemma no_early_git x :
  x <> "" -> contains ".git" x = false -> is_prefix ".git" (x +:+ ".git") = false.
Proof.
  intros Hne H. destruct x as [|c1 [|c2 [|c3 [|c4 x]]]]; [contradiction| | | |].
  - cbn [append is_prefix]. apply andb_false_r.
  - cbn [append is_prefix]. rewrite !andb_false_r. reflexivity.
  - cbn [append is_prefix]. rewrite !andb_false_r. reflexivity.
  - cbn [contains] in H. apply orb_false_iff in H as [H _].
    cbn [append is_prefix] in *. exact H.
Qed.

(** Taking [".git"] out of a name that does not hold it and is followed by
    it leaves the name. *)
Lemma replace_git repo :
  contains ".git" repo = false -> replace ".git" "" (repo +:+ ".git") = repo.
Proof.
  unfold replace. induction repo as [|c repo IH]; intros H; [reflexivity|].
  pose proof (no_early_git (String c repo) ltac:(discriminate) H) as Hp.
  cbn [append] in Hp |- *. cbn [replace_from]. rewrite Hp.
  rewrite IH; [reflexivity|].
  cbn [contains] in H. now apply orb_false_iff in H as [_ H].
Qed.

(** For a first line whose name and address are ASCII text, so that
    decoding them does not fail, and whose address ends with [".git"], the
    name of the repository is what stands between the last slash and that
    ending. *)
Theorem get_git_remote_info_git_url :
  forall name sep1 base repo sep2 kind more : string,
    word name -> blanks sep1 -> word (base +:+ "/" +:+ repo +:+ ".git") ->
    blanks sep2 -> word kind ->
    ascii_text name -> ascii_text (base +:+ "/" +:+ repo +:+ ".git") ->
    lacks slash repo = true -> contains ".git" repo = false ->
    get_git_remote_info
      (remote_line name sep1 (base +:+ "/" +:+ repo +:+ ".git") sep2 kind
         +:+ String newline more)
    = Ok (name, repo).
Proof.
  intros name sep1 base repo sep2 kind more Hn H1 Hu H2 Hk Han Hau Hs Hg.
  rewrite get_git_remote_info_first_line by assumption.
  rewrite !decode_ascii by assumption. cbn [bind].
  replace (base +:+ "/" +:+ repo +:+ ".git") with ((base +:+ "/" +:+ repo) +:+ ".git")
    by (now rewrite !app_assoc_str).
  rewrite endswith_app. rewrite !app_assoc_str.
  rewrite last_split_app by (now rewrite lacks_app, Hs).
  now rewrite replace_git.
Qed.

Ltac word_of_text := split; [discriminate | reflexivity].

Lemma get_git_remote_info_git_url_witness :
  get_git_remote_info
    (remote_line "origin" (String "009" "") ("https://github.com/UHH2" +:+ "/"
                   +:+ "UHH2-datasets" +:+ ".git") " " "(fetch)"
       +:+ String newline (remote_line "origin" (String "009" "")
                             "https://github.com/UHH2/UHH2-datasets.git" " "
                             "(push)" +:+ nl))
  = Ok ("origin", "UHH2-datasets").
Proof.
  apply get_git_remote_info_git_url; try word_of_text; reflexivity.
Defined.

(** For a first line whose name and address are ASCII text, so that
    decoding them does not fail, and whose address does not end with
    [".git"], the name of the repository is the last segment of the
    address, a plain segment. *)
Theorem get_git_remote_info_plain_url :
  forall name sep1 d repo sep2 kind more : string,
    word name -> blanks sep1 -> word (d +:+ "/" +:+ repo) ->
    blanks sep2 -> word kind ->
    ascii_text name -> ascii_text (d +:+ "/" +:+ repo) ->
    good repo -> repo <> ".." ->
    endswith (d +:+ "/" +:+ repo) ".git" = false ->
    get_git_remote_info
      (remote_line name sep1 (d +:+ "/" +:+ repo) sep2 kind +:+ String newline more)
    = Ok (name, repo).
Proof.
  intros name sep1 d repo sep2 kind more Hn H1 Hu H2 Hk Han Hau Hg Hdd He.
  rewrite get_git_remote_info_first_line by assumption.
  rewrite !decode_ascii by assumption. cbn [bind]. rewrite He.
  destruct (normpath_child d repo Hg Hdd) as [Hc ->].
  rewrite split_path_of; [|now destruct (fold_left _ _ _) | now apply clean_good in Hc].
  now rewrite app_assoc, last_last.
Qed.

Lemma get_git_remote_info_plain_url_witness :
  get_git_remote_info
    (remote_line "origin" (String "009" "") ("git@github.com:UHH2" +:+ "/" +:+ "UHH2")
       " " "(fetch)" +:+ String newline "")
  = Ok ("origin", "UHH2").
Proof.
  apply get_git_remote_info_plain_url; try word_of_text; try reflexivity.
  - split; [discriminate | split; [discriminate | reflexivity]].
  - discriminate.
Defined.

End Git.

(** ** The directories of a user *)

Section UserDirs.

Lemma lstat_raise env path e : lstat env path = Raise e -> e = OSError path.
Proof.
  unfold lstat. destruct (resolve env path) as [[c [st|]|st es]|]; congruence.
Qed.

Lemma user_dir_row_ok env dirname size st :
  lstat env dirname = Ok st ->
  exists u,
    user_dir_row env (dirname, size)
    = Ok [ ("dirname", VStr dirname); ("size", VFloat size); ("user", VStr u);
           ("creation_time", VStr (isoformat_local env (st_ctime st))) ].
Proof.
  intros H. unfold user_dir_row, get_creation_time. cbn [fst snd].
  destruct (get_dir_user_total dirname) as [u ->]. rewrite H. cbn [bind].
  now exists (opt_str_or u "").
Qed.

(** When every listed directory can be examined, the listing gives one row
    for each directory, in order, and the [user] of a row is always a
    text, empty when the path shows no owner. *)
Theorem get_user_dir_data_rows :
  forall (env : os_env) (listing : list (string * Q)),
    (forall e, In e listing -> exists st, lstat env (fst e) = Ok st) ->
    exists rows,
      get_user_dir_data env listing = Ok rows
      /\ map (row_get "dirname") rows = map (fun e => Some (VStr (fst e))) listing
      /\ List.Forall (fun r => exists u, row_get "user" r = Some (VStr u)) rows.
Proof.
  intros env listing. unfold get_user_dir_data.
  induction listing as [|[d size] listing IH]; intros H.
  - exists []. repeat split. constructor.
  - destruct (H (d, size) (or_introl eq_refl)) as [st Hst].
    destruct (user_dir_row_ok env d size st Hst) as [u Hu].
    destruct IH as (rows & E & Hd & Hu'); [intros e He; apply H; now right|].
    cbn [mapM]. rewrite Hu, E. cbn [bind]. eexists. split; [reflexivity|].
    split.
    + cbn [map fst row_get String.eqb Ascii.eqb Bool.eqb andb]. now rewrite Hd.
    + constructor; [now exists u | exact Hu'].
Qed.

Lemma get_user_dir_data_rows_witness :
  exists rows,
    get_user_dir_data (scan_env []) [("/scan", 4 # 1)] = Ok rows
    /\ map (row_get "dirname") rows = [Some (VStr "/scan")]
    /\ List.Forall (fun r => exists u, row_get "user" r = Some (VStr u)) rows.
Proof.
  apply (get_user_dir_data_rows (scan_env []) [("/scan", 4 # 1)]).
  intros e [<-|[]]. eexists. reflexivity.
Defined.

(** A listed directory that cannot be examined stops the listing with an
    [OSError], the directories before it having been examined: there is no
    row of sentinels as for the directories of the descriptors. *)
Theorem get_user_dir_data_missing :
  forall (env : os_env) (pre : list (string * Q)) (e : string * Q)
         (post : list (string * Q)),
    (forall e', In e' pre -> exists st, lstat env (fst e') = Ok st) ->
    (forall st, lstat env (fst e) <> Ok st) ->
    get_user_dir_data env (pre ++ e :: post) = Raise (OSError (fst e)).
Proof.
  intros env pre e post Hpre He. unfold get_user_dir_data.
  induction pre as [|[d size] pre IH]; cbn [app mapM].
  - unfold user_dir_row, get_creation_time.
    destruct (get_dir_user_total (fst e)) as [u ->]. cbn [bind].
    destruct (lstat env (fst e)) as [st|x] eqn:E; [now destruct (He st)|].
    apply lstat_raise in E as ->. reflexivity.
  - destruct (Hpre (d, size) (or_introl eq_refl)) as [st Hst].
    destruct (user_dir_row_ok env d size st Hst) as [u ->]. cbn [bind].
    rewrite IH; [reflexivity|]. intros e' He'. apply Hpre. now right.
Qed.

Lemma get_user_dir_data_missing_witness :
  get_user_dir_data (scan_env [])
    ([("/scan", 4 # 1)] ++ ("/pnfs/desy.de/store/user/alice/job", 8 # 1) :: [])
  = Raise (OSError "/pnfs/desy.de/store/user/alice/job").
Proof.
  apply (get_user_dir_data_missing (scan_env []) [("/scan", 4 # 1)]
           ("/pnfs/desy.de/store/user/alice/job", 8 # 1) []).
  - intros e [<-|[]]. eexists. reflexivity.
  - intros st H. discriminate.
Defined.

End UserDirs.


(** ** Rows and columns *)

Section Columns.

Lemma rows_of_dirs_keys env xml_path st dirs st' rows :
  ntuple_rows_of_dirs env xml_path st dirs = Ok (st', rows) ->
  List.Forall
    (fun r => row_keys r
              = ["ntuple_dir"; "size"; "user"; "creation_time"; "xml_filepath"])
    rows.
Proof.
  revert st st' rows. induction dirs as [|d dirs IH]; intros st st' rows H.
  - cbn in H. injection H as <- <-. constructor.
  - cbn [ntuple_rows_of_dirs] in H.
    destruct (get_ntuple_dir_data_cases env d)
      as (u & _ & [[_ E]|[_ (s & _ & E)]]); rewrite E in H; cbn [bind] in H;
      match type of H with
      | context [ntuple_rows_of_dirs env xml_path ?s0 dirs] =>
          destruct (ntuple_rows_of_dirs env xml_path s0 dirs) as [[st2 rows2]|] eqn:E2;
          [|discriminate]
      end;
      cbn [bind fst snd] in H; injection H as <- <-;
      (constructor; [reflexivity | now apply (IH _ _ _ E2)]).
Qed.

Lemma rows_of_xmls_keys env top_dir st xml_paths st' rows :
  ntuple_rows_of_xmls env top_dir st xml_paths = Ok (st', rows) ->
  List.Forall
    (fun r => row_keys r
              = ["ntuple_dir"; "size"; "user"; "creation_time"; "xml_filepath"])
    rows.
Proof.
  revert st st' rows. induction xml_paths as [|x xs IH]; intros st st' rows H.
  - cbn in H. injection H as <- <-. constructor.
  - cbn [ntuple_rows_of_xmls] in H.
    destruct (get_ntuple_dirs_from_xml env (path_join top_dir x)) as [dirs|];
      [|discriminate].
    cbn [bind] in H.
    destruct (ntuple_rows_of_dirs env x st dirs) as [[st1 rows1]|] eqn:E1;
      [|discriminate].
    cbn [bind fst snd] in H.
    destruct (ntuple_rows_of_xmls env top_dir st1 xs) as [[st2 rows2]|] eqn:E2;
      [|discriminate].
    cbn [bind fst snd] in H. injection H as <- <-.
    apply Forall_app. split; [now apply rows_of_dirs_keys in E1 | now apply IH in E2].
Qed.

Lemma user_dir_rows_keys env listing rows :
  mapM (user_dir_row env) listing = Ok rows ->
  List.Forall (fun r => row_keys r = ["dirname"; "size"; "user"; "creation_time"]) rows.
Proof.
  revert rows. induction listing as [|e listing IH]; intros rows H; cbn [mapM] in H.
  - injection H as <-. constructor.
  - destruct (user_dir_row env e) as [r|] eqn:Er; [|discriminate]. cbn [bind] in H.
    destruct (mapM (user_dir_row env) listing) as [rs|]; [|discriminate].
    cbn [bind] in H. injection H as <-. constructor; [|now apply IH].
    unfold user_dir_row in Er. destruct (get_dir_user (fst e)); [|discriminate].
    cbn [bind] in Er. destruct (get_creation_time env (fst e)); [|discriminate].
    cbn [bind] in Er. now injection Er as <-.
Qed.

(** Every row that a generator yields has as its keys the columns with
    which its table is created, each once: in another order for the table
    of the descriptors and for that of their directories, in the same
    order for the table of the directories of a user. So every insertion
    names the columns of the table, and no other. *)
Theorem rows_have_the_columns :
  forall (env : os_env) (top_dir : string),
    (forall git_source rows,
        xml_file_rows env top_dir git_source = Ok rows ->
        List.Forall
          (fun r => Permutation (row_keys r) (map column_name xml_table_fields))
          rows)
    /\ (forall st rows,
           xml_ntuple_dir_rows env top_dir = Ok (st, rows) ->
           List.Forall
             (fun r => Permutation (row_keys r)
                         (map column_name xml_ntuple_dir_table_fields))
             rows)
    /\ (forall listing rows,
           get_user_dir_data env listing = Ok rows ->
           List.Forall
             (fun r => row_keys r = map column_name user_dir_table_fields) rows).
Proof.
  intros env top_dir. split; [|split].
  - intros git_source rows H. unfold xml_file_rows in H.
    destruct (get_xml_filenames env top_dir) as [names|]; [|discriminate].
    cbn [bind] in H.
    rewrite (mapM_ok _ (descriptor_row git_source)) in H
      by (intros a; apply get_xml_data_ok).
    injection H as <-. apply List.Forall_forall. intros r Hr.
    apply in_map_iff in Hr as (name & <- & _).
    change (Permutation ["filepath"; "year"; "branch"; "git_src"]
              ["filepath"; "branch"; "git_src"; "year"]).
    apply perm_skip. apply (Permutation_cons_append ["branch"; "git_src"] "year").
  - intros st rows H. unfold xml_ntuple_dir_rows in H.
    destruct (get_xml_filenames env top_dir) as [names|]; [|discriminate].
    cbn [bind] in H. apply rows_of_xmls_keys in H.
    eapply List.Forall_impl; [|exact H]. intros r ->.
    change (Permutation
              ["ntuple_dir"; "size"; "user"; "creation_time"; "xml_filepath"]
              ["xml_filepath"; "ntuple_dir"; "size"; "user"; "creation_time"]).
    symmetry.
    apply (Permutation_cons_append ["ntuple_dir"; "size"; "user"; "creation_time"]
             "xml_filepath").
  - intros listing rows H. now apply user_dir_rows_keys in H.
Qed.

Lemma rows_have_the_columns_witness :
  List.Forall
    (fun r => Permutation (row_keys r) (map column_name xml_table_fields))
    [descriptor_row "UHH2-datasets/master" "a.xml"]
  /\ List.Forall
       (fun r => row_keys r = map column_name user_dir_table_fields)
       (match get_user_dir_data (scan_env []) [("/scan", 4 # 1)] with
        | Ok rows => rows
        | Raise _ => []
        end).
Proof.
  destruct (rows_have_the_columns (scan_env []) "/scan") as (Ha & _ & Hc).
  split.
  - apply (Ha "UHH2-datasets/master"). vm_compute. reflexivity.
  - apply (Hc [("/scan", 4 # 1)]). reflexivity.
Defined.

End Columns.

(** ** The owner does not depend on how the path is written *)

Section OwnerInvariance.

Lemma join_cons_char c w ws :
  join "/" (String c w :: ws) = String c (join "/" (w :: ws)).
Proof. now destruct ws. Qed.

(** Joining undoes splitting. *)
Lemma join_split s : join "/" (split slash s) = s.
Proof.
  induction s as [|c s IH]; [reflexivity|]. cbn [split].
  destruct (Ascii.eqb_spec c slash) as [->|Hc].
  - destruct (split slash s) as [|w ws] eqn:E; [now apply split_not_nil in E|].
    rewrite join_cons, IH. reflexivity.
  - destruct (split slash s) as [|w ws] eqn:E; [now apply split_not_nil in E|].
    now rewrite join_cons_char, IH.
Qed.

Lemma removelast_sublist (l : list string) : sublist (List.removelast l) l.
Proof.
  destruct l as [|a l]; [constructor|].
  rewrite (snoc_of_not_nil (a :: l)) at 2 by discriminate.
  now apply sublist_inserts_r.
Qed.

Lemma step_sublist k acc c : sublist (normpath_step k acc c) (acc ++ [c]).
Proof.
  unfold normpath_step.
  destruct (String.eqb c "" || String.eqb c "."); [now apply sublist_inserts_r|].
  destruct (negb (String.eqb c "..") || _ || _); [reflexivity|].
  destruct (negb (is_nil acc)); [|now apply sublist_inserts_r].
  apply sublist_inserts_r, removelast_sublist.
Qed.

Lemma fold_sublist k l acc :
  sublist (fold_left (normpath_step k) l acc) (acc ++ l).
Proof.
  revert acc. induction l as [|c l IH]; intros acc; cbn [fold_left].
  - now rewrite app_nil_r.
  - etransitivity; [apply IH|].
    change (c :: l) with ([c] ++ l). rewrite app_assoc.
    apply sublist_app; [apply step_sublist | reflexivity].
Qed.

(** The components kept are components of the path, in their order. *)
Lemma kept_sublist path : sublist (kept path) (split slash path).
Proof. apply (fold_sublist _ _ []). Qed.

Lemma contains_of_segments m s a b :
  split slash s = a ++ m :: b -> a <> [] -> b <> [] ->
  contains ("/" +:+ m +:+ "/") s = true.
Proof.
  intros E Ha Hb. rewrite <- (join_split s), E.
  rewrite join_app by (assumption || discriminate).
  destruct b as [|y b]; [contradiction|]. rewrite join_cons.
  replace (join "/" a +:+ "/" +:+ m +:+ "/" +:+ join "/" (y :: b))
    with (join "/" a +:+ ("/" +:+ m +:+ "/") +:+ join "/" (y :: b))
    by (now rewrite !app_assoc_str).
  apply contains_intro.
Qed.

Lemma after_leading k (l sa : list string) m sb :
  m <> "" -> List.repeat "" k ++ l = sa ++ m :: sb ->
  exists l1, l = l1 ++ m :: sb.
Proof.
  intros Hm. revert sa. induction k as [|k IH]; intros sa E.
  - now exists sa.
  - destruct sa as [|x sa]; cbn [List.repeat app] in E.
    + injection E as E _. now destruct Hm.
    + injection E as _ E. now apply (IH sa).
Qed.

Lemma sublist_not_nil (x y : list string) : sublist x y -> x <> [] -> y <> [].
Proof. intros H Hx ->. apply sublist_nil_r in H. contradiction. Qed.

Lemma singleton_not_between (x : string) sa m sb :
  sa <> [] -> [x] = sa ++ m :: sb -> False.
Proof. destruct sa as [|? [|? ?]]; cbn; intros; (contradiction || discriminate). Qed.

(** A marker between two slashes in the separator-normal form of a path is
    between two slashes in the path. *)
Lemma marker_in_raw m path :
  m <> "" -> lacks slash m = true ->
  contains ("/" +:+ m +:+ "/") (normpath path) = true ->
  contains ("/" +:+ m +:+ "/") path = true.
Proof.
  intros Hne Hm H. apply contains_elim in H as (a & b & E).
  assert (Es : split slash (normpath path) = split slash a ++ m :: split slash b).
  { rewrite E.
    replace (("/" +:+ m +:+ "/") +:+ b) with (String slash (m +:+ String slash b))
      by (cbn [append]; now rewrite app_assoc_str).
    now rewrite !split_app_sep, (split_lacks _ _ Hm). }
  pose proof (split_not_nil slash a) as Ha. pose proof (split_not_nil slash b) as Hb.
  destruct (String.eqb_spec path "") as [->|Hp].
  { exfalso. exact (singleton_not_between "." _ m _ Ha Es). }
  rewrite normpath_render in Es by exact Hp.
  pose proof (kept_clean path) as Hc. pose proof (kept_sublist path) as Hs.
  remember (initial_slashes_of path) as k eqn:Hk0.
  remember (kept path) as l eqn:Hl0.
  assert (El : List.repeat "" k ++ l = split slash a ++ m :: split slash b).
  { destruct (String.eqb_spec (path_of k l) "") as [E0|E0].
    - exfalso. unfold render in Es. unfold path_of in E0.
      destruct k as [|k]; [|discriminate]. cbn [Nat.eqb str_repeat append] in *.
      rewrite E0 in Es. exact (singleton_not_between "." _ m _ Ha Es).
    - rewrite (render_path_of _ _ E0) in Es. destruct l as [|x l0].
      + exfalso. rewrite split_slashes in Es.
        assert (Hin : In m (List.repeat "" k ++ [""]))
          by (rewrite Es; apply in_or_app; right; now left).
        apply in_app_or in Hin as [Hin|[Hin|[]]];
          [apply repeat_spec in Hin | ]; now apply Hne.
      + rewrite split_path_of in Es by (discriminate || now apply clean_good in Hc).
        exact Es. }
  destruct k as [|k'].
  - cbn [List.repeat app] in El. rewrite El in Hs.
    apply sublist_app_l in Hs as (k1 & k2 & Ep & H1 & H2).
    apply sublist_cons_l in H2 as (k21 & k22 & -> & H2).
    rewrite app_assoc in Ep.
    apply (contains_of_segments m path (k1 ++ k21) k22 Ep).
    + apply sublist_not_nil in H1; [|exact Ha]. now destruct k1.
    + now apply (sublist_not_nil _ _ H2).
  - destruct (after_leading _ _ _ _ _ Hne El) as [l1 El1]. rewrite El1 in Hs.
    apply sublist_app_l in Hs as (k1 & k2 & Ep & H1 & H2).
    apply sublist_cons_l in H2 as (k21 & k22 & -> & H2).
    rewrite app_assoc in Ep.
    apply (contains_of_segments m path (k1 ++ k21) k22 Ep).
    + intros E0. rewrite E0 in Ep. cbn [app] in Ep.
      assert (Hk : startswith path "/" = true).
      { unfold initial_slashes_of in Hk0.
        destruct (startswith path "/"); [reflexivity | discriminate]. }
      unfold startswith in Hk. destruct path as [|c path]; [discriminate|].
      cbn [is_prefix] in Hk. apply andb_true_iff in Hk as [Hk _].
      apply Ascii.eqb_eq in Hk as <-. cbn [split] in Ep.
      change (Ascii.eqb "/" slash) with true in Ep. cbn iota in Ep.
      injection Ep as Ep _. now apply Hne.
    + now apply (sublist_not_nil _ _ H2).
Qed.

(** The owner of a path is that of its separator-normal form: doubled
    slashes, dots and a slash at the end do not change it, and the first
    look of [get_dir_user] at the path as written never decides alone. *)
Theorem get_dir_user_normpath :
  forall ntuple_dir : string,
    get_dir_user (normpath ntuple_dir) = get_dir_user ntuple_dir.
Proof.
  intros p. unfold get_dir_user. rewrite normpath_idem.
  destruct (contains "/user/" (normpath p)) eqn:Hu.
  - pose proof (marker_in_raw "user" p ltac:(discriminate) eq_refl Hu) as Hr.
    change ("/" +:+ "user" +:+ "/") with "/user/" in Hr. now rewrite Hr.
  - destruct (contains "/group/" (normpath p)) eqn:Hg.
    + pose proof (marker_in_raw "group" p ltac:(discriminate) eq_refl Hg) as Hr.
      change ("/" +:+ "group" +:+ "/") with "/group/" in Hr.
      now rewrite Hr, !andb_false_r.
    + cbn [negb andb]. now destruct (negb (contains "/user/" p) && _).
Qed.

End OwnerInvariance.

(** ** The row of a directory that exists *)

Section Existing.

(** In a tree without a negative size, the row of a directory that exists
    never holds a sentinel. Its size is that of [get_size]: the double
    nearest to the sum of the sizes over 1024, which is not negative, is the
    exact quotient when the sum has at most 53 bits, and differs from it by
    one part in 2^53 at most. Its creation time is that of the directory
    itself. The sum is taken below 2^1024, far from where the division
    overflows. *)
Theorem get_ntuple_dir_data_existing :
  forall (env : os_env) (ntuple_dir : string),
    tree_sizes_ok (fs_root env) -> isdir env ntuple_dir = true ->
    (total_size env ntuple_dir < 2 ^ 1024)%Z ->
    exists r st,
      get_ntuple_dir_data env ntuple_dir = Ok r
      /\ row_get "size" r = Some (VFloat (get_size env ntuple_dir))
      /\ (0 <= get_size env ntuple_dir)%Q
      /\ ((total_size env ntuple_dir <= 2 ^ 53)%Z ->
          (get_size env ntuple_dir
           = inject_Z (total_size env ntuple_dir) / inject_Z 1024)%Q)
      /\ (Qabs (get_size env ntuple_dir
                - inject_Z (total_size env ntuple_dir) / inject_Z 1024)
          * inject_Z (2 ^ 53)
          <= inject_Z (total_size env ntuple_dir) / inject_Z 1024)%Q
      /\ lstat env ntuple_dir = Ok st
      /\ row_get "creation_time" r = Some (VStr (isoformat_local env (st_ctime st))).
Proof.
  intros env d Hroot Hd _.
  destruct (get_ntuple_dir_data_cases env d) as (u & _ & [[Hf _]|[_ (st & Hst & E)]]);
    [congruence|].
  destruct (get_size_near env d Hroot) as [Hexact Hnear].
  eexists _, st. split; [exact E|]. split; [reflexivity|].
  split; [now apply get_size_ge_0|]. split; [exact Hexact|]. split; [exact Hnear|].
  split; [exact Hst | reflexivity].
Qed.

(** The witness is a directory with one file of 2^53 + 1 bytes: the size of
    its row is 2^43, the exact quotient not being a double. *)
Lemma get_ntuple_dir_data_existing_witness :
  exists r st,
    get_ntuple_dir_data big_env "/big" = Ok r
    /\ row_get "size" r = Some (VFloat (get_size big_env "/big"))
    /\ total_size big_env "/big" = (2 ^ 53 + 1)%Z
    /\ (get_size big_env "/big" == inject_Z (2 ^ 43))%Q
    /\ (Qabs (get_size big_env "/big"
              - inject_Z (total_size big_env "/big") / inject_Z 1024)
        * inject_Z (2 ^ 53)
        <= inject_Z (total_size big_env "/big") / inject_Z 1024)%Q
    /\ lstat big_env "/big" = Ok st
    /\ row_get "creation_time" r
       = Some (VStr (isoformat_local big_env (st_ctime st))).
Proof.
  destruct (get_ntuple_dir_data_existing big_env "/big")
    as (r & st & E & Hs & _ & _ & Hnear & Hst & Hc).
  - cbn. repeat split; lia.
  - reflexivity.
  - vm_compute. reflexivity.
  - exists r, st. split; [exact E|]. split; [exact Hs|].
    split; [vm_compute; reflexivity|]. split; [vm_compute; reflexivity|].
    split; [exact Hnear|]. split; [exact Hst | exact Hc].
Defined.

End Existing.
